(** * templimiter: a shallow embedding of the thermal control daemon

    The development follows the layout of the C++ sources: one Rocq module
    per C++ namespace ([error], [tools], [io], [daemon]) and, inside
    [daemon], one module per class ([Config], [Pid], [Monitor]); the
    argument handling of main.cc is in [cli].

    Conventions of the embedding.
    - A C++ function that may throw returns an [outcome]: [Ok v] for a
      normal return, [Raise k] for a thrown [templimiter::error::Error] of
      kind [k], and [Undefined] where the C++ code indexes a vector out of
      range or dereferences an end iterator.  An exception that leaves
      [Monitor::run_] destroys the monitor, so no state survives a [Raise].
    - Fixed-width integers are [Z] with the wrap-around written out.
    - [float] is IEEE-754 binary32, taken from the [SpecFloat] library.
    - [std::shared_ptr<Pid>] is an address into an explicit object store,
      so that [pids_] and [self_stopped_pids_] alias the same objects. *)

From Stdlib Require Import ZArith List String Ascii Bool Lia.
From Stdlib Require Import DecimalString.
From Stdlib Require DecimalPos DecimalZ.
From Stdlib Require Import Floats.SpecFloat.
Import ListNotations.

Local Open Scope string_scope.
Local Open Scope list_scope.
Local Open Scope Z_scope.

(* ===================================================================== *)
(** * namespace templimiter::error *)
(* ===================================================================== *)

Module error.

(** The five concrete subclasses of [error::Error]; [name] is the string
    returned by the virtual [Error::name()]. *)
Inductive kind : Type :=
| ConfigError
| ArgumentError
| TypeError
| IOError
| InternalError.

Definition name (k : kind) : string :=
  match k with
  | ConfigError => "ConfigError"
  | ArgumentError => "ArgumentError"
  | TypeError => "TypeError"
  | IOError => "IOError"
  | InternalError => "InternalError"
  end.

Definition kind_eqb (a b : kind) : bool := String.eqb (name a) (name b).

Inductive outcome (A : Type) : Type :=
| Ok (a : A)
| Raise (k : kind)
| Undefined.

Arguments Ok {A} a.
Arguments Raise {A} k.
Arguments Undefined {A}.

Definition bind {A B : Type} (m : outcome A) (f : A -> outcome B) : outcome B :=
  match m with
  | Ok a => f a
  | Raise k => Raise k
  | Undefined => Undefined
  end.

(** [try { m } catch (const error::Error &e) { if (e.name() == n) h else throw; }] *)
Definition catch_named {A : Type} (m : outcome A) (n : kind) (h : outcome A) : outcome A :=
  match m with
  | Raise k => if kind_eqb k n then h else Raise k
  | _ => m
  end.

End error.

Import error.

Declare Scope outcome_scope.
Delimit Scope outcome_scope with outcome.
Notation "x <- m ;; k" := (bind m (fun x => k))
  (at level 61, m at next level, right associativity) : outcome_scope.
Notation "m ;;; k" := (bind m (fun _ => k))
  (at level 61, right associativity) : outcome_scope.
Local Open Scope outcome_scope.

(** [v[i]] on a [std::vector]: out of range is undefined behaviour. *)
Definition at_ {A : Type} (v : list A) (i : nat) : outcome A :=
  match nth_error v i with
  | Some a => Ok a
  | None => Undefined
  end.

(** A [for] loop whose body may throw, threading a state. *)
Fixpoint for_each {A S : Type} (body : A -> S -> outcome S) (l : list A) (s : S)
  : outcome S :=
  match l with
  | [] => Ok s
  | a :: l' => s' <- body a s ;; for_each body l' s'
  end.

(** A loop that pushes one converted element per iteration. *)
Fixpoint map_outcome {A B : Type} (f : A -> outcome B) (l : list A)
  : outcome (list B) :=
  match l with
  | [] => Ok []
  | a :: l' => b <- f a ;; bs <- map_outcome f l' ;; Ok (b :: bs)
  end.

(* ===================================================================== *)
(** * Integer types *)
(* ===================================================================== *)

Module ctypes.

Definition ULONG_MAX : Z := 2 ^ 64 - 1.
Definition UINT_MAX : Z := 2 ^ 32 - 1.
Definition INT_MIN : Z := - 2 ^ 31.
Definition INT_MAX : Z := 2 ^ 31 - 1.
Definition LONG_MIN : Z := - 2 ^ 63.
Definition LONG_MAX : Z := 2 ^ 63 - 1.

(** Arithmetic on [u_long] is modulo [2^64]. *)
Definition u_long_wrap (z : Z) : Z := z mod 2 ^ 64.

(** Conversion of an integer to [int] (two's complement, as on Linux). *)
Definition int_wrap (z : Z) : Z := (z + 2 ^ 31) mod 2 ^ 32 - 2 ^ 31.

(** The integer types [tools::convert] is instantiated at. *)
Inductive int_type : Type := t_pid_t | t_int | t_uint | t_long | t_u_long.

Definition in_range (t : int_type) (z : Z) : bool :=
  match t with
  | t_pid_t | t_int => (INT_MIN <=? z) && (z <=? INT_MAX)
  | t_uint => (0 <=? z) && (z <=? UINT_MAX)
  | t_long => (LONG_MIN <=? z) && (z <=? LONG_MAX)
  | t_u_long => (0 <=? z) && (z <=? ULONG_MAX)
  end.

End ctypes.

Import ctypes.

(* ===================================================================== *)
(** * namespace templimiter::tools *)
(* ===================================================================== *)

Module tools.

Definition backslash : ascii := "\"%char.

(** [tools::split] (string.cc).  The C++ loop walks the string by index;
    here the recursion is on the remaining suffix, with the loop's locals
    [chunks], [cur] and [waiting_next] as accumulators.  An escape consumes
    two characters and leaves [waiting_next] as it is. *)
Fixpoint split_loop (str : string) (ch : ascii)
  (chunks : list string) (cur : string) (waiting_next : bool) : list string :=
  let no_escape (c : ascii) (rest : string) :=
    if Ascii.eqb c ch then
      if negb waiting_next then
        if (0 <? String.length cur)%nat
        then split_loop rest ch (chunks ++ [cur]) "" true
        else split_loop rest ch chunks cur waiting_next
      else split_loop rest ch chunks cur waiting_next
    else
      split_loop rest ch chunks (cur ++ String c "") false
  in
  match str with
  | EmptyString =>
      if (0 <? String.length cur)%nat then chunks ++ [cur] else chunks
  | String c rest =>
      if Ascii.eqb c backslash then
        match rest with
        | String c' rest' =>
            split_loop rest' ch chunks (cur ++ String c' "") waiting_next
        | EmptyString => no_escape c rest
        end
      else no_escape c rest
  end.

Definition split (str : string) (ch : ascii) : list string :=
  split_loop str ch [] "" false.

(** [vect.begin() + n] for a vector of [size] elements, as the offset of
    the iterator made.  The iterators of a vector are those of its elements
    and its end; an addition that leaves them is undefined.  What a machine
    makes of it depends on its address arithmetic: a small overshoot
    usually gives an address past the end, a large one wraps around. *)
Definition iterator_plus (size n : Z) : outcome Z :=
  if (0 <=? n) && (n <=? size) then Ok n else Undefined.

(** [tools::subvect] (vector.h); [start_index] and [n_elements] are
    [ptrdiff_t].  Both [new_begin] and [new_end] are made before either is
    compared with [vect.end()], so the two comparisons are reached only
    with iterators of the vector. *)
Definition subvect {A : Type} (vect : list A) (start_index n_elements : Z)
  : outcome (list A) :=
  let size := Z.of_nat (List.length vect) in
  if start_index <? 0 then Raise ArgumentError
  else if n_elements <? 0 then Raise ArgumentError
  else if n_elements =? 0 then Ok []
  else
    new_begin <- iterator_plus size start_index ;;
    new_end <- iterator_plus size (start_index + n_elements) ;;
    if size <=? new_begin then Raise ArgumentError
    else if size <? new_end then Raise ArgumentError
    else Ok (firstn (Z.to_nat (new_end - new_begin))
                    (skipn (Z.to_nat new_begin) vect)).

(** [tools::contains] (vector.h). *)
Fixpoint contains {A : Type} (eqb : A -> A -> bool) (target : list A) (value : A)
  : bool :=
  match target with
  | [] => false
  | v :: target' => if eqb v value then true else contains eqb target' value
  end.

(** [tools::join] (vector.cc).  With an empty vector the C++ loop bound
    [vect.size() - 1] wraps around and [vect.back()] is undefined. *)
Fixpoint join_nonempty (v : string) (vect : list string) (str : string) : string :=
  match vect with
  | [] => v
  | v' :: vect' => v ++ str ++ join_nonempty v' vect' str
  end.

Definition join (vect : list string) (str : string) : outcome string :=
  match vect with
  | [] => Undefined
  | v :: vect' => Ok (join_nonempty v vect' str)
  end.

(** [std::string::npos] and the [size_t] results of [std::string::find]. *)
Definition npos : Z := ULONG_MAX.

Definition find (test frag : string) (pos : nat) : Z :=
  match String.index pos frag test with
  | Some n => Z.of_nat n
  | None => npos
  end.

Definition contains_char (c : ascii) (s : string) : bool :=
  negb (find s (String c "") 0 =? npos).

Definition front_is (c : ascii) (s : string) : bool :=
  match s with
  | String c' _ => Ascii.eqb c' c
  | EmptyString => false
  end.

Fixpoint back_is (c : ascii) (s : string) : bool :=
  match s with
  | EmptyString => false
  | String c' EmptyString => Ascii.eqb c' c
  | String _ s' => back_is c s'
  end.

Definition total_size (slice : list string) : nat :=
  fold_left (fun sum v => (sum + String.length v)%nat) slice 0%nat.

(** The [for] loop of [matches_pattern]: fragment [i] is searched from the
    offset [sum of the sizes of fragments 0..i-1]. *)
Fixpoint found_from (patt_spl : list string) (test : string) (i n : nat)
  : outcome bool :=
  match n with
  | O => Ok true
  | S n' =>
      slice <- subvect patt_spl 0 (Z.of_nat i) ;;
      frag <- at_ patt_spl i ;;
      if find test frag (total_size slice) =? npos then Ok false
      else found_from patt_spl test (S i) n'
  end.

(** [tools::matches_pattern] (string.cc). *)
Definition matches_pattern (pattern test : string) : outcome bool :=
  if negb (contains_char "*" pattern) then Ok (String.eqb pattern test)
  else
    let patt_spl := split pattern "*" in
    anchored_ok <-
      (if negb (front_is "*" pattern) then
         first <- at_ patt_spl 0 ;; Ok (String.prefix first test)
       else Ok true) ;;
    if negb anchored_ok then Ok false
    else
      all_found <- found_from patt_spl test 0 (List.length patt_spl) ;;
      if negb all_found then Ok false
      else
        if negb (back_is "*" pattern) then
          last <- at_ patt_spl (List.length patt_spl - 1) ;;
          if negb (find test last 0 =?
                   u_long_wrap (Z.of_nat (String.length test)
                                - Z.of_nat (String.length last)))
          then Ok false
          else Ok true
        else Ok true.

(** [tools::pattern_vect_contains] (vector.cc). *)
Fixpoint pattern_vect_contains (pattern_vect : list string) (value : string)
  : outcome bool :=
  match pattern_vect with
  | [] => Ok false
  | v :: rest =>
      m <- matches_pattern v value ;;
      if m then Ok true else pattern_vect_contains rest value
  end.

(** ** type-convert.h *)

(** [tools::to_string] at the integer types ([oss << input]). *)
Definition to_string (z : Z) : string := NilZero.string_of_int (Z.to_int z).

(** [tools::to_string] at [bool] ([oss << std::boolalpha << input]). *)
Definition to_string_bool (b : bool) : string := if b then "true" else "false".

(** [tools::convert<T_to>(const std::string &)] at an integer type:
    [iss >> output] followed by the round-trip test
    [to_string(output) != iss.str()], which throws [TypeError].
    The test passes exactly when the input is the decimal numeral that
    [to_string] prints for a value of the target type, so the extraction is
    embedded on signed decimal numerals only: on every other input (leading
    blanks or zeros, a plus sign, trailing characters, a value that the
    stream clamps or wraps) the C++ round trip fails as well. *)
Definition convert_int (t : int_type) (input : string) : outcome Z :=
  match NilZero.int_of_string input with
  | Some d =>
      let output := Z.of_int d in
      if in_range t output && String.eqb (to_string output) input
      then Ok output
      else Raise TypeError
  | None => Raise TypeError
  end.

(** Characters that [operator>>] skips as white space in the C locale. *)
Definition is_space (c : ascii) : bool :=
  let n := nat_of_ascii c in
  (n =? 32)%nat || ((9 <=? n)%nat && (n <=? 13)%nat).

(** [tools::convert<char>(const std::string &)].  [iss >> output] stores the
    first non-blank character; the round-trip test then accepts one-character
    inputs only.  On a single blank the extraction fails and the test reads
    the uninitialised [output]. *)
Definition convert_char (input : string) : outcome ascii :=
  match input with
  | String c EmptyString => if is_space c then Undefined else Ok c
  | _ => Raise TypeError
  end.

(** [tools::convert<bool>(const std::string &)]:
    [iss >> std::boolalpha >> output], which stores [false] when the input
    does not start with a truth name, and the round-trip test.  (Leading
    blanks, which the stream would skip, fail the round trip either way.) *)
Definition convert_bool (input : string) : outcome bool :=
  let output := String.prefix "true" input in
  if negb (String.eqb (to_string_bool output) input) then Raise TypeError
  else Ok output.

(** [tools::convert<std::string>(const std::string &)] returns its input. *)
Definition convert_string (input : string) : outcome string := Ok input.

(** [tools::convert<T_to>(const std::vector<T_from> &)]. *)
Definition convert_vector {T : Type} (conv : string -> outcome T)
  (input : list string) : outcome (list T) :=
  map_outcome conv input.

End tools.

(* ===================================================================== *)
(** * namespace templimiter::io *)
(* ===================================================================== *)

Module io.

(** What the daemon observes of the file system while one operation runs:
    the paths [glob(3)] returns for a pattern (with [GLOB_MARK], so
    directories end in a slash), whether [stat(2)] succeeds on a path, and
    the lines [std::getline] yields from a path when the stream opens. *)
Record filesystem : Type := {
  glob : string -> list string;
  file_exists : string -> bool;
  file_lines : string -> option (list string)
}.

(** [io::ls] (operations.cc). *)
Definition ls (fs : filesystem) (pattern : string) (include_paths : bool)
  : outcome (list string) :=
  map_outcome
    (fun path =>
       if include_paths then Ok path
       else
         let spl := tools.split path "/" in
         sub <- tools.subvect spl (Z.of_nat (List.length spl) - 1) 1 ;;
         tools.join sub "/")
    (glob fs pattern).

(** [File<T>::validate_], run by the constructor. *)
Definition validate_ (path_ : string) : outcome unit :=
  if (String.length path_ =? 0)%nat then Raise ArgumentError
  else if negb (tools.front_is "/" path_) then Raise ArgumentError
  else if tools.back_is "/" path_ then Raise ArgumentError
  else Ok tt.

(** [File<T>::read]: [open_read_] throws [IOError] when the file does not
    exist or the stream fails to open; every line is then converted to [T]. *)
Definition File_read {T : Type} (conv : string -> outcome T)
  (fs : filesystem) (path_ : string) : outcome (list T) :=
  if file_exists fs path_ then
    match file_lines fs path_ with
    | Some lines => map_outcome conv lines
    | None => Raise IOError
    end
  else Raise IOError.

(** [FileCollection<T>::FileCollection(const std::string &pattern)]; the
    object is its vector [files_], kept here as the vector of paths. *)
Definition FileCollection (fs : filesystem) (pattern : string)
  : outcome (list string) :=
  results <- ls fs pattern true ;;
  if (0 <? List.length results)%nat then
    for_each (fun path files_ => validate_ path ;;; Ok (files_ ++ [path]))
             results []
  else Raise ArgumentError.

(** [FileCollection<T>::read]: the lines of all files, in order. *)
Definition FileCollection_read {T : Type} (conv : string -> outcome T)
  (fs : filesystem) (files_ : list string) : outcome (list T) :=
  for_each
    (fun file contents_ =>
       file_contents <- File_read conv fs file ;;
       Ok (contents_ ++ file_contents))
    files_ [].

(** [io::ensure_deep_parent] (operations.cc): the path of the parent
    directory that it tests and, when it is missing, hands to
    [mkdir_deep]. *)
Definition parent_path (file_path : string) : outcome string :=
  let spl := tools.split file_path "/" in
  sub <- tools.subvect spl 0 (Z.of_nat (List.length spl) - 1) ;;
  joined <- tools.join sub "/" ;;
  Ok ("/" ++ joined)%string.

(** [io::mkdir_deep] (operations.cc), over the answers of [stat(2)] and of
    [mkdir(2)]: [mkdir path] tells whether the call returns 0.  The result
    is the directories made, in the order of the calls. *)
Definition mkdir_deep (fs : filesystem) (mkdir : string -> bool)
  (dir_path : string) : outcome (list string) :=
  let spl := tools.split dir_path "/" in
  for_each
    (fun depth made =>
       sub <- tools.subvect spl 0 (Z.of_nat (depth + 1)) ;;
       joined <- tools.join sub "/" ;;
       let cur := ("/" ++ joined)%string in
       if negb (file_exists fs cur) then
         if mkdir cur then Ok (made ++ [cur]) else Raise IOError
       else Ok made)
    (seq 0 (List.length spl)) [].

(** [io::ensure_deep_parent] (operations.cc); the result is the
    directories made. *)
Definition ensure_deep_parent (fs : filesystem) (mkdir : string -> bool)
  (file_path : string) : outcome (list string) :=
  parent <- parent_path file_path ;;
  if negb (file_exists fs parent) then mkdir_deep fs mkdir parent
  else Ok [].

End io.

(* ===================================================================== *)
(** * The C++ type [float] *)
(* ===================================================================== *)

Module float32.

(** IEEE-754 binary32: 24 bits of precision, infinities at exponent 128. *)
Definition prec : Z := 24.
Definition emax : Z := 128.

Definition t : Type := spec_float.

(** Conversion of a [u_long] value to [float] (round to nearest even). *)
Definition of_u_long (z : Z) : t := binary_normalize prec emax z 0 false.

Definition zero : t := S754_zero false.
Definition nan : t := S754_nan.
Definition infinity : t := S754_infinity false.

Definition div (x y : t) : t := SFdiv prec emax x y.

(** [a < b] and [a > b] on [float]; both are false when an operand is NaN. *)
Definition ltb (a b : t) : bool := SFltb a b.
Definition gtb (a b : t) : bool := SFltb b a.

Definition is_finite (x : t) : bool :=
  match x with
  | S754_zero _ | S754_finite _ _ _ => true
  | S754_infinity _ | S754_nan => false
  end.

End float32.

(* ===================================================================== *)
(** * namespace templimiter::daemon *)
(* ===================================================================== *)

Module daemon.

(** ** class Config (config.h, config.cc) *)

Module Config.

Definition PROC_SELF_STAT_ : string := "/proc/self/stat".
Definition PROC_STAT_ : string := "/proc/stat".

(** The data members of [Config].  A [std::shared_ptr] to a file object is
    [None] while it is null and holds the object's path(s) once made. *)
Record t : Type := {
  config_lines_ : list string;
  own_pid_ : Z;
  matcher_thermal_ : string;
  matcher_scaling_max_freq_ : string;
  matcher_cpuinfo_max_freq_ : string;
  matcher_cpuinfo_min_freq_ : string;
  matcher_scaling_available_frequencies_ : string;
  log_file_path_ : string;
  whitelist_pid_ : list Z;
  whitelist_comm_ : list string;
  whitelist_state_ : list ascii;
  whitelist_ppid_ : list Z;
  whitelist_pgrp_ : list Z;
  whitelist_session_ : list Z;
  whitelist_tty_nr_ : list Z;
  whitelist_tpgid_ : list Z;
  whitelist_flags_ : list Z;
  whitelist_max_nice_ : Z;
  use_throttle_ : bool;
  use_SIGSTOP_ : bool;
  use_scaling_available_ : bool;
  use_stepwise_SIGSTOP_ : bool;
  use_stepwise_SIGCONT_ : bool;
  temp_SIGSTOP_ : Z;
  temp_SIGCONT_ : Z;
  temp_throttle_ : Z;
  temp_dethrottle_ : Z;
  min_sleep_ : Z;
  thermal_files_ : option (list string);
  scaling_max_freq_files_ : option (list string);
  cpuinfo_max_freq_files_ : option (list string);
  cpuinfo_min_freq_files_ : option (list string);
  scaling_available_frequencies_files_ : option (list string);
  proc_stat_file_ : option string;
  cpuinfo_max_freqs_ : list Z;
  cpuinfo_min_freqs_ : list Z;
  scaling_available_frequencies_ : list (list Z)
}.

(** The default member initialisers of config.h. *)
Definition default_whitelist_comm : list string :=
  [ "dnsmasq"; "systemd"; "(sd-pam)"; "startx"; "xinit"; "Xorg";
    "dbus-daemon"; "rtkit-daemon"; "at-spi-bus-laun"; "at-spi2-registr";
    "wpa_supplicant"; "dhcpcd"; "systemd-journal"; "lvmetad";
    "systemd-udevd"; "upowerd"; "systemd-timesyn"; "systemd-machine";
    "firewalld"; "systemd-logind"; "polkitd"; "haveged"; "systemd-resolve";
    "systemd-network" ].

Definition initial (lines : list string) (own_pid : Z) : t := {|
  config_lines_ := lines;
  own_pid_ := own_pid;
  matcher_thermal_ := "/sys/devices/virtual/thermal/thermal_zone*/temp";
  matcher_scaling_max_freq_ :=
    "/sys/devices/system/cpu/cpu*/cpufreq/scaling_max_freq";
  matcher_cpuinfo_max_freq_ :=
    "/sys/devices/system/cpu/cpu*/cpufreq/cpuinfo_max_freq";
  matcher_cpuinfo_min_freq_ :=
    "/sys/devices/system/cpu/cpu*/cpufreq/cpuinfo_min_freq";
  matcher_scaling_available_frequencies_ :=
    "/sys/devices/system/cpu/cpu*/cpufreq/scaling_available_frequencies";
  log_file_path_ := "/var/log/templimiter.log";
  whitelist_pid_ := [];
  whitelist_comm_ := default_whitelist_comm;
  whitelist_state_ := [];
  whitelist_ppid_ := [];
  whitelist_pgrp_ := [];
  whitelist_session_ := [];
  whitelist_tty_nr_ := [];
  whitelist_tpgid_ := [];
  whitelist_flags_ := [];
  whitelist_max_nice_ := -21;
  use_throttle_ := true;
  use_SIGSTOP_ := false;
  use_scaling_available_ := false;
  use_stepwise_SIGSTOP_ := true;
  use_stepwise_SIGCONT_ := false;
  temp_SIGSTOP_ := 70000;
  temp_SIGCONT_ := 66000;
  temp_throttle_ := 66000;
  temp_dethrottle_ := 60000;
  min_sleep_ := 500;
  thermal_files_ := None;
  scaling_max_freq_files_ := None;
  cpuinfo_max_freq_files_ := None;
  cpuinfo_min_freq_files_ := None;
  scaling_available_frequencies_files_ := None;
  proc_stat_file_ := None;
  cpuinfo_max_freqs_ := [];
  cpuinfo_min_freqs_ := [];
  scaling_available_frequencies_ := []
|}.

(** *** Assertions *)

Definition assert_SIGSTOP_mode_ (c : t) : outcome unit :=
  if negb (use_SIGSTOP_ c) then Raise InternalError else Ok tt.

Definition assert_throttle_mode_ (c : t) : outcome unit :=
  if negb (use_throttle_ c) then Raise InternalError else Ok tt.

Definition assert_any_mode_ (c : t) : outcome unit :=
  if negb (use_throttle_ c) && negb (use_SIGSTOP_ c)
  then Raise ConfigError else Ok tt.

Definition assert_throttle_gte_dethrottle_ (c : t) : outcome unit :=
  if temp_throttle_ c <? temp_dethrottle_ c then Raise ConfigError else Ok tt.

Definition assert_scale_max_freq_files_sizey_ (scalemax_sz : nat) : outcome unit :=
  if (scalemax_sz =? 0)%nat then Raise ConfigError else Ok tt.

Definition assert_scaling_available_frequencies_sizey_
  (scaling_available_frequencies : list (list Z)) : outcome unit :=
  if (List.length scaling_available_frequencies =? 0)%nat
  then Raise ConfigError else Ok tt.

Definition assert_scaling_max_size_eq_scaling_available_
  (scaling_available_frequencies : list (list Z)) (scalemax_sz : nat)
  : outcome unit :=
  if negb (scalemax_sz =? List.length scaling_available_frequencies)%nat
  then Raise ConfigError else Ok tt.

Definition assert_scaling_max_size_eq_cpu_max_and_min_
  (cpuinfo_max_freqs cpuinfo_min_freqs : list Z) (scalemax_sz : nat)
  : outcome unit :=
  let cpumax_sz := List.length cpuinfo_max_freqs in
  let cpumin_sz := List.length cpuinfo_min_freqs in
  if (cpumax_sz =? 0)%nat then Raise ConfigError
  else if (cpumin_sz =? 0)%nat then Raise ConfigError
  else if negb (scalemax_sz =? cpumax_sz)%nat then Raise ConfigError
  else if negb (scalemax_sz =? cpumin_sz)%nat then Raise ConfigError
  else Ok tt.

Definition assert_SIGSTOP_gte_SIGCONT_ (c : t) : outcome unit :=
  if temp_SIGSTOP_ c <? temp_SIGCONT_ c then Raise ConfigError else Ok tt.

Definition assert_proc_stat_file_sizey_ (procstat_sz : nat) : outcome unit :=
  if (procstat_sz =? 0)%nat then Raise InternalError else Ok tt.

(** *** Procedures *)

Definition load_config_lines_ (fs : io.filesystem) (config_path : string)
  : outcome (list string) :=
  let exists_ := io.file_exists fs config_path in
  io.validate_ config_path ;;;
  if negb exists_ then Raise InternalError
  else io.File_read tools.convert_string fs config_path.

Definition get_own_pid_ (fs : io.filesystem) : outcome Z :=
  io.validate_ PROC_SELF_STAT_ ;;;
  lines <- io.File_read tools.convert_string fs PROC_SELF_STAT_ ;;
  line <- at_ lines 0 ;;
  self_pid <- at_ (tools.split line " ") 0 ;;
  tools.convert_int t_pid_t self_pid.

Fixpoint indices_of_tag_from (lines : list string) (tag : string) (i : nat)
  : outcome (list nat) :=
  match lines with
  | [] => Ok []
  | line :: lines' =>
      let spl := tools.split line " " in
      spl0 <- at_ spl 0 ;;
      found <- indices_of_tag_from lines' tag (S i) ;;
      Ok (if String.eqb spl0 tag then i :: found else found)
  end.

Definition indices_of_tag_ (config_lines : list string) (tag : string)
  : outcome (list nat) :=
  indices_of_tag_from config_lines tag 0.

(** The values right of the tag on the one line that configures it, or
    [None] where [load_from_tag_] returns the default. *)
Definition values_of_tag_ (config_lines : list string) (tag : string)
  : outcome (option (list string)) :=
  indices <- indices_of_tag_ config_lines tag ;;
  match indices with
  | [] => Ok None
  | [index] =>
      line <- at_ config_lines index ;;
      let spl := tools.split line " " in
      val_strs <- tools.subvect spl 1 (Z.of_nat (List.length spl) - 1) ;;
      if (List.length val_strs <? 1)%nat then Ok None else Ok (Some val_strs)
  | _ => Raise ConfigError
  end.

(** [load_from_tag_<T>(tag, const T &defval)]. *)
Definition load_from_tag_ {T : Type} (conv : string -> outcome T)
  (config_lines : list string) (tag : string) (defval : T) : outcome T :=
  vals <- values_of_tag_ config_lines tag ;;
  match vals with
  | None => Ok defval
  | Some val_strs =>
      if (1 <? List.length val_strs)%nat then
        tools.join val_strs ", " ;;; Raise ConfigError
      else
        val <- at_ val_strs 0 ;;
        catch_named (conv val) TypeError (Raise ConfigError)
  end.

(** [load_from_tag_<T>(tag, const std::vector<T> &defval)]. *)
Definition load_from_tag_vector_ {T : Type} (conv : string -> outcome T)
  (config_lines : list string) (tag : string) (defval : list T)
  : outcome (list T) :=
  vals <- values_of_tag_ config_lines tag ;;
  match vals with
  | None => Ok defval
  | Some val_strs =>
      catch_named (tools.convert_vector conv val_strs) TypeError
                  (tools.join val_strs ", " ;;; Raise ConfigError)
  end.

(** [Config::load_config_values_]: every tag is loaded with the hard-coded
    default as fallback ([io::log] lines on [std::clog] are not recorded). *)
Definition load_config_values_ (c : t) : outcome t :=
  let L := config_lines_ c in
  let str_ := tools.convert_string in
  let bool_ := tools.convert_bool in
  let int_ := tools.convert_int in
  log_file_path <- load_from_tag_ str_ L "log_file_path" (log_file_path_ c) ;;
  whitelist_pid <-
    load_from_tag_vector_ (int_ t_pid_t) L "whitelist_pid" (whitelist_pid_ c) ;;
  (* whitelist own pid: whitelist_pid_.push_back(own_pid_) *)
  let whitelist_pid := whitelist_pid ++ [own_pid_ c] in
  whitelist_comm <-
    load_from_tag_vector_ str_ L "whitelist_comm" (whitelist_comm_ c) ;;
  let whitelist_comm := List.map (fun v => ("(" ++ v ++ ")")%string) whitelist_comm in
  whitelist_state <-
    load_from_tag_vector_ tools.convert_char L "whitelist_state"
                          (whitelist_state_ c) ;;
  whitelist_ppid <-
    load_from_tag_vector_ (int_ t_pid_t) L "whitelist_ppid" (whitelist_ppid_ c) ;;
  whitelist_pgrp <-
    load_from_tag_vector_ (int_ t_int) L "whitelist_pgrp" (whitelist_pgrp_ c) ;;
  whitelist_session <-
    load_from_tag_vector_ (int_ t_int) L "whitelist_session"
                          (whitelist_session_ c) ;;
  whitelist_tty_nr <-
    load_from_tag_vector_ (int_ t_int) L "whitelist_tty_nr"
                          (whitelist_tty_nr_ c) ;;
  whitelist_tpgid <-
    load_from_tag_vector_ (int_ t_int) L "whitelist_tpgid" (whitelist_tpgid_ c) ;;
  whitelist_flags <-
    load_from_tag_vector_ (int_ t_uint) L "whitelist_flags" (whitelist_flags_ c) ;;
  whitelist_max_nice <-
    load_from_tag_ (int_ t_long) L "whitelist_max_nice" (whitelist_max_nice_ c) ;;
  matcher_thermal <-
    load_from_tag_ str_ L "matcher_thermal" (matcher_thermal_ c) ;;
  matcher_scaling_max_freq <-
    load_from_tag_ str_ L "matcher_scaling_max_freq"
                   (matcher_scaling_max_freq_ c) ;;
  matcher_cpuinfo_max_freq <-
    load_from_tag_ str_ L "matcher_cpuinfo_max_freq"
                   (matcher_cpuinfo_max_freq_ c) ;;
  matcher_cpuinfo_min_freq <-
    load_from_tag_ str_ L "matcher_cpuinfo_min_freq"
                   (matcher_cpuinfo_min_freq_ c) ;;
  matcher_scaling_available_frequencies <-
    load_from_tag_ str_ L "matcher_scaling_available_frequencies"
                   (matcher_scaling_available_frequencies_ c) ;;
  use_throttle <- load_from_tag_ bool_ L "use_throttle" (use_throttle_ c) ;;
  use_SIGSTOP <- load_from_tag_ bool_ L "use_SIGSTOP" (use_SIGSTOP_ c) ;;
  use_scaling_available <-
    load_from_tag_ bool_ L "use_scaling_available" (use_scaling_available_ c) ;;
  use_stepwise_SIGSTOP <-
    load_from_tag_ bool_ L "use_stepwise_SIGSTOP" (use_stepwise_SIGSTOP_ c) ;;
  use_stepwise_SIGCONT <-
    load_from_tag_ bool_ L "use_stepwise_SIGCONT" (use_stepwise_SIGCONT_ c) ;;
  temp_SIGSTOP <-
    load_from_tag_ (int_ t_u_long) L "temp_SIGSTOP" (temp_SIGSTOP_ c) ;;
  temp_SIGCONT <-
    load_from_tag_ (int_ t_u_long) L "temp_SIGCONT" (temp_SIGCONT_ c) ;;
  temp_throttle <-
    load_from_tag_ (int_ t_u_long) L "temp_throttle" (temp_throttle_ c) ;;
  temp_dethrottle <-
    load_from_tag_ (int_ t_u_long) L "temp_dethrottle" (temp_dethrottle_ c) ;;
  min_sleep <- load_from_tag_ (int_ t_uint) L "min_sleep" (min_sleep_ c) ;;
  Ok {|
    config_lines_ := config_lines_ c;
    own_pid_ := own_pid_ c;
    matcher_thermal_ := matcher_thermal;
    matcher_scaling_max_freq_ := matcher_scaling_max_freq;
    matcher_cpuinfo_max_freq_ := matcher_cpuinfo_max_freq;
    matcher_cpuinfo_min_freq_ := matcher_cpuinfo_min_freq;
    matcher_scaling_available_frequencies_ :=
      matcher_scaling_available_frequencies;
    log_file_path_ := log_file_path;
    whitelist_pid_ := whitelist_pid;
    whitelist_comm_ := whitelist_comm;
    whitelist_state_ := whitelist_state;
    whitelist_ppid_ := whitelist_ppid;
    whitelist_pgrp_ := whitelist_pgrp;
    whitelist_session_ := whitelist_session;
    whitelist_tty_nr_ := whitelist_tty_nr;
    whitelist_tpgid_ := whitelist_tpgid;
    whitelist_flags_ := whitelist_flags;
    whitelist_max_nice_ := whitelist_max_nice;
    use_throttle_ := use_throttle;
    use_SIGSTOP_ := use_SIGSTOP;
    use_scaling_available_ := use_scaling_available;
    use_stepwise_SIGSTOP_ := use_stepwise_SIGSTOP;
    use_stepwise_SIGCONT_ := use_stepwise_SIGCONT;
    temp_SIGSTOP_ := temp_SIGSTOP;
    temp_SIGCONT_ := temp_SIGCONT;
    temp_throttle_ := temp_throttle;
    temp_dethrottle_ := temp_dethrottle;
    min_sleep_ := min_sleep;
    thermal_files_ := thermal_files_ c;
    scaling_max_freq_files_ := scaling_max_freq_files_ c;
    cpuinfo_max_freq_files_ := cpuinfo_max_freq_files_ c;
    cpuinfo_min_freq_files_ := cpuinfo_min_freq_files_ c;
    scaling_available_frequencies_files_ :=
      scaling_available_frequencies_files_ c;
    proc_stat_file_ := proc_stat_file_ c;
    cpuinfo_max_freqs_ := cpuinfo_max_freqs_ c;
    cpuinfo_min_freqs_ := cpuinfo_min_freqs_ c;
    scaling_available_frequencies_ := scaling_available_frequencies_ c
  |}.

(** The members written by the [use_throttle_] half of
    [set_and_assert_config_]. *)
Record throttle_members : Type := {
  tm_temp_throttle : Z;
  tm_temp_dethrottle : Z;
  tm_use_scaling_available : bool;
  tm_scaling_max_freq_files : option (list string);
  tm_scaling_available_frequencies_files : option (list string);
  tm_scaling_available_frequencies : list (list Z);
  tm_cpuinfo_max_freq_files : option (list string);
  tm_cpuinfo_min_freq_files : option (list string);
  tm_cpuinfo_max_freqs : list Z;
  tm_cpuinfo_min_freqs : list Z
}.

Definition set_throttle_ (fs : io.filesystem) (c : t) : outcome throttle_members :=
  if use_throttle_ c then
    (* Ensure throttle temp is gte dethrottle temp *)
    assert_throttle_gte_dethrottle_ c ;;;
    scaling_max_freq_files <- io.FileCollection fs (matcher_scaling_max_freq_ c) ;;
    cur <- io.FileCollection_read (tools.convert_int t_u_long) fs
                                  scaling_max_freq_files ;;
    let scalemax_sz := List.length cur in
    assert_scale_max_freq_files_sizey_ scalemax_sz ;;;
    (* Test for scaling directory before allowing it to be enabled *)
    test_scaling_files <-
      (if use_scaling_available_ c then
         catch_named
           (files <- io.FileCollection fs
                       (matcher_scaling_available_frequencies_ c) ;;
            Ok (Some files))
           ArgumentError (Ok None)
       else Ok None) ;;
    match test_scaling_files with
    | Some files =>
        scalemax_lines <- io.FileCollection_read tools.convert_string fs files ;;
        matrix <-
          map_outcome
            (fun v => tools.convert_vector (tools.convert_int t_u_long)
                                           (tools.split v " "))
            scalemax_lines ;;
        let scaling_available_frequencies :=
          scaling_available_frequencies_ c ++ matrix in
        assert_scaling_available_frequencies_sizey_
          scaling_available_frequencies ;;;
        assert_scaling_max_size_eq_scaling_available_
          scaling_available_frequencies scalemax_sz ;;;
        Ok {| tm_temp_throttle := temp_throttle_ c;
              tm_temp_dethrottle := temp_dethrottle_ c;
              tm_use_scaling_available := true;
              tm_scaling_max_freq_files := Some scaling_max_freq_files;
              tm_scaling_available_frequencies_files := Some files;
              tm_scaling_available_frequencies := scaling_available_frequencies;
              tm_cpuinfo_max_freq_files := cpuinfo_max_freq_files_ c;
              tm_cpuinfo_min_freq_files := cpuinfo_min_freq_files_ c;
              tm_cpuinfo_max_freqs := cpuinfo_max_freqs_ c;
              tm_cpuinfo_min_freqs := cpuinfo_min_freqs_ c |}
    | None =>
        cpuinfo_max_freq_files <-
          io.FileCollection fs (matcher_cpuinfo_max_freq_ c) ;;
        cpuinfo_min_freq_files <-
          io.FileCollection fs (matcher_cpuinfo_min_freq_ c) ;;
        cpuinfo_max_freqs <-
          io.FileCollection_read (tools.convert_int t_u_long) fs
                                 cpuinfo_max_freq_files ;;
        cpuinfo_min_freqs <-
          io.FileCollection_read (tools.convert_int t_u_long) fs
                                 cpuinfo_min_freq_files ;;
        assert_scaling_max_size_eq_cpu_max_and_min_
          cpuinfo_max_freqs cpuinfo_min_freqs scalemax_sz ;;;
        Ok {| tm_temp_throttle := temp_throttle_ c;
              tm_temp_dethrottle := temp_dethrottle_ c;
              tm_use_scaling_available := false;
              tm_scaling_max_freq_files := Some scaling_max_freq_files;
              tm_scaling_available_frequencies_files :=
                scaling_available_frequencies_files_ c;
              tm_scaling_available_frequencies :=
                scaling_available_frequencies_ c;
              tm_cpuinfo_max_freq_files := Some cpuinfo_max_freq_files;
              tm_cpuinfo_min_freq_files := Some cpuinfo_min_freq_files;
              tm_cpuinfo_max_freqs := cpuinfo_max_freqs;
              tm_cpuinfo_min_freqs := cpuinfo_min_freqs |}
    end
  else
    (* Set throttle temp to highest and dethrottle temp to lowest,
       just in case *)
    Ok {| tm_temp_throttle := ULONG_MAX;
          tm_temp_dethrottle := 0;
          tm_use_scaling_available := use_scaling_available_ c;
          tm_scaling_max_freq_files := scaling_max_freq_files_ c;
          tm_scaling_available_frequencies_files :=
            scaling_available_frequencies_files_ c;
          tm_scaling_available_frequencies := scaling_available_frequencies_ c;
          tm_cpuinfo_max_freq_files := cpuinfo_max_freq_files_ c;
          tm_cpuinfo_min_freq_files := cpuinfo_min_freq_files_ c;
          tm_cpuinfo_max_freqs := cpuinfo_max_freqs_ c;
          tm_cpuinfo_min_freqs := cpuinfo_min_freqs_ c |}.

(** The members written by the [use_SIGSTOP_] half: the two temperatures
    and [proc_stat_file_]. *)
Definition set_SIGSTOP_ (fs : io.filesystem) (c : t)
  : outcome (Z * Z * option string) :=
  if use_SIGSTOP_ c then
    (* Ensure SIGSTOP temp is gte SIGCONT temp *)
    assert_SIGSTOP_gte_SIGCONT_ c ;;;
    io.validate_ PROC_STAT_ ;;;
    lines <- io.File_read tools.convert_string fs PROC_STAT_ ;;
    assert_proc_stat_file_sizey_ (List.length lines) ;;;
    Ok (temp_SIGSTOP_ c, temp_SIGCONT_ c, Some PROC_STAT_)
  else
    (* Set SIGSTOP temp to highest and SIGCONT temp to lowest, just in case *)
    Ok (ULONG_MAX, 0, proc_stat_file_ c).

(** [Config::set_and_assert_config_]. *)
Definition set_and_assert_config_ (fs : io.filesystem) (c : t) : outcome t :=
  (* Ensure at least one mode is selected *)
  assert_any_mode_ c ;;;
  thermal_files <- io.FileCollection fs (matcher_thermal_ c) ;;
  tm <- set_throttle_ fs c ;;
  sm <- set_SIGSTOP_ fs c ;;
  let '(temp_SIGSTOP, temp_SIGCONT, proc_stat_file) := sm in
  Ok {|
    config_lines_ := config_lines_ c;
    own_pid_ := own_pid_ c;
    matcher_thermal_ := matcher_thermal_ c;
    matcher_scaling_max_freq_ := matcher_scaling_max_freq_ c;
    matcher_cpuinfo_max_freq_ := matcher_cpuinfo_max_freq_ c;
    matcher_cpuinfo_min_freq_ := matcher_cpuinfo_min_freq_ c;
    matcher_scaling_available_frequencies_ :=
      matcher_scaling_available_frequencies_ c;
    log_file_path_ := log_file_path_ c;
    whitelist_pid_ := whitelist_pid_ c;
    whitelist_comm_ := whitelist_comm_ c;
    whitelist_state_ := whitelist_state_ c;
    whitelist_ppid_ := whitelist_ppid_ c;
    whitelist_pgrp_ := whitelist_pgrp_ c;
    whitelist_session_ := whitelist_session_ c;
    whitelist_tty_nr_ := whitelist_tty_nr_ c;
    whitelist_tpgid_ := whitelist_tpgid_ c;
    whitelist_flags_ := whitelist_flags_ c;
    whitelist_max_nice_ := whitelist_max_nice_ c;
    use_throttle_ := use_throttle_ c;
    use_SIGSTOP_ := use_SIGSTOP_ c;
    use_scaling_available_ := tm_use_scaling_available tm;
    use_stepwise_SIGSTOP_ := use_stepwise_SIGSTOP_ c;
    use_stepwise_SIGCONT_ := use_stepwise_SIGCONT_ c;
    temp_SIGSTOP_ := temp_SIGSTOP;
    temp_SIGCONT_ := temp_SIGCONT;
    temp_throttle_ := tm_temp_throttle tm;
    temp_dethrottle_ := tm_temp_dethrottle tm;
    min_sleep_ := min_sleep_ c;
    thermal_files_ := Some thermal_files;
    scaling_max_freq_files_ := tm_scaling_max_freq_files tm;
    cpuinfo_max_freq_files_ := tm_cpuinfo_max_freq_files tm;
    cpuinfo_min_freq_files_ := tm_cpuinfo_min_freq_files tm;
    scaling_available_frequencies_files_ :=
      tm_scaling_available_frequencies_files tm;
    proc_stat_file_ := proc_stat_file;
    cpuinfo_max_freqs_ := tm_cpuinfo_max_freqs tm;
    cpuinfo_min_freqs_ := tm_cpuinfo_min_freqs tm;
    scaling_available_frequencies_ := tm_scaling_available_frequencies tm
  |}.

(** [Config::Config(const std::string &config_path)]. *)
Definition new (fs : io.filesystem) (config_path : string) : outcome t :=
  config_lines <- load_config_lines_ fs config_path ;;
  own_pid <- get_own_pid_ fs ;;
  c <- load_config_values_ (initial config_lines own_pid) ;;
  set_and_assert_config_ fs c.

(** *** Getters; most assert the mode their value belongs to. *)

Definition whitelist_pid (c : t) := assert_SIGSTOP_mode_ c ;;; Ok (whitelist_pid_ c).
Definition whitelist_comm (c : t) := assert_SIGSTOP_mode_ c ;;; Ok (whitelist_comm_ c).
Definition whitelist_state (c : t) := assert_SIGSTOP_mode_ c ;;; Ok (whitelist_state_ c).
Definition whitelist_ppid (c : t) := assert_SIGSTOP_mode_ c ;;; Ok (whitelist_ppid_ c).
Definition whitelist_pgrp (c : t) := assert_SIGSTOP_mode_ c ;;; Ok (whitelist_pgrp_ c).
Definition whitelist_session (c : t) := assert_SIGSTOP_mode_ c ;;; Ok (whitelist_session_ c).
Definition whitelist_tty_nr (c : t) := assert_SIGSTOP_mode_ c ;;; Ok (whitelist_tty_nr_ c).
Definition whitelist_tpgid (c : t) := assert_SIGSTOP_mode_ c ;;; Ok (whitelist_tpgid_ c).
Definition whitelist_flags (c : t) := assert_SIGSTOP_mode_ c ;;; Ok (whitelist_flags_ c).
Definition whitelist_max_nice (c : t) := assert_SIGSTOP_mode_ c ;;; Ok (whitelist_max_nice_ c).
Definition use_throttle (c : t) : bool := use_throttle_ c.
Definition use_SIGSTOP (c : t) : bool := use_SIGSTOP_ c.
Definition use_scaling_available (c : t) :=
  assert_throttle_mode_ c ;;; Ok (use_scaling_available_ c).
Definition use_stepwise_SIGSTOP (c : t) :=
  assert_SIGSTOP_mode_ c ;;; Ok (use_stepwise_SIGSTOP_ c).
Definition use_stepwise_SIGCONT (c : t) :=
  assert_SIGSTOP_mode_ c ;;; Ok (use_stepwise_SIGCONT_ c).
Definition temp_SIGSTOP (c : t) := assert_SIGSTOP_mode_ c ;;; Ok (temp_SIGSTOP_ c).
Definition temp_SIGCONT (c : t) := assert_SIGSTOP_mode_ c ;;; Ok (temp_SIGCONT_ c).
Definition temp_throttle (c : t) := assert_throttle_mode_ c ;;; Ok (temp_throttle_ c).
Definition temp_dethrottle (c : t) := assert_throttle_mode_ c ;;; Ok (temp_dethrottle_ c).
Definition cpuinfo_max_freqs (c : t) := assert_throttle_mode_ c ;;; Ok (cpuinfo_max_freqs_ c).
Definition cpuinfo_min_freqs (c : t) := assert_throttle_mode_ c ;;; Ok (cpuinfo_min_freqs_ c).
Definition scaling_available_frequencies (c : t) :=
  assert_throttle_mode_ c ;;; Ok (scaling_available_frequencies_ c).

(** Using a file object through a null [shared_ptr] is undefined. *)
Definition deref {A : Type} (p : option A) : outcome A :=
  match p with Some a => Ok a | None => Undefined end.

Definition scaling_max_freq_files (c : t) :=
  assert_throttle_mode_ c ;;; deref (scaling_max_freq_files_ c).
Definition proc_stat_file (c : t) :=
  assert_SIGSTOP_mode_ c ;;; deref (proc_stat_file_ c).

End Config.

(** ** class Pid (pid.h, pid.cc) *)

Module Pid.

Record t : Type := {
  pid_ : Z;
  pid_str_ : string;
  is_a_process_ : bool;
  is_whitelisted_ : bool;
  has_received_first_update_ : bool;
  is_ready_ : bool;
  is_self_stopped_ : bool;
  comm_ : string;
  state_ : ascii;
  ppid_ : Z;
  pgrp_ : Z;
  session_ : Z;
  tty_nr_ : Z;
  tpgid_ : Z;
  flags_ : Z;
  utime_ : Z;
  stime_ : Z;
  cutime_ : Z;
  cstime_ : Z;
  nice_ : Z;
  pid_time_prev_ : Z;
  cpu_time_prev_ : Z;
  pid_cpu_pct_ : float32.t
}.

(** The values [read_stat_] parses out of one stat line. *)
Record stat_fields : Type := {
  sf_comm : string;
  sf_state : ascii;
  sf_ppid : Z;
  sf_pgrp : Z;
  sf_session : Z;
  sf_tty_nr : Z;
  sf_tpgid : Z;
  sf_flags : Z;
  sf_utime : Z;
  sf_stime : Z;
  sf_cutime : Z;
  sf_cstime : Z;
  sf_nice : Z
}.

(** Assignments to groups of members. *)

Definition set_stat (sf : stat_fields) (is_a_process : bool) (p : t) : t := {|
  pid_ := pid_ p;
  pid_str_ := pid_str_ p;
  is_a_process_ := is_a_process;
  is_whitelisted_ := is_whitelisted_ p;
  has_received_first_update_ := has_received_first_update_ p;
  is_ready_ := is_ready_ p;
  is_self_stopped_ := is_self_stopped_ p;
  comm_ := sf_comm sf;
  state_ := sf_state sf;
  ppid_ := sf_ppid sf;
  pgrp_ := sf_pgrp sf;
  session_ := sf_session sf;
  tty_nr_ := sf_tty_nr sf;
  tpgid_ := sf_tpgid sf;
  flags_ := sf_flags sf;
  utime_ := sf_utime sf;
  stime_ := sf_stime sf;
  cutime_ := sf_cutime sf;
  cstime_ := sf_cstime sf;
  nice_ := sf_nice sf;
  pid_time_prev_ := pid_time_prev_ p;
  cpu_time_prev_ := cpu_time_prev_ p;
  pid_cpu_pct_ := pid_cpu_pct_ p
|}.

Definition set_flags (is_a_process is_whitelisted is_self_stopped : bool) (p : t)
  : t := {|
  pid_ := pid_ p;
  pid_str_ := pid_str_ p;
  is_a_process_ := is_a_process;
  is_whitelisted_ := is_whitelisted;
  has_received_first_update_ := has_received_first_update_ p;
  is_ready_ := is_ready_ p;
  is_self_stopped_ := is_self_stopped;
  comm_ := comm_ p;
  state_ := state_ p;
  ppid_ := ppid_ p;
  pgrp_ := pgrp_ p;
  session_ := session_ p;
  tty_nr_ := tty_nr_ p;
  tpgid_ := tpgid_ p;
  flags_ := flags_ p;
  utime_ := utime_ p;
  stime_ := stime_ p;
  cutime_ := cutime_ p;
  cstime_ := cstime_ p;
  nice_ := nice_ p;
  pid_time_prev_ := pid_time_prev_ p;
  cpu_time_prev_ := cpu_time_prev_ p;
  pid_cpu_pct_ := pid_cpu_pct_ p
|}.

Definition set_is_a_process (b : bool) (p : t) : t :=
  set_flags b (is_whitelisted_ p) (is_self_stopped_ p) p.
Definition set_is_whitelisted (b : bool) (p : t) : t :=
  set_flags (is_a_process_ p) b (is_self_stopped_ p) p.
Definition set_is_self_stopped (b : bool) (p : t) : t :=
  set_flags (is_a_process_ p) (is_whitelisted_ p) b p.

Definition set_sample (has_received_first_update is_ready : bool)
  (pid_time_prev cpu_time_prev : Z) (pid_cpu_pct : float32.t) (p : t) : t := {|
  pid_ := pid_ p;
  pid_str_ := pid_str_ p;
  is_a_process_ := is_a_process_ p;
  is_whitelisted_ := is_whitelisted_ p;
  has_received_first_update_ := has_received_first_update;
  is_ready_ := is_ready;
  is_self_stopped_ := is_self_stopped_ p;
  comm_ := comm_ p;
  state_ := state_ p;
  ppid_ := ppid_ p;
  pgrp_ := pgrp_ p;
  session_ := session_ p;
  tty_nr_ := tty_nr_ p;
  tpgid_ := tpgid_ p;
  flags_ := flags_ p;
  utime_ := utime_ p;
  stime_ := stime_ p;
  cutime_ := cutime_ p;
  cstime_ := cstime_ p;
  nice_ := nice_ p;
  pid_time_prev_ := pid_time_prev;
  cpu_time_prev_ := cpu_time_prev;
  pid_cpu_pct_ := pid_cpu_pct
|}.

Definition stat_of (p : t) : stat_fields := {|
  sf_comm := comm_ p;
  sf_state := state_ p;
  sf_ppid := ppid_ p;
  sf_pgrp := pgrp_ p;
  sf_session := session_ p;
  sf_tty_nr := tty_nr_ p;
  sf_tpgid := tpgid_ p;
  sf_flags := flags_ p;
  sf_utime := utime_ p;
  sf_stime := stime_ p;
  sf_cutime := cutime_ p;
  sf_cstime := cstime_ p;
  sf_nice := nice_ p
|}.

(** The path of [stat_]. *)
Definition stat_path (p : t) : string := "/proc/" ++ pid_str_ p ++ "/stat".

Definition assert_is_ready_ (p : t) : outcome unit :=
  if negb (is_ready_ p) then Raise InternalError else Ok tt.

(** The body of the [try] block of [read_stat_]. *)
Definition parse_stat_ (fs : io.filesystem) (p : t) : outcome stat_fields :=
  stat_lines <- io.File_read tools.convert_string fs (stat_path p) ;;
  if (1 <? List.length stat_lines)%nat then Raise InternalError
  else
    line <- at_ stat_lines 0 ;;
    let stat_data := tools.split line " " in
    let field (i : nat) (t : int_type) :=
      s <- at_ stat_data i ;; tools.convert_int t s in
    comm <- at_ stat_data 1 ;;
    state <- (s <- at_ stat_data 2 ;; tools.convert_char s) ;;
    ppid <- field 3%nat t_pid_t ;;
    pgrp <- field 4%nat t_int ;;
    session <- field 5%nat t_int ;;
    tty_nr <- field 6%nat t_int ;;
    tpgid <- field 7%nat t_int ;;
    flags <- field 8%nat t_uint ;;
    utime <- field 13%nat t_u_long ;;
    stime <- field 14%nat t_u_long ;;
    cutime <- field 15%nat t_u_long ;;
    cstime <- field 16%nat t_u_long ;;
    nice <- field 18%nat t_long ;;
    Ok {| sf_comm := comm; sf_state := state; sf_ppid := ppid;
          sf_pgrp := pgrp; sf_session := session; sf_tty_nr := tty_nr;
          sf_tpgid := tpgid; sf_flags := flags; sf_utime := utime;
          sf_stime := stime; sf_cutime := cutime; sf_cstime := cstime;
          sf_nice := nice |}.

(** [Pid::read_stat_]: an [IOError] is caught and clears [is_a_process_];
    any other error is rethrown. *)
Definition read_stat_ (fs : io.filesystem) (p : t) : outcome t :=
  catch_named
    (sf <- parse_stat_ fs p ;; Ok (set_stat sf true p))
    IOError
    (Ok (set_is_a_process false p)).

(** [a || b] where both sides may throw and [b] is evaluated on demand. *)
Definition orelse (a b : outcome bool) : outcome bool :=
  x <- a ;; if x then Ok true else b.

(** [Pid::check_whitelist_]. *)
Definition whitelist_test (cfg : Config.t) (p : t) : outcome bool :=
  let mem (eqb : Z -> Z -> bool) (l : outcome (list Z)) (v : Z) :=
    l' <- l ;; Ok (tools.contains eqb l' v) in
  orelse (max_nice <- Config.whitelist_max_nice cfg ;; Ok (nice_ p <? max_nice))
 (orelse (mem Z.eqb (Config.whitelist_pid cfg) (pid_ p))
 (orelse (l <- Config.whitelist_state cfg ;;
          Ok (tools.contains Ascii.eqb l (state_ p)))
 (orelse (mem Z.eqb (Config.whitelist_ppid cfg) (ppid_ p))
 (orelse (mem Z.eqb (Config.whitelist_pgrp cfg) (pgrp_ p))
 (orelse (mem Z.eqb (Config.whitelist_session cfg) (session_ p))
 (orelse (mem Z.eqb (Config.whitelist_tty_nr cfg) (tty_nr_ p))
 (orelse (mem Z.eqb (Config.whitelist_tpgid cfg) (tpgid_ p))
 (orelse (mem Z.eqb (Config.whitelist_flags cfg) (flags_ p))
         (l <- Config.whitelist_comm cfg ;;
          tools.pattern_vect_contains l (comm_ p)))))))))).

Definition check_whitelist_ (cfg : Config.t) (p : t) : outcome t :=
  w <- whitelist_test cfg p ;; Ok (set_is_whitelisted w p).

(** [Pid::Pid(cfg, pid)].  Members with a default initialiser get it;
    [state_] .. [pid_cpu_pct_] have none and keep whatever the storage
    [raw] of the new object holds until [read_stat_] or [update] assign
    them. *)
Definition new (cfg : Config.t) (fs : io.filesystem) (pid : Z) (raw : t)
  : outcome t :=
  let p0 := {|
    pid_ := pid;
    pid_str_ := tools.to_string pid;
    is_a_process_ := false;
    is_whitelisted_ := false;
    has_received_first_update_ := false;
    is_ready_ := false;
    is_self_stopped_ := false;
    comm_ := "";
    state_ := state_ raw;
    ppid_ := ppid_ raw;
    pgrp_ := pgrp_ raw;
    session_ := session_ raw;
    tty_nr_ := tty_nr_ raw;
    tpgid_ := tpgid_ raw;
    flags_ := flags_ raw;
    utime_ := utime_ raw;
    stime_ := stime_ raw;
    cutime_ := cutime_ raw;
    cstime_ := cstime_ raw;
    nice_ := nice_ raw;
    pid_time_prev_ := pid_time_prev_ raw;
    cpu_time_prev_ := cpu_time_prev_ raw;
    pid_cpu_pct_ := pid_cpu_pct_ raw
  |} in
  io.validate_ (stat_path p0) ;;;
  p1 <- read_stat_ fs p0 ;;
  check_whitelist_ cfg p1.

(** [utime_ + stime_ + cutime_ + cstime_] in [u_long] arithmetic. *)
Definition pid_time (p : t) : Z :=
  u_long_wrap (utime_ p + stime_ p + cutime_ p + cstime_ p).

(** The share computed on the second and later samples:
    [pid_time_diff / cpu_time_diff], both differences taken in [u_long]
    and converted to [float]. *)
Definition cpu_share (pid_time pid_time_prev cpu_time cpu_time_prev : Z)
  : float32.t :=
  let pid_time_diff := float32.of_u_long (u_long_wrap (pid_time - pid_time_prev)) in
  let cpu_time_diff := float32.of_u_long (u_long_wrap (cpu_time - cpu_time_prev)) in
  float32.div pid_time_diff cpu_time_diff.

(** The part of [Pid::update] after [read_stat_] and [check_whitelist_]. *)
Definition sample (cpu_time : Z) (p : t) : t :=
  if negb (is_whitelisted_ p) then
    if negb (has_received_first_update_ p) then
      set_sample true (is_ready_ p) (pid_time p) cpu_time (pid_cpu_pct_ p) p
    else
      set_sample (has_received_first_update_ p) true (pid_time p) cpu_time
        (cpu_share (pid_time p) (pid_time_prev_ p) cpu_time (cpu_time_prev_ p))
        p
  else
    set_sample false (is_ready_ p) 0 0 float32.zero p.

(** [Pid::update]. *)
Definition update (cfg : Config.t) (fs : io.filesystem) (cpu_time : Z) (p : t)
  : outcome t :=
  p1 <- read_stat_ fs p ;;
  p2 <- check_whitelist_ cfg p1 ;;
  Ok (sample cpu_time p2).

Definition pid (p : t) : Z := pid_ p.
Definition pid_str (p : t) : string := pid_str_ p.
Definition is_a_process (p : t) : bool := is_a_process_ p.
Definition is_whitelisted (p : t) : bool := is_whitelisted_ p.
Definition is_ready (p : t) : bool := is_ready_ p.
Definition is_self_stopped (p : t) : bool := is_self_stopped_ p.
Definition comm (p : t) : string := comm_ p.

Definition pid_cpu_pct (p : t) : outcome float32.t :=
  assert_is_ready_ p ;;; Ok (pid_cpu_pct_ p).

(** [send_SIGSTOP] and [send_SIGCONT]: the [kill] call is recorded by the
    monitor; here the flag. *)
Definition send_SIGSTOP (p : t) : t := set_is_self_stopped true p.
Definition send_SIGCONT (p : t) : t := set_is_self_stopped false p.

End Pid.

(** ** class Monitor (monitor.h, monitor.cc) *)

Module Monitor.

Definition PROC_FILES_MATCHER_ : string := "/proc/*".

(** What the monitor does to the outside: lines handed to the logger,
    [kill(pid, sig)] calls and [FileCollection::overwrite(index, value)]
    calls on the [scaling_max_freq] files, in program order.  Log-file and
    sysfs writes are taken to succeed; a failing one would throw [IOError]
    out of [run_]. *)
Inductive event : Type :=
| Log (line : string)
| Kill (pid sig : Z)
| Overwrite (file_index : nat) (value : Z).

(** The object store behind the [std::shared_ptr<Pid>] values: a pointer is
    the index of its object; [make_shared] appends. *)
Definition store : Type := list Pid.t.
Definition ptr : Type := nat.

Definition lookup (h : store) (v : ptr) : option Pid.t := nth_error h v.

Fixpoint assign (h : store) (v : ptr) (p : Pid.t) : store :=
  match h, v with
  | [], _ => []
  | _ :: h', O => p :: h'
  | q :: h', S v' => q :: assign h' v' p
  end.

Definition make_shared (h : store) (p : Pid.t) : store * ptr :=
  (h ++ [p], List.length h).

(** Evaluate a [const] member function through a pointer. *)
Definition holds (h : store) (f : Pid.t -> bool) (v : ptr) : bool :=
  match lookup h v with
  | Some p => f p
  | None => false
  end.

Record t : Type := {
  cfg_ : Config.t;
  objects : store;
  pids_ : list ptr;
  self_stopped_pids_ : list ptr;
  effects : list event
}.

Definition with_objects (h : store) (m : t) : t :=
  {| cfg_ := cfg_ m; objects := h; pids_ := pids_ m;
     self_stopped_pids_ := self_stopped_pids_ m; effects := effects m |}.

Definition with_pids (pids self_stopped : list ptr) (m : t) : t :=
  {| cfg_ := cfg_ m; objects := objects m; pids_ := pids;
     self_stopped_pids_ := self_stopped; effects := effects m |}.

Definition emit (e : event) (m : t) : t :=
  {| cfg_ := cfg_ m; objects := objects m; pids_ := pids_ m;
     self_stopped_pids_ := self_stopped_pids_ m;
     effects := effects m ++ [e] |}.

(** The monitor as [Monitor::Monitor] leaves it before [run_]. *)
Definition new (cfg : Config.t) : t :=
  {| cfg_ := cfg; objects := []; pids_ := []; self_stopped_pids_ := [];
     effects := [] |}.

(** What one operation of the monitor sees of the machine: the file system,
    taken not to change while the operation runs, and, for objects it
    allocates, the raw storage they are built in. *)
Record world : Type := {
  fs : io.filesystem;
  raw : Z -> Pid.t
}.

(** [std::accumulate(cpu_times.begin(), cpu_times.end(), 0)]: the
    accumulator has the type of the initial value, [int]. *)
Definition accumulate_int (l : list Z) : Z :=
  fold_left (fun init v => int_wrap (u_long_wrap (u_long_wrap init + v))) l 0.

(** [Monitor::sum_cur_cpu_time_]. *)
Definition sum_cur_cpu_time_ (cfg : Config.t) (fs : io.filesystem) : outcome Z :=
  file <- Config.proc_stat_file cfg ;;
  lines <- io.File_read tools.convert_string fs file ;;
  line <- at_ lines 0 ;;
  let proc_stat_cpu := tools.split line " " in
  sub <- tools.subvect proc_stat_cpu 1 4 ;;
  cpu_times <- tools.convert_vector (tools.convert_int t_u_long) sub ;;
  Ok (u_long_wrap (accumulate_int cpu_times)).

(** [v.find_first_not_of("0123456789") == std::string::npos]. *)
Fixpoint all_digits (v : string) : bool :=
  match v with
  | EmptyString => true
  | String c v' =>
      let n := nat_of_ascii c in
      (48 <=? n)%nat && (n <=? 57)%nat && all_digits v'
  end.

(** [Monitor::update_pids_]. *)
Definition update_pids_ (w : world) (m : t) : outcome t :=
  let cfg := cfg_ m in
  (* update processes *)
  h1 <- for_each
          (fun v h =>
             cpu_time <- sum_cur_cpu_time_ cfg (fs w) ;;
             p <- Config.deref (lookup h v) ;;
             p' <- Pid.update cfg (fs w) cpu_time p ;;
             Ok (assign h v p'))
          (pids_ m) (objects m) ;;
  (* Remove all not_a_process processes *)
  let pids1 := filter (holds h1 Pid.is_a_process) (pids_ m) in
  let self_stopped1 :=
    filter (holds h1 (fun p => Pid.is_a_process p && Pid.is_self_stopped p))
           (self_stopped_pids_ m) in
  files <- io.ls (fs w) PROC_FILES_MATCHER_ false ;;
  let number_fnames := filter all_digits files in
  pid_nums <- tools.convert_vector (tools.convert_int t_pid_t) number_fnames ;;
  (* Add each pid to processes if it does not yet exist there. *)
  hp <- for_each
          (fun test_pid (hp : store * list ptr) =>
             let '(h, pids) := hp in
             if negb (existsb (holds h (fun p => Pid.pid p =? test_pid)) pids)
             then
               p <- Pid.new cfg (fs w) test_pid (raw w test_pid) ;;
               let '(h', v) := make_shared h p in
               Ok (h', pids ++ [v])
             else Ok hp)
          pid_nums (h1, pids1) ;;
  let '(h2, pids2) := hp in
  Ok (with_pids pids2 self_stopped1 (with_objects h2 m)).

(** [Monitor::find_SIGSTOP_available_pids_]. *)
Definition find_SIGSTOP_available_pids_ (m : t) : list ptr :=
  filter
    (holds (objects m)
       (fun p => Pid.is_a_process p && Pid.is_ready p &&
                 negb (Pid.is_whitelisted p) && negb (Pid.is_self_stopped p)))
    (pids_ m).

(** [pid_cpu_pct()] through a pointer. *)
Definition pct (h : store) (v : ptr) : outcome float32.t :=
  p <- Config.deref (lookup h v) ;; Pid.pid_cpu_pct p.

(** [std::min_element(first, last, comp)]: the result starts at the first
    element and moves to an element [x] when [comp(x, smallest)]. *)
Fixpoint min_element_from (comp : ptr -> ptr -> outcome bool)
  (smallest : ptr) (rest : list ptr) : outcome ptr :=
  match rest with
  | [] => Ok smallest
  | x :: rest' =>
      c <- comp x smallest ;;
      min_element_from comp (if c then x else smallest) rest'
  end.

(** [std::max_element(first, last, comp)]: the result moves to an element
    [x] when [comp(largest, x)]. *)
Fixpoint max_element_from (comp : ptr -> ptr -> outcome bool)
  (largest : ptr) (rest : list ptr) : outcome ptr :=
  match rest with
  | [] => Ok largest
  | x :: rest' =>
      c <- comp largest x ;;
      max_element_from comp (if c then x else largest) rest'
  end.

(** [Monitor::send_next_SIGCONT_]. *)
Definition send_next_SIGCONT_ (m : t) : outcome t :=
  match self_stopped_pids_ m with
  | [] => Ok m
  | first :: rest =>
      let h := objects m in
      min_available <-
        min_element_from
          (fun a b => x <- pct h a ;; y <- pct h b ;; Ok (float32.ltb x y))
          first rest ;;
      pid_ptr <- Config.deref (lookup h min_available) ;;
      let m1 :=
        emit (Log ("Sending SIGCONT to pid " ++ Pid.pid_str pid_ptr ++ " "
                   ++ Pid.comm pid_ptr)) m in
      let m2 := emit (Kill (Pid.pid pid_ptr) 18) m1 in
      Ok (with_objects (assign h min_available (Pid.send_SIGCONT pid_ptr)) m2)
  end.

(** [Monitor::send_next_SIGSTOP_]. *)
Definition send_next_SIGSTOP_ (available_pids : list ptr) (m : t) : outcome t :=
  match available_pids with
  | [] => Ok m
  | first :: rest =>
      let h := objects m in
      max_available <-
        max_element_from
          (fun a b => x <- pct h a ;; y <- pct h b ;; Ok (float32.gtb x y))
          first rest ;;
      pid_ptr <- Config.deref (lookup h max_available) ;;
      let m1 :=
        emit (Log ("Sending SIGSTOP to pid " ++ Pid.pid_str pid_ptr ++ " "
                   ++ Pid.comm pid_ptr)) m in
      let m2 := emit (Kill (Pid.pid pid_ptr) 19) m1 in
      let m3 :=
        with_objects (assign h max_available (Pid.send_SIGSTOP pid_ptr)) m2 in
      Ok (with_pids (pids_ m3) (self_stopped_pids_ m3 ++ [max_available]) m3)
  end.

(** [Monitor::send_all_SIGCONTs_]. *)
Definition send_all_SIGCONTs_ (m : t) : outcome t :=
  for_each
    (fun v m =>
       p <- Config.deref (lookup (objects m) v) ;;
       let m1 := emit (Kill (Pid.pid p) 18) m in
       Ok (with_objects (assign (objects m1) v (Pid.send_SIGCONT p)) m1))
    (self_stopped_pids_ m) m.

(** [Monitor::send_all_SIGSTOPs_]. *)
Definition send_all_SIGSTOPs_ (available_pids : list ptr) (m : t) : outcome t :=
  for_each
    (fun v m =>
       p <- Config.deref (lookup (objects m) v) ;;
       let m1 := emit (Kill (Pid.pid p) 19) m in
       let m2 := with_objects (assign (objects m1) v (Pid.send_SIGSTOP p)) m1 in
       Ok (with_pids (pids_ m2) (self_stopped_pids_ m2 ++ [v]) m2))
    available_pids m.

(** [Monitor::exec_SIGCONT_]. *)
Definition exec_SIGCONT_ (w : world) (m : t) : outcome t :=
  if (0 <? List.length (self_stopped_pids_ m))%nat then
    m1 <- update_pids_ w m ;;
    stepwise <- Config.use_stepwise_SIGSTOP (cfg_ m1) ;;
    if stepwise then send_next_SIGCONT_ m1 else send_all_SIGCONTs_ m1
  else Ok m.

(** [Monitor::exec_SIGSTOP_]. *)
Definition exec_SIGSTOP_ (w : world) (m : t) : outcome t :=
  m1 <- update_pids_ w m ;;
  let available_pids := find_SIGSTOP_available_pids_ m1 in
  if (0 <? List.length available_pids)%nat then
    stepwise <- Config.use_stepwise_SIGSTOP (cfg_ m1) ;;
    if stepwise then send_next_SIGSTOP_ available_pids m1
    else send_all_SIGSTOPs_ available_pids m1
  else Ok m1.

(** [*std::max_element(v.begin(), v.end())] on a vector of [u_long];
    dereferencing the end iterator of an empty vector is undefined. *)
Definition max_value (v : list Z) : outcome Z :=
  match v with
  | [] => Undefined
  | x :: v' => Ok (fold_left (fun largest y => if largest <? y then y else largest) v' x)
  end.

(** The comparison loop of [is_below_max_speed_], on vectors of equal size. *)
Fixpoint any_below (cur_speeds max_speeds : list Z) : bool :=
  match cur_speeds, max_speeds with
  | c :: cur', mx :: max' => if c <? mx then true else any_below cur' max'
  | _, _ => false
  end.

(** The local [max_speeds] of [is_below_max_speed_]: the top of each
    CPU's ladder when [use_scaling_available], else [cpuinfo_max_freqs]. *)
Definition max_speeds_ (cfg : Config.t) : outcome (list Z) :=
  use_scaling <- Config.use_scaling_available cfg ;;
  if use_scaling then
    avail <- Config.scaling_available_frequencies cfg ;;
    map_outcome max_value avail
  else Config.cpuinfo_max_freqs cfg.

(** [Monitor::is_below_max_speed_]. *)
Definition is_below_max_speed_ (cfg : Config.t) (cur_speeds : list Z)
  : outcome bool :=
  max_speeds <- max_speeds_ cfg ;;
  if negb (List.length cur_speeds =? List.length max_speeds)%nat
  then Raise InternalError
  else Ok (any_below cur_speeds max_speeds).

(** [FileCollection::overwrite(file_index, line)] on the
    [scaling_max_freq] files. *)
Definition overwrite (files_ : list string) (file_index : nat) (line : Z) (m : t)
  : outcome t :=
  if (file_index <? List.length files_)%nat
  then Ok (emit (Overwrite file_index line) m)
  else Raise ArgumentError.

(** The inner loop of [dethrottle_next_higher_]: the smallest available
    speed above [speed], or [ULONG_MAX] when there is none. *)
Definition next_higher (avail_speeds : list Z) (speed : Z) : Z :=
  fold_left
    (fun next v => if (v <? next) && (v >? speed) then v else next)
    avail_speeds ULONG_MAX.

(** [Monitor::dethrottle_next_higher_]; [i] is the loop counter, and the
    file collection is fetched from the configuration at each write. *)
Fixpoint dethrottle_next_higher_from (scaling_avail : list (list Z)) (i : nat)
  (cur_speeds : list Z) (m : t) : outcome t :=
  match cur_speeds with
  | [] => Ok m
  | speed :: rest =>
      avail_speeds <- at_ scaling_avail i ;;
      let next := next_higher avail_speeds speed in
      m' <- (if negb (next =? ULONG_MAX) then
               files_ <- Config.scaling_max_freq_files (cfg_ m) ;;
               overwrite files_ i next m
             else Ok m) ;;
      dethrottle_next_higher_from scaling_avail (S i) rest m'
  end.

Definition dethrottle_next_higher_ (cur_speeds : list Z) (m : t) : outcome t :=
  scaling_avail <- Config.scaling_available_frequencies (cfg_ m) ;;
  dethrottle_next_higher_from scaling_avail 0 cur_speeds m.

(** [Monitor::dethrottle_highest_]. *)
Definition dethrottle_highest_ (m : t) : outcome t :=
  max_freqs <- Config.cpuinfo_max_freqs (cfg_ m) ;;
  curfreq_files <- Config.scaling_max_freq_files (cfg_ m) ;;
  for_each
    (fun i m => v <- at_ max_freqs i ;; overwrite curfreq_files i v m)
    (seq 0 (List.length curfreq_files)) m.

(** [Monitor::exec_dethrottle_]. *)
Definition exec_dethrottle_ (w : world) (m : t) : outcome t :=
  files_ <- Config.scaling_max_freq_files (cfg_ m) ;;
  cur_speeds <-
    io.FileCollection_read (tools.convert_int t_u_long) (fs w) files_ ;;
  below <- is_below_max_speed_ (cfg_ m) cur_speeds ;;
  if below then
    let m1 := emit (Log "Dethrottling CPU.") m in
    use_scaling <- Config.use_scaling_available (cfg_ m1) ;;
    if use_scaling then dethrottle_next_higher_ cur_speeds m1
    else dethrottle_highest_ m1
  else Ok m.

(** [*std::min_element(v.begin(), v.end())] on a vector of [u_long]. *)
Definition min_value (v : list Z) : outcome Z :=
  match v with
  | [] => Undefined
  | x :: v' => Ok (fold_left (fun smallest y => if y <? smallest then y else smallest) v' x)
  end.

(** The comparison loop of [is_above_min_speed_], on vectors of equal size. *)
Fixpoint any_above (cur_speeds min_speeds : list Z) : bool :=
  match cur_speeds, min_speeds with
  | c :: cur', mn :: min' => if c >? mn then true else any_above cur' min'
  | _, _ => false
  end.

(** The local [min_speeds] of [is_above_min_speed_]. *)
Definition min_speeds_ (cfg : Config.t) : outcome (list Z) :=
  use_scaling <- Config.use_scaling_available cfg ;;
  if use_scaling then
    avail <- Config.scaling_available_frequencies cfg ;;
    map_outcome min_value avail
  else Config.cpuinfo_min_freqs cfg.

(** [Monitor::is_above_min_speed_]. *)
Definition is_above_min_speed_ (cfg : Config.t) (cur_speeds : list Z)
  : outcome bool :=
  min_speeds <- min_speeds_ cfg ;;
  if negb (List.length cur_speeds =? List.length min_speeds)%nat
  then Raise InternalError
  else Ok (any_above cur_speeds min_speeds).

(** The inner loop of [throttle_next_lower_]: the largest available speed
    below [speed], or 0 when there is none. *)
Definition next_lower (avail_speeds : list Z) (speed : Z) : Z :=
  fold_left
    (fun next v => if (v >? next) && (v <? speed) then v else next)
    avail_speeds 0.

(** [Monitor::throttle_next_lower_]; [i] is the loop counter. *)
Fixpoint throttle_next_lower_from (scaling_avail : list (list Z)) (i : nat)
  (cur_speeds : list Z) (m : t) : outcome t :=
  match cur_speeds with
  | [] => Ok m
  | speed :: rest =>
      avail_speeds <- at_ scaling_avail i ;;
      let next := next_lower avail_speeds speed in
      m' <- (if negb (next =? 0) then
               files_ <- Config.scaling_max_freq_files (cfg_ m) ;;
               overwrite files_ i next m
             else Ok m) ;;
      throttle_next_lower_from scaling_avail (S i) rest m'
  end.

Definition throttle_next_lower_ (cur_speeds : list Z) (m : t) : outcome t :=
  scaling_avail <- Config.scaling_available_frequencies (cfg_ m) ;;
  throttle_next_lower_from scaling_avail 0 cur_speeds m.

(** [Monitor::throttle_lowest_].  Every round of the loop reads all the
    files again; the read returns what the files hold in [w], the writes of
    the earlier rounds going to other files. *)
Definition throttle_lowest_ (w : world) (m : t) : outcome t :=
  min_freqs <- Config.cpuinfo_min_freqs (cfg_ m) ;;
  curfreq_files <- Config.scaling_max_freq_files (cfg_ m) ;;
  for_each
    (fun i m =>
       readings <- io.FileCollection_read (tools.convert_int t_u_long) (fs w)
                                          curfreq_files ;;
       cur_reading <- at_ readings i ;;
       min_freq <- at_ min_freqs i ;;
       if cur_reading >? min_freq then overwrite curfreq_files i min_freq m
       else Ok m)
    (seq 0 (List.length curfreq_files)) m.

(** [Monitor::exec_throttle_]. *)
Definition exec_throttle_ (w : world) (m : t) : outcome t :=
  files_ <- Config.scaling_max_freq_files (cfg_ m) ;;
  cur_speeds <-
    io.FileCollection_read (tools.convert_int t_u_long) (fs w) files_ ;;
  above <- is_above_min_speed_ (cfg_ m) cur_speeds ;;
  if above then
    let m1 := emit (Log "Throttling CPU.") m in
    use_scaling <- Config.use_scaling_available (cfg_ m1) ;;
    if use_scaling then throttle_next_lower_ cur_speeds m1
    else throttle_lowest_ w m1
  else Ok m.

(** [cfg_->thermal_files()->max_line()] (file-collection.h): the largest
    line of all thermal files. *)
Definition max_line (cfg : Config.t) (fs : io.filesystem) : outcome Z :=
  files_ <- Config.deref (Config.thermal_files_ cfg) ;;
  contents_ <- io.FileCollection_read (tools.convert_int t_u_long) fs files_ ;;
  max_value contents_.

(** [max_temp > getter()] and [max_temp < getter()]. *)
Definition above (max_temp : Z) (threshold : outcome Z) : outcome bool :=
  t <- threshold ;; Ok (max_temp >? t).
Definition below (max_temp : Z) (threshold : outcome Z) : outcome bool :=
  t <- threshold ;; Ok (max_temp <? t).

(** [if (c) op();] *)
Definition when_ (c : outcome bool) (op : t -> outcome t) (m : t) : outcome t :=
  b <- c ;; if b then op m else Ok m.

(** One round of the [while (true)] loop that [Monitor::run_] selects by
    the two modes, without the sleep that ends it; with no mode enabled
    [run_] throws at once. *)
Definition run_iteration_ (w : world) (m : t) : outcome t :=
  let cfg := cfg_ m in
  if Config.use_throttle cfg && Config.use_SIGSTOP cfg then
    max_temp <- max_line cfg (fs w) ;;
    upper <- Pid.orelse (above max_temp (Config.temp_throttle cfg))
                        (above max_temp (Config.temp_SIGSTOP cfg)) ;;
    if upper then
      m1 <- when_ (above max_temp (Config.temp_throttle cfg))
                  (exec_throttle_ w) m ;;
      when_ (above max_temp (Config.temp_SIGSTOP cfg)) (exec_SIGSTOP_ w) m1
    else
      lower <- Pid.orelse (below max_temp (Config.temp_dethrottle cfg))
                          (below max_temp (Config.temp_SIGCONT cfg)) ;;
      if lower then
        m1 <- when_ (below max_temp (Config.temp_dethrottle cfg))
                    (exec_dethrottle_ w) m ;;
        when_ (below max_temp (Config.temp_SIGCONT cfg)) (exec_SIGCONT_ w) m1
      else Ok m
  else if Config.use_throttle cfg then
    max_temp <- max_line cfg (fs w) ;;
    upper <- above max_temp (Config.temp_throttle cfg) ;;
    if upper then exec_throttle_ w m
    else
      lower <- below max_temp (Config.temp_dethrottle cfg) ;;
      if lower then exec_dethrottle_ w m else Ok m
  else if Config.use_SIGSTOP cfg then
    max_temp <- max_line cfg (fs w) ;;
    upper <- above max_temp (Config.temp_SIGSTOP cfg) ;;
    if upper then exec_SIGSTOP_ w m
    else
      lower <- below max_temp (Config.temp_SIGCONT cfg) ;;
      if lower then exec_SIGCONT_ w m else Ok m
  else Raise InternalError.

End Monitor.

End daemon.

(* ===================================================================== *)
(** * main.cc *)
(* ===================================================================== *)

Module cli.

(** What [main] goes on to do after looking at its arguments. *)
Inductive action : Type :=
| Help
| Version
| WhichConf
| Daemon (is_debug_mode : bool).

(** [strncmp(s1, s2, n) == 0] on argument strings (which hold no NUL): the
    first [n] characters agree, the comparison ending early where both
    strings end. *)
Fixpoint strncmp_eq (s1 s2 : string) (n : nat) : bool :=
  match n with
  | O => true
  | S n' =>
      match s1, s2 with
      | EmptyString, EmptyString => true
      | String a s1', String b s2' => Ascii.eqb a b && strncmp_eq s1' s2' n'
      | _, _ => false
      end
  end.

(** The warning of [main] for [argc > 2]; [args] is [argv] without the
    program name. *)
Definition warns (args : list string) : bool := (1 <? List.length args)%nat.

(** The chain of tests at the head of [main]. *)
Definition dispatch (args : list string) : action :=
  match args with
  | [] => Daemon false
  | arg :: _ =>
      if strncmp_eq arg "-h" 3 || strncmp_eq arg "--help" 7 then Help
      else if strncmp_eq arg "-v" 3 || strncmp_eq arg "--version" 10
      then Version
      else if strncmp_eq arg "-w" 3 || strncmp_eq arg "--which-conf" 7
      then WhichConf
      else Daemon (strncmp_eq arg "-d" 3 || strncmp_eq arg "--debug" 8)
  end.

End cli.

Import daemon.

(* ===================================================================== *)
(** * Notions used to state the properties *)
(* ===================================================================== *)


(** One step in the life of a process record: a census refresh that
    returns, a stop, or a continue. *)
Inductive pid_step (cfg : Config.t) : Pid.t -> Pid.t -> Prop :=
| step_update (fs : io.filesystem) (cpu_time : Z) (p p' : Pid.t) :
    Pid.update cfg fs cpu_time p = Ok p' -> pid_step cfg p p'
| step_SIGSTOP (p : Pid.t) : pid_step cfg p (Pid.send_SIGSTOP p)
| step_SIGCONT (p : Pid.t) : pid_step cfg p (Pid.send_SIGCONT p).

Inductive pid_steps (cfg : Config.t) : Pid.t -> Pid.t -> Prop :=
| steps_refl (p : Pid.t) : pid_steps cfg p p
| steps_cons (p q r : Pid.t) :
    pid_step cfg p q -> pid_steps cfg q r -> pid_steps cfg p r.

(** The kill calls among a list of effects. *)
Definition kills (es : list Monitor.event) : list (Z * Z) :=
  flat_map (fun e => match e with
                     | Monitor.Kill pid sig => [(pid, sig)]
                     | _ => []
                     end) es.

(** The process IDs behind a vector of pointers. *)
Definition pids_of (h : Monitor.store) (l : list Monitor.ptr) : list Z :=
  flat_map (fun v => match Monitor.lookup h v with
                     | Some p => [Pid.pid p]
                     | None => []
                     end) l.





(** The monitor after it did [es], in this order. *)
Definition emit_all (es : list Monitor.event) (m : Monitor.t) : Monitor.t :=
  {| Monitor.cfg_ := Monitor.cfg_ m;
     Monitor.objects := Monitor.objects m;
     Monitor.pids_ := Monitor.pids_ m;
     Monitor.self_stopped_pids_ := Monitor.self_stopped_pids_ m;
     Monitor.effects := Monitor.effects m ++ es |}.

Definition overwrite_event (iv : nat * Z) : Monitor.event :=
  Monitor.Overwrite (fst iv) (snd iv).



(** What the loop of [split] has collected so far is not empty. *)
Definition collected (chunks : list string) (cur : string) : Prop :=
  chunks <> [] \/ (0 <? String.length cur)%nat = true.


(** ** Tokens and separators *)

(** Every character of [s] passes [f]. *)
Fixpoint all_chars (f : ascii -> bool) (s : string) : bool :=
  match s with
  | EmptyString => true
  | String c s' => f c && all_chars f s'
  end.

(** A character that [split] on [ch] copies: neither the separator nor a
    backslash. *)
Definition plain_char (ch c : ascii) : bool :=
  negb (Ascii.eqb c ch) && negb (Ascii.eqb c tools.backslash).

(** A token that [split] on [ch] leaves whole. *)
Definition plain (ch : ascii) (t : string) : bool :=
  (0 <? String.length t)%nat && all_chars (plain_char ch) t.

(** [n] copies of [ch]. *)
Fixpoint run (ch : ascii) (n : nat) : string :=
  match n with
  | O => ""
  | S n' => String ch (run ch n')
  end.

(** Tokens laid out with a run of separators after each of them. *)
Fixpoint spaced (ch : ascii) (toks : list (string * nat)) : string :=
  match toks with
  | [] => ""
  | tk :: r => fst tk ++ run ch (snd tk) ++ spaced ch r
  end.

(** Every token but the last is followed by at least one separator. *)
Fixpoint separated (toks : list (string * nat)) : bool :=
  match toks with
  | [] => true
  | tk :: r =>
      match r with
      | [] => true
      | _ :: _ => (0 <? snd tk)%nat && separated r
      end
  end.

(** [path] is made of plain components between runs of slashes, the last
    of them [name]; the path may end in slashes, as [glob] marks
    directories. *)
Definition last_component (path name : string) : Prop :=
  exists (lead : nat) (toks : list (string * nat)) (k : nat),
    forallb (fun tk => plain "/" (fst tk)) (toks ++ [(name, k)]) = true /\
    separated (toks ++ [(name, k)]) = true /\
    path = (run "/" lead ++ spaced "/" (toks ++ [(name, k)]))%string.

(** The directory of components [cs]: a slash before each of them. *)
Definition dir_of (cs : list string) : string :=
  match cs with
  | [] => ""
  | c :: r => ("/" ++ tools.join_nonempty c r "/")%string
  end.

(** The directories on the way from the root to the one of components
    [cs] below [acc], the top one first. *)
Fixpoint ancestors_from (acc : string) (cs : list string) : list string :=
  match cs with
  | [] => []
  | c :: r =>
      let cur := (acc ++ "/" ++ c)%string in cur :: ancestors_from cur r
  end.

Definition ancestors (cs : list string) : list string := ancestors_from "" cs.

(** The directories of [paths] that [stat(2)] does not find. *)
Definition missing (fs : io.filesystem) (paths : list string) : list string :=
  filter (fun p => negb (io.file_exists fs p)) paths.

(** ** Lines of the configuration file *)

(** The line has a first token. *)
Definition has_token (line : string) : bool :=
  match tools.split line " " with
  | [] => false
  | _ :: _ => true
  end.

(** The line configures [tag]: its first token is [tag]. *)
Definition configures (tag line : string) : bool :=
  match tools.split line " " with
  | [] => false
  | spl0 :: _ => String.eqb spl0 tag
  end.

(** The indices, counted from [i], of the lines that configure [tag]. *)
Fixpoint tag_positions (tag : string) (lines : list string) (i : nat)
  : list nat :=
  match lines with
  | [] => []
  | line :: lines' =>
      (if configures tag line then [i] else [])
      ++ tag_positions tag lines' (S i)
  end.

(** ** The monitor between two operations *)

(** The states a monitor built on [cfg] goes through: [run_] only calls
    the four [exec_] operations. *)
Inductive operated (cfg : Config.t) : Monitor.t -> Prop :=
| op_new : operated cfg (Monitor.new cfg)
| op_SIGSTOP (w : Monitor.world) (m m' : Monitor.t) :
    operated cfg m -> Monitor.exec_SIGSTOP_ w m = Ok m' -> operated cfg m'
| op_SIGCONT (w : Monitor.world) (m m' : Monitor.t) :
    operated cfg m -> Monitor.exec_SIGCONT_ w m = Ok m' -> operated cfg m'
| op_throttle (w : Monitor.world) (m m' : Monitor.t) :
    operated cfg m -> Monitor.exec_throttle_ w m = Ok m' -> operated cfg m'
| op_dethrottle (w : Monitor.world) (m m' : Monitor.t) :
    operated cfg m -> Monitor.exec_dethrottle_ w m = Ok m' -> operated cfg m'.

(** [m'] is [m] with more effects. *)
Definition effects_only (m m' : Monitor.t) : Prop :=
  exists es, m' = emit_all es m.

(** The census [pids] over the store [h] is sound: no pointer twice, every
    pointer at a record, and no two pointers at records of one PID. *)
Definition census_ok (h : Monitor.store) (pids : list Monitor.ptr) : Prop :=
  NoDup pids /\
  (forall v, In v pids -> Monitor.lookup h v <> None) /\
  (forall v u p q,
      In v pids -> In u pids ->
      Monitor.lookup h v = Some p -> Monitor.lookup h u = Some q ->
      Pid.pid p = Pid.pid q -> v = u).

(** Every self-stopped pointer is in the census and at a ready record. *)
Definition stopped_ok (m : Monitor.t) : Prop :=
  incl (Monitor.self_stopped_pids_ m) (Monitor.pids_ m) /\
  forall v, In v (Monitor.self_stopped_pids_ m) ->
            Monitor.holds (Monitor.objects m) Pid.is_ready v = true.

(** The store [h'] is [h] up to the self-stopped flags. *)
Definition flag_only (h h' : Monitor.store) : Prop :=
  forall f : Pid.t -> bool,
    (forall b p, f (Pid.set_is_self_stopped b p) = f p) ->
    forall u, Monitor.holds h' f u = Monitor.holds h f u.

(** The store [h'] is [h] after updates of some of its records: a record
    keeps its PID and its self-stopped flag, and stays ready. *)
Definition updated (h h' : Monitor.store) : Prop :=
  forall u,
    match Monitor.lookup h u, Monitor.lookup h' u with
    | Some p, Some p' =>
        Pid.pid p' = Pid.pid p /\
        Pid.is_self_stopped p' = Pid.is_self_stopped p /\
        (Pid.is_ready p = true -> Pid.is_ready p' = true)
    | None, None => True
    | _, _ => False
    end.

(** The bodies of the two loops of [update_pids_]. *)
Definition refresh_body (cfg : Config.t) (fs : io.filesystem)
  (v : Monitor.ptr) (h : Monitor.store) : outcome Monitor.store :=
  cpu_time <- Monitor.sum_cur_cpu_time_ cfg fs ;;
  p <- Config.deref (Monitor.lookup h v) ;;
  p' <- Pid.update cfg fs cpu_time p ;;
  Ok (Monitor.assign h v p').

Definition add_body (cfg : Config.t) (w : Monitor.world) (test_pid : Z)
  (hp : Monitor.store * list Monitor.ptr)
  : outcome (Monitor.store * list Monitor.ptr) :=
  let '(h, pids) := hp in
  if negb (existsb (Monitor.holds h (fun p => Pid.pid p =? test_pid)) pids)
  then
    p <- Pid.new cfg (Monitor.fs w) test_pid (Monitor.raw w test_pid) ;;
    let '(h', v) := Monitor.make_shared h p in
    Ok (h', pids ++ [v])
  else Ok hp.

(** ** Throttling *)

(** At least one CPU's current ceiling is strictly above its minimum. *)
Definition above_min (cur_speeds min_speeds : list Z) : Prop :=
  exists i c x,
    nth_error cur_speeds i = Some c /\ nth_error min_speeds i = Some x /\ x < c.

(** [x] is the minimum of the ladder. *)
Definition is_min_of (ladder : list Z) (x : Z) : Prop :=
  In x ladder /\ forall y, In y ladder -> x <= y.

(** [min_speeds] holds for each CPU the minimum that its ceiling is held
    against: the hardware minimum or, with the ladder in use, the minimum
    of the CPU's ladder. *)
Definition minima (cfg : Config.t) (min_speeds : list Z) : Prop :=
  if Config.use_scaling_available_ cfg
  then Forall2 is_min_of (Config.scaling_available_frequencies_ cfg) min_speeds
  else Config.cpuinfo_min_freqs_ cfg = min_speeds.

(** [v] is the greatest value of the ladder below [speed], and is not 0. *)
Definition is_next_lower (ladder : list Z) (speed v : Z) : Prop :=
  In v ladder /\ v < speed /\ 0 < v /\
  forall y, In y ladder -> y < speed -> y <= v.

(** The files the ladder step down writes: for CPU [i], [i + 1], ... with
    ceilings [cur_speeds], the next lower ladder value where there is one. *)
Fixpoint lower_writes (scaling_avail : list (list Z)) (i : nat)
  (cur_speeds : list Z) : list (nat * Z) :=
  match cur_speeds with
  | [] => []
  | speed :: rest =>
      let next := Monitor.next_lower (nth i scaling_avail []) speed in
      (if next =? 0 then [] else [(i, next)])
      ++ lower_writes scaling_avail (S i) rest
  end.

(** The hardware minimum for every CPU, from [i] on, whose ceiling is
    above it. *)
Fixpoint lowest_writes (i : nat) (cur_speeds min_freqs : list Z)
  : list (nat * Z) :=
  match cur_speeds, min_freqs with
  | c :: cur', mn :: min' =>
      (if c >? mn then [(i, mn)] else []) ++ lowest_writes (S i) cur' min'
  | _, _ => []
  end.

(** ** Shares *)

(** The share behind [a] is strictly less than the share behind [b], both
    records being ready. *)
Definition share_lt (h : Monitor.store) (a b : Monitor.ptr) : Prop :=
  exists pa pb,
    Monitor.pct h a = Ok pa /\ Monitor.pct h b = Ok pb /\
    float32.ltb pa pb = true.

(** ** The glob rule as the design document words it *)

Module spec.

(** The pieces of the pattern between unescaped stars; a backslash makes
    the next character literal. *)
Fixpoint pieces (pattern cur : string) : list string :=
  match pattern with
  | EmptyString => [cur]
  | String c rest =>
      if Ascii.eqb c tools.backslash then
        match rest with
        | String c' rest' => pieces rest' (cur ++ String c' "")
        | EmptyString => pieces rest (cur ++ String c "")
        end
      else if Ascii.eqb c "*" then cur :: pieces rest ""
      else pieces rest (cur ++ String c "")
  end.

(** The fragments: the non-empty pieces. *)
Definition fragments (pattern : string) : list string :=
  filter (fun f => negb (String.length f =? 0)%nat) (pieces pattern "").

Definition begins_with_star (pattern : string) : bool :=
  tools.front_is "*" pattern.

(** The pattern ends with an unescaped star: its last piece is empty and
    there is more than one piece. *)
Definition ends_with_star (pattern : string) : bool :=
  match rev (pieces pattern "") with
  | last :: _ :: _ => (String.length last =? 0)%nat
  | _ => false
  end.

(** [gap0 ++ f1 ++ gap1 ++ ... ++ fn ++ gapn]. *)
Fixpoint interleave (gap0 : string) (rest : list (string * string)) : string :=
  match rest with
  | [] => gap0
  | (f, gap) :: rest' => gap0 ++ f ++ interleave gap rest'
  end.

(** The fragments occur in order inside [test], the first at position 0
    unless the pattern begins with a star and the last at the end unless the
    pattern ends with a star; the empty pattern has no fragment and both
    anchors, so it matches the empty string only. *)
Definition glob_rule (pattern test : string) : Prop :=
  exists (gap0 : string) (gaps : list string),
    List.length gaps = List.length (fragments pattern) /\
    test = interleave gap0 (combine (fragments pattern) gaps) /\
    (begins_with_star pattern = false -> gap0 = "") /\
    (ends_with_star pattern = false -> last gaps gap0 = "").

End spec.

(** ** Concrete machines *)

Module fixture.

Fixpoint assoc {A : Type} (k : string) (l : list (string * A)) : option A :=
  match l with
  | [] => None
  | (k', a) :: l' => if String.eqb k' k then Some a else assoc k l'
  end.

(** A file system given by the matches of each glob pattern and the lines
    of each file. *)
Definition machine (globs files : list (string * list string)) : io.filesystem := {|
  io.glob := fun pattern =>
    match assoc pattern globs with Some l => l | None => [] end;
  io.file_exists := fun path =>
    match assoc path files with Some _ => true | None => false end;
  io.file_lines := fun path => assoc path files
|}.

Definition config_path : string := "/usr/local/etc/conf.d/templimiter.conf".
Definition thermal_glob : string * list string :=
  ("/sys/devices/virtual/thermal/thermal_zone*/temp",
   ["/sys/devices/virtual/thermal/thermal_zone0/temp"]).
Definition self_stat : string * list string :=
  ("/proc/self/stat", ["4242 (templimiter) R 1 4242 4242 0 -1 4194304"]).

(** Raw storage holding zeroes. *)
Definition raw_zero : Pid.t := {|
  Pid.pid_ := 0; Pid.pid_str_ := ""; Pid.is_a_process_ := false;
  Pid.is_whitelisted_ := false; Pid.has_received_first_update_ := false;
  Pid.is_ready_ := false; Pid.is_self_stopped_ := false; Pid.comm_ := "";
  Pid.state_ := "000"%char; Pid.ppid_ := 0; Pid.pgrp_ := 0;
  Pid.session_ := 0; Pid.tty_nr_ := 0; Pid.tpgid_ := 0; Pid.flags_ := 0;
  Pid.utime_ := 0; Pid.stime_ := 0; Pid.cutime_ := 0; Pid.cstime_ := 0;
  Pid.nice_ := 0; Pid.pid_time_prev_ := 0; Pid.cpu_time_prev_ := 0;
  Pid.pid_cpu_pct_ := float32.zero
|}.

(** The stat line of a process that has run for [utime] ticks. *)
Definition stat_line (pid comm state utime : string) : string :=
  pid ++ " " ++ comm ++ " " ++ state ++ " 1 " ++ pid ++ " " ++ pid
  ++ " 0 -1 4194304 0 0 0 0 " ++ utime ++ " 0 0 0 20 0 1 0 100 0 0".

Definition proc_glob (pids : list string) : string * list string :=
  ("/proc/*",
   List.map (fun pid => ("/proc/" ++ pid ++ "/")%string) pids
   ++ ["/proc/self/"; "/proc/uptime"]).

Definition proc_file (pid line : string) : string * list string :=
  (("/proc/" ++ pid ++ "/stat")%string, [line]).

(** A machine in signal-only mode: the config file holds [conf], the first
    line of /proc/stat is [cpu] and the process table holds [procs]. *)
Definition signal_machine (conf : list string) (cpu : string)
  (procs : list (string * string)) : Monitor.world := {|
  Monitor.fs :=
    machine
      [thermal_glob; proc_glob (List.map fst procs)]
      ([(config_path, conf); self_stat; ("/proc/stat", [cpu])]
       ++ List.map (fun pl => proc_file (fst pl) (snd pl)) procs);
  Monitor.raw := fun _ => raw_zero
|}.

Definition three (u100 u200 u300 : string) : list (string * string) :=
  [ ("100", stat_line "100" "(a)" "R" u100);
    ("200", stat_line "200" "(b)" "R" u200);
    ("300", stat_line "300" "(c)" "R" u300) ].

(** *** Stepwise stop with shares 0.10, 0.55 and 0.30 *)

Definition signal_conf : list string := ["use_throttle false"; "use_SIGSTOP true"].

Definition tick (conf : list string) (cpu u100 u200 u300 : string) : Monitor.world :=
  signal_machine conf ("cpu  " ++ cpu ++ " 0 0 0 0 0 0 0 0 0")
                 (three u100 u200 u300).

(** Two ticks above [temp_SIGSTOP]: the three records are created, then
    sampled once. *)
Definition sampled_once (conf : list string) : outcome Monitor.t :=
  cfg <- Config.new (Monitor.fs (tick conf "1000" "0" "0" "0")) config_path ;;
  m1 <- Monitor.exec_SIGSTOP_ (tick conf "1000" "0" "0" "0") (Monitor.new cfg) ;;
  Monitor.exec_SIGSTOP_ (tick conf "2000" "0" "0" "0") m1.

(** The third tick: in 100 ticks of CPU time the processes ran for 10, 55
    and 30. *)
Definition third_tick (conf : list string) : Monitor.world :=
  tick conf "2100" "10" "55" "30".

Definition share_010 : float32.t :=
  float32.div (float32.of_u_long 10) (float32.of_u_long 100).
Definition share_055 : float32.t :=
  float32.div (float32.of_u_long 55) (float32.of_u_long 100).
Definition share_030 : float32.t :=
  float32.div (float32.of_u_long 30) (float32.of_u_long 100).

(** *** Continue with the default switches, and with both flipped *)

Definition fourth_tick (conf : list string) : Monitor.world :=
  tick conf "2200" "10" "65" "90".
Definition fifth_tick (conf : list string) : Monitor.world :=
  tick conf "2300" "10" "65" "120".

Definition two_stopped : outcome Monitor.t :=
  m2 <- sampled_once signal_conf ;;
  m3 <- Monitor.exec_SIGSTOP_ (third_tick signal_conf) m2 ;;
  Monitor.exec_SIGSTOP_ (fourth_tick signal_conf) m3.

Definition flipped_conf : list string :=
  signal_conf ++ ["use_stepwise_SIGSTOP false"; "use_stepwise_SIGCONT true"].

Definition all_stopped : outcome Monitor.t :=
  m2 <- sampled_once flipped_conf ;;
  Monitor.exec_SIGSTOP_ (third_tick flipped_conf) m2.

(** *** A stopped process that becomes whitelisted *)

Definition state_conf : list string := signal_conf ++ ["whitelist_state T"].

Definition one (state utime cpu : string) : Monitor.world :=
  signal_machine state_conf ("cpu  " ++ cpu ++ " 0 0 0 0 0 0 0 0 0")
                 [("100", stat_line "100" "(a)" state utime)].

(** *** Two samples with the same aggregate CPU time *)

Definition twice (utime : string) : io.filesystem :=
  Monitor.fs (signal_machine signal_conf "cpu  2000 0 0 0 0 0 0 0 0 0"
                             [("100", stat_line "100" "(a)" "R" utime)]).

Definition sampled_record : outcome Pid.t :=
  cfg <- Config.new (twice "0") config_path ;;
  p0 <- Pid.new cfg (twice "0") 100 raw_zero ;;
  Pid.update cfg (twice "0") 2000 p0.

(** *** A whitelist of two PIDs *)

Definition pid_conf : list string := signal_conf ++ ["whitelist_pid 1 2"].

(** *** Throttle mode, two CPUs *)

Definition cpufreq (file : string) : list string :=
  [ ("/sys/devices/system/cpu/cpu0/cpufreq/" ++ file)%string;
    ("/sys/devices/system/cpu/cpu1/cpufreq/" ++ file)%string ].

Definition cpu_glob (file : string) : string * list string :=
  (("/sys/devices/system/cpu/cpu*/cpufreq/" ++ file)%string, cpufreq file).

Definition cpu_files (file v0 v1 : string) : list (string * list string) :=
  [ (("/sys/devices/system/cpu/cpu0/cpufreq/" ++ file)%string, [v0]);
    (("/sys/devices/system/cpu/cpu1/cpufreq/" ++ file)%string, [v1]) ].

(** Hardware range 800..3000 on both CPUs, ceilings [c0] and [c1]. *)
Definition throttle_machine (conf : list string) (c0 c1 : string) : Monitor.world := {|
  Monitor.fs :=
    machine
      [ thermal_glob; cpu_glob "scaling_max_freq"; cpu_glob "cpuinfo_max_freq";
        cpu_glob "cpuinfo_min_freq"; cpu_glob "scaling_available_frequencies" ]
      ([(config_path, conf); self_stat]
       ++ cpu_files "scaling_max_freq" c0 c1
       ++ cpu_files "cpuinfo_max_freq" "3000" "3000"
       ++ cpu_files "cpuinfo_min_freq" "800" "800"
       ++ cpu_files "scaling_available_frequencies"
                    "800 1200 1800 2400 3000" "800 1200 1800 2400 3000");
  Monitor.raw := fun _ => raw_zero
|}.

Definition inverted_conf : list string :=
  ["temp_throttle 50000"; "temp_dethrottle 60000"].

(** The throttle machine on which no thermal file is found. *)
Definition no_thermal (conf : list string) : io.filesystem :=
  machine
    [ cpu_glob "scaling_max_freq"; cpu_glob "cpuinfo_max_freq";
      cpu_glob "cpuinfo_min_freq"; cpu_glob "scaling_available_frequencies" ]
    ([(config_path, conf); self_stat]
     ++ cpu_files "scaling_max_freq" "3000" "3000"
     ++ cpu_files "cpuinfo_max_freq" "3000" "3000"
     ++ cpu_files "cpuinfo_min_freq" "800" "800"
     ++ cpu_files "scaling_available_frequencies"
                  "800 1200 1800 2400 3000" "800 1200 1800 2400 3000").

(** *** Values taken out of the runs above *)

Definition value {A : Type} (default : A) (m : outcome A) : A :=
  match m with Ok a => a | _ => default end.

(** The configuration loaded from [signal_conf]. *)
Definition signal_cfg : Config.t :=
  value (Config.initial [] 0) (Config.new (twice "0") config_path).

(** The record of PID 100 after one sample, and after two. *)
Definition sampled_100 : Pid.t := value raw_zero sampled_record.
Definition ready_100 : Pid.t :=
  value raw_zero (Pid.update signal_cfg (twice "10") 2100 sampled_100).

(** The process table without PID 100, and with a stat file of two lines. *)
Definition gone : io.filesystem :=
  Monitor.fs (signal_machine signal_conf "cpu  2200 0 0 0 0 0 0 0 0 0" []).

Definition two_lines : io.filesystem :=
  machine [thermal_glob; proc_glob ["100"]]
          [ (config_path, signal_conf); self_stat;
            ("/proc/stat", ["cpu  2200 0 0 0 0 0 0 0 0 0"]);
            ("/proc/100/stat", [stat_line "100" "(a)" "R" "10"; ""]) ].

(** PID 100 reported in state T, under [state_conf]. *)
Definition state_cfg : Config.t :=
  value (Config.initial [] 0)
        (Config.new (Monitor.fs (one "R" "0" "1000")) config_path).

(** The configuration loaded from [pid_conf]. *)
Definition pid_machine : io.filesystem :=
  Monitor.fs (signal_machine pid_conf "cpu  1000 0 0 0 0 0 0 0 0 0" []).
Definition pid_cfg : Config.t :=
  value (Config.initial [] 0) (Config.new pid_machine config_path).

(** The throttle machine with both ceilings at the hardware maximum. *)
Definition at_max (conf : list string) : io.filesystem :=
  Monitor.fs (throttle_machine conf "3000" "3000").

(** PID 100 is created, sampled, stopped at its second sample ([s3]), and
    then reported in state T ([s4]). *)
Definition s0 : Monitor.t := Monitor.new state_cfg.
Definition s1 : Monitor.t :=
  value s0 (Monitor.exec_SIGSTOP_ (one "R" "0" "1000") s0).
Definition s2 : Monitor.t :=
  value s0 (Monitor.exec_SIGSTOP_ (one "R" "0" "2000") s1).

(** The configurations of the throttle machine, without and with the
    ladder, and the monitors built on them. *)
Definition throttle_cfg : Config.t :=
  value (Config.initial [] 0) (Config.new (at_max []) config_path).
Definition ladder_cfg : Config.t :=
  value (Config.initial [] 0)
        (Config.new (at_max ["use_scaling_available true"]) config_path).

(** *** A machine without the ladder files *)

Definition no_ladder (conf : list string) : io.filesystem :=
  machine
    [ thermal_glob; cpu_glob "scaling_max_freq"; cpu_glob "cpuinfo_max_freq";
      cpu_glob "cpuinfo_min_freq" ]
    ([(config_path, conf); self_stat]
     ++ cpu_files "scaling_max_freq" "3000" "3000"
     ++ cpu_files "cpuinfo_max_freq" "3000" "3000"
     ++ cpu_files "cpuinfo_min_freq" "800" "800").

(** The values loaded from the lines [conf] by the daemon of PID 4242. *)
Definition loaded (conf : list string) : Config.t :=
  value (Config.initial [] 0)
        (Config.load_config_values_ (Config.initial conf 4242)).

(** *** The throttle machine with a sensor reading *)

Definition thermal_file : string :=
  "/sys/devices/virtual/thermal/thermal_zone0/temp".

Definition heated (temps : list string) (c0 c1 : string) : Monitor.world := {|
  Monitor.fs :=
    machine
      [ thermal_glob; cpu_glob "scaling_max_freq"; cpu_glob "cpuinfo_max_freq";
        cpu_glob "cpuinfo_min_freq"; cpu_glob "scaling_available_frequencies" ]
      ([(config_path, []); self_stat; (thermal_file, temps)]
       ++ cpu_files "scaling_max_freq" c0 c1
       ++ cpu_files "cpuinfo_max_freq" "3000" "3000"
       ++ cpu_files "cpuinfo_min_freq" "800" "800"
       ++ cpu_files "scaling_available_frequencies"
                    "800 1200 1800 2400 3000" "800 1200 1800 2400 3000");
  Monitor.raw := fun _ => raw_zero
|}.

(** A first line of /proc/stat whose four leading counters sum to
    3000000000, above [INT_MAX]. *)
Definition long_uptime : io.filesystem :=
  Monitor.fs (signal_machine signal_conf
                "cpu  2000000000 0 1000000000 0 0 0 0 0 0 0" []).


(** *** A ladder that ends at the largest [u_long] *)




(** *** A file system with /var and nothing below it *)

Definition var_only : io.filesystem := {|
  io.glob := fun _ => [];
  io.file_exists := String.eqb "/var";
  io.file_lines := fun _ => None
|}.
End fixture.

(* ===================================================================== *)
(** * Properties *)
(* ===================================================================== *)

(** ** Reasoning about [outcome] *)

Lemma bind_Ok {A B : Type} (m : outcome A) (f : A -> outcome B) (b : B) :
  bind m f = Ok b -> exists a, m = Ok a /\ f a = Ok b.
Proof.
  destruct m as [a | k | ]; simpl; intros H; try discriminate.
  exists a; split; [reflexivity | assumption].
Qed.

(** [subvect] on a range that lies on the vector, and with no element
    asked for. *)
Lemma subvect_in_range {A : Type} (vect : list A) (start_index n_elements : Z) :
  0 <= start_index -> 0 < n_elements ->
  start_index + n_elements <= Z.of_nat (List.length vect) ->
  tools.subvect vect start_index n_elements
  = Ok (firstn (Z.to_nat n_elements) (skipn (Z.to_nat start_index) vect)).
Proof.
  intros Hs Hn Hb. unfold tools.subvect, tools.iterator_plus. cbv zeta.
  destruct (start_index <? 0) eqn:E1; [apply Z.ltb_lt in E1; lia |].
  destruct (n_elements <? 0) eqn:E2; [apply Z.ltb_lt in E2; lia |].
  destruct (n_elements =? 0) eqn:E3; [apply Z.eqb_eq in E3; lia |].
  replace ((0 <=? start_index)
           && (start_index <=? Z.of_nat (List.length vect))) with true
    by (symmetry; apply andb_true_iff; split; apply Z.leb_le; lia).
  replace ((0 <=? start_index + n_elements)
           && (start_index + n_elements <=? Z.of_nat (List.length vect)))
    with true
    by (symmetry; apply andb_true_iff; split; apply Z.leb_le; lia).
  cbn [bind].
  destruct (Z.of_nat (List.length vect) <=? start_index) eqn:E4;
    [apply Z.leb_le in E4; lia |].
  destruct (Z.of_nat (List.length vect) <? start_index + n_elements) eqn:E5;
    [apply Z.ltb_lt in E5; lia |].
  replace (start_index + n_elements - start_index) with n_elements by lia.
  reflexivity.
Qed.

Lemma subvect_none {A : Type} (vect : list A) (start_index : Z) :
  0 <= start_index -> tools.subvect vect start_index 0 = Ok [].
Proof.
  intros Hs. unfold tools.subvect. cbv zeta.
  destruct (start_index <? 0) eqn:E1; [apply Z.ltb_lt in E1; lia |].
  reflexivity.
Qed.

Lemma kind_eqb_eq (a b : kind) : kind_eqb a b = true <-> a = b.
Proof.
  split.
  - destruct a, b; simpl; intros H; try reflexivity; discriminate.
  - intros ->; destruct b; reflexivity.
Qed.

Lemma kind_eqb_neq (a b : kind) : a <> b -> kind_eqb a b = false.
Proof.
  intros Hne. destruct (kind_eqb a b) eqn:E; [| reflexivity].
  apply kind_eqb_eq in E. contradiction.
Qed.

(** Take apart a hypothesis [H : ... = Ok _] along the binds, the
    conditionals and the matches of the program. *)
Ltac ok_step H :=
  match type of H with
  | bind ?m _ = Ok _ =>
      let a := fresh "a" in
      let E := fresh "E" in
      apply bind_Ok in H; destruct H as (a & E & H)
  | (if ?b then _ else _) = Ok _ =>
      let E := fresh "E" in
      destruct b eqn:E; try discriminate H
  | (let '(_, _) := ?x in _) = Ok _ => destruct x
  | Ok _ = Ok _ => injection H as H
  | Raise _ = Ok _ => discriminate H
  | Undefined = Ok _ => discriminate H
  | match ?x with _ => _ end = Ok _ =>
      let E := fresh "E" in
      destruct x eqn:E; try discriminate H
  end.

Ltac ok_inv H := repeat ok_step H.

(** ** The pattern matcher *)

(** Runs of the separator count once, and an escaped character is kept. *)
Example split_config_line :
  tools.split "whitelist_comm  my\ app   Xorg" " " =
  ["whitelist_comm"; "my app"; "Xorg"].
Proof. reflexivity. Qed.

(** A pattern without a star matches the equal string only; so the empty
    pattern matches the empty string only. *)
Lemma matches_pattern_without_star (pattern test : string) :
  tools.contains_char "*" pattern = false ->
  tools.matches_pattern pattern test = Ok (String.eqb pattern test).
Proof.
  intros H. unfold tools.matches_pattern. rewrite H. reflexivity.
Qed.

(** C7 (the code departs from the rule).  The rule of the design document
    anchors the last fragment at the end of the test string when the
    pattern does not end with a star, so ["*a"] matches ["aa"].
    [matches_pattern] compares the position of the FIRST occurrence of the
    last fragment with the last possible position, and rejects ["aa"]. *)
Theorem C7_matches_pattern_rejects_repeated_last_fragment :
  spec.glob_rule "*a" "aa" /\
  tools.matches_pattern "*a" "aa" = Ok false /\
  tools.matches_pattern "*a" "ba" = Ok true.
Proof.
  split; [| split; reflexivity].
  exists "a", [""]. repeat split.
  - intros H. discriminate H.
Qed.

(** The fragments are searched from the summed sizes of the earlier
    fragments, not from where the earlier fragment was found: ["*b*a*"]
    is accepted on ["xab"], where no ["a"] follows the ["b"]. *)
Lemma matches_pattern_ignores_order :
  tools.matches_pattern "*b*a*" "xab" = Ok true /\
  ~ spec.glob_rule "*b*a*" "xab".
Proof.
  split; [reflexivity |].
  intros (gap0 & gaps & Hlen & Htest & _ & _).
  change (spec.fragments "*b*a*") with ["b"; "a"] in *.
  destruct gaps as [| g1 [| g2 [| g3 gaps]]]; simpl in Hlen; try discriminate.
  simpl in Htest.
  destruct gap0 as [| c0 [| c1 [| c2 gap0]]]; simpl in Htest; try discriminate.
  - injection Htest as _ Htest. destruct g1; discriminate.
  - destruct gap0; discriminate.
Qed.

(** ** Stepwise stop and continue on concrete machines *)

(** In stepwise mode one candidate is logged, signalled and pushed. *)
Lemma send_next_SIGSTOP_one (first : Monitor.ptr) (rest : list Monitor.ptr)
  (m m' : Monitor.t) :
  Monitor.send_next_SIGSTOP_ (first :: rest) m = Ok m' ->
  exists x p,
    In x (first :: rest) /\
    Monitor.lookup (Monitor.objects m) x = Some p /\
    Monitor.self_stopped_pids_ m' = Monitor.self_stopped_pids_ m ++ [x] /\
    kills (Monitor.effects m') = kills (Monitor.effects m) ++ [(Pid.pid p, 19)].
Proof.
  unfold Monitor.send_next_SIGSTOP_. intros H.
  apply bind_Ok in H. destruct H as (x & Hmax & H).
  apply bind_Ok in H. destruct H as (p & Hp & H).
  injection H as <-. exists x, p. simpl. repeat split.
  - clear - Hmax. revert first Hmax.
    induction rest as [| y rest IH]; intros first Hmax; simpl in Hmax.
    + injection Hmax as <-. left. reflexivity.
    + apply bind_Ok in Hmax. destruct Hmax as (c & _ & Hmax).
      apply IH in Hmax. destruct c; simpl in *; tauto.
  - destruct (Monitor.lookup (Monitor.objects m) x); simpl in Hp;
      [injection Hp as ->; reflexivity | discriminate].
  - unfold kills. rewrite !flat_map_app. simpl. rewrite app_nil_r. reflexivity.
Qed.

(** C1 (the code departs from the claim).  Three candidates with shares
    0.10, 0.55 and 0.30 and stepwise stop enabled: [exec_SIGSTOP_] sends one
    stop signal, to PID 100, the candidate with the LOWEST share, and adds
    only that record to [self_stopped_pids_]; the claim names PID 200. *)
Theorem C1_stepwise_stop_signals_lowest_share :
  (m2 <- fixture.sampled_once fixture.signal_conf ;;
   m <- Monitor.update_pids_ (fixture.third_tick fixture.signal_conf) m2 ;;
   stepwise <- Config.use_stepwise_SIGSTOP (Monitor.cfg_ m) ;;
   let available := Monitor.find_SIGSTOP_available_pids_ m in
   shares <- map_outcome (Monitor.pct (Monitor.objects m)) available ;;
   Ok (stepwise, pids_of (Monitor.objects m) available, shares))
  = Ok (true, [100; 200; 300],
        [fixture.share_010; fixture.share_055; fixture.share_030]) /\
  float32.ltb fixture.share_010 fixture.share_030 = true /\
  float32.ltb fixture.share_030 fixture.share_055 = true /\
  (m2 <- fixture.sampled_once fixture.signal_conf ;;
   m3 <- Monitor.exec_SIGSTOP_ (fixture.third_tick fixture.signal_conf) m2 ;;
   Ok (kills (Monitor.effects m3),
       pids_of (Monitor.objects m3) (Monitor.self_stopped_pids_ m3)))
  = Ok ([(100, 19)], [100]).
Proof.
  split; [vm_compute; reflexivity |].
  split; [vm_compute; reflexivity |].
  split; vm_compute; reflexivity.
Qed.

(** [exec_SIGCONT_] with nothing stopped leaves the monitor as it is. *)
Lemma exec_SIGCONT_nothing_stopped (w : Monitor.world) (m : Monitor.t) :
  Monitor.self_stopped_pids_ m = [] -> Monitor.exec_SIGCONT_ w m = Ok m.
Proof.
  intros H. unfold Monitor.exec_SIGCONT_. rewrite H. reflexivity.
Qed.

(** C2 (the code departs from the claim).  [exec_SIGCONT_] chooses between
    one continue and all continues by [use_stepwise_SIGSTOP], never by
    [use_stepwise_SIGCONT].  With the default switches (stepwise stop on,
    stepwise continue off) and two records stopped, one continue signal is
    sent; with both switches flipped and three records stopped, all three
    are continued. *)
Theorem C2_continue_follows_the_stop_switch :
  (m <- fixture.two_stopped ;;
   m' <- Monitor.exec_SIGCONT_ (fixture.fifth_tick fixture.signal_conf) m ;;
   Ok (Config.use_stepwise_SIGCONT (Monitor.cfg_ m),
       pids_of (Monitor.objects m) (Monitor.self_stopped_pids_ m),
       skipn (List.length (kills (Monitor.effects m)))
             (kills (Monitor.effects m'))))
  = Ok (Ok false, [100; 200], [(100, 18)]) /\
  (m <- fixture.all_stopped ;;
   m' <- Monitor.exec_SIGCONT_ (fixture.fourth_tick fixture.flipped_conf) m ;;
   Ok (Config.use_stepwise_SIGCONT (Monitor.cfg_ m),
       pids_of (Monitor.objects m) (Monitor.self_stopped_pids_ m),
       skipn (List.length (kills (Monitor.effects m)))
             (kills (Monitor.effects m'))))
  = Ok (Ok true, [100; 200; 300], [(100, 18); (200, 18); (300, 18)]).
Proof.
  split; vm_compute; reflexivity.
Qed.

(** ** The CPU share on a zero denominator *)

(** Dividing by a [float] zero never gives a finite value. *)
Lemma div_by_zero_not_finite (x : float32.t) (s : bool) :
  float32.is_finite (float32.div x (S754_zero s)) = false.
Proof. destruct x; reflexivity. Qed.

(** On the second and later samples of a record that is not whitelisted,
    an unchanged aggregate CPU time makes the share infinite or NaN. *)
Lemma sample_zero_delta_not_finite (cpu_time : Z) (p : Pid.t) :
  Pid.is_whitelisted p = false ->
  Pid.has_received_first_update_ p = true ->
  u_long_wrap (cpu_time - Pid.cpu_time_prev_ p) = 0 ->
  float32.is_finite (Pid.pid_cpu_pct_ (Pid.sample cpu_time p)) = false.
Proof.
  intros Hw Hf Hz. unfold Pid.sample, Pid.is_whitelisted in *.
  rewrite Hw, Hf. simpl. unfold Pid.cpu_share. rewrite Hz.
  apply div_by_zero_not_finite.
Qed.

(** C6 (the code departs from the claim).  A record that is not whitelisted
    is sampled twice while the aggregate CPU time stays at 2000: [update]
    returns, marks the record ready and stores NaN as its share when the
    process time did not move either, and +infinity when it moved; the
    claim wants 0. *)
Theorem C6_zero_delta_share_is_not_zero :
  (p1 <- fixture.sampled_record ;;
   Ok (Pid.is_whitelisted p1, Pid.has_received_first_update_ p1,
       Pid.cpu_time_prev_ p1))
  = Ok (false, true, 2000) /\
  (cfg <- Config.new (fixture.twice "0") fixture.config_path ;;
   p1 <- fixture.sampled_record ;;
   p2 <- Pid.update cfg (fixture.twice "0") 2000 p1 ;;
   Ok (Pid.is_whitelisted p2, Pid.is_ready p2, Pid.pid_cpu_pct p2))
  = Ok (false, true, Ok float32.nan) /\
  (cfg <- Config.new (fixture.twice "0") fixture.config_path ;;
   p1 <- fixture.sampled_record ;;
   p2 <- Pid.update cfg (fixture.twice "5") 2000 p1 ;;
   Ok (Pid.is_whitelisted p2, Pid.is_ready p2, Pid.pid_cpu_pct p2))
  = Ok (false, true, Ok float32.infinity) /\
  float32.is_finite float32.nan = false /\
  float32.is_finite float32.infinity = false.
Proof.
  split; [vm_compute; reflexivity |].
  split; [vm_compute; reflexivity |].
  split; [vm_compute; reflexivity |].
  split; reflexivity.
Qed.

(** ** [matches_pattern] always returns *)

Lemma split_loop_cons (c : ascii) (rest : string) (ch : ascii)
  (chunks : list string) (cur : string) (w : bool) :
  tools.split_loop (String c rest) ch chunks cur w =
  if Ascii.eqb c tools.backslash
     && match rest with EmptyString => false | _ => true end
  then match rest with
       | String c' rest' =>
           tools.split_loop rest' ch chunks (cur ++ String c' "") w
       | EmptyString => chunks
       end
  else if Ascii.eqb c ch then
         if negb w && (0 <? String.length cur)%nat
         then tools.split_loop rest ch (chunks ++ [cur]) "" true
         else tools.split_loop rest ch chunks cur w
       else tools.split_loop rest ch chunks (cur ++ String c "") false.
Proof.
  simpl. destruct (Ascii.eqb c tools.backslash), rest; simpl;
    destruct (Ascii.eqb c ch), w; simpl; try reflexivity;
    destruct (0 <? String.length cur)%nat; reflexivity.
Qed.

Lemma append_char_length (cur : string) (c : ascii) :
  (0 <? String.length (cur ++ String c ""))%nat = true.
Proof.
  apply Nat.ltb_lt. induction cur; simpl; lia.
Qed.

Lemma split_loop_collected (s : string) (ch : ascii) :
  (forall chunks cur w,
      collected chunks cur -> tools.split_loop s ch chunks cur w <> []) /\
  (forall c chunks cur w,
      collected chunks cur ->
      tools.split_loop (String c s) ch chunks cur w <> []).
Proof.
  assert (Hpush : forall (chunks : list string) (cur : string),
             chunks ++ [cur] <> []).
  { intros chunks cur H. apply app_eq_nil in H. destruct H; discriminate. }
  assert (Hbase : forall chunks cur w,
             collected chunks cur ->
             tools.split_loop "" ch chunks cur w <> []).
  { intros chunks cur w [H | H]; simpl.
    - destruct (0 <? String.length cur)%nat; [apply Hpush | exact H].
    - rewrite H. apply Hpush. }
  assert (Hstep : forall s',
             (forall chunks cur w,
                 collected chunks cur ->
                 tools.split_loop s' ch chunks cur w <> []) ->
             forall c chunks cur w,
               (Ascii.eqb c tools.backslash
                && match s' with EmptyString => false | _ => true end) = false ->
               collected chunks cur ->
               tools.split_loop (String c s') ch chunks cur w <> []).
  { intros s' IH c chunks cur w Hesc Hc. rewrite split_loop_cons, Hesc.
    destruct (Ascii.eqb c ch).
    - destruct (negb w && (0 <? String.length cur)%nat).
      + apply IH. left. apply Hpush.
      + apply IH. exact Hc.
    - apply IH. right. apply append_char_length. }
  induction s as [| a s' [IH1 IH2]].
  - split; [exact Hbase |].
    intros c chunks cur w Hc. apply Hstep; [exact Hbase | | exact Hc].
    apply andb_false_r.
  - split; [intros; apply IH2; assumption |].
    intros c chunks cur w Hc.
    destruct (Ascii.eqb c tools.backslash) eqn:Eb.
    + rewrite split_loop_cons, Eb. simpl.
      apply IH1. right. apply append_char_length.
    + apply Hstep; [intros; apply IH2; assumption | | exact Hc].
      rewrite Eb. reflexivity.
Qed.

(** A pattern whose first character is not the separator has a first
    fragment. *)
Lemma split_front_nonempty (s : string) (ch : ascii) :
  s <> "" -> tools.front_is ch s = false -> tools.split s ch <> [].
Proof.
  intros Hne Hfront. destruct s as [| c rest]; [contradiction |].
  simpl in Hfront. unfold tools.split. rewrite split_loop_cons.
  destruct (Ascii.eqb c tools.backslash
            && match rest with EmptyString => false | _ => true end) eqn:Eesc.
  - destruct rest as [| c' rest']; [rewrite andb_false_r in Eesc; discriminate |].
    apply (proj1 (split_loop_collected rest' ch)).
    right. apply append_char_length.
  - rewrite Hfront.
    apply (proj1 (split_loop_collected rest ch)).
    right. apply append_char_length.
Qed.

(** A pattern whose last character is not the separator has a last
    fragment. *)
Lemma split_loop_back_nonempty (s : string) (ch : ascii) :
  forall chunks cur w,
    s <> "" -> tools.back_is ch s = false ->
    tools.split_loop s ch chunks cur w <> [].
Proof.
  induction s as [| c rest IH]; intros chunks cur w Hne Hback;
    [contradiction |].
  rewrite split_loop_cons.
  destruct (Ascii.eqb c tools.backslash
            && match rest with EmptyString => false | _ => true end) eqn:Eesc.
  - destruct rest as [| c' rest']; [rewrite andb_false_r in Eesc; discriminate |].
    apply (proj1 (split_loop_collected rest' ch)).
    right. apply append_char_length.
  - destruct (Ascii.eqb c ch) eqn:Ec.
    + assert (Hrest : rest <> "" /\ tools.back_is ch rest = false).
      { destruct rest as [| c' rest'].
        - simpl in Hback. rewrite Ec in Hback. discriminate.
        - split; [discriminate | exact Hback]. }
      destruct Hrest as [Hr1 Hr2].
      destruct (negb w && (0 <? String.length cur)%nat);
        apply IH; assumption.
    + apply (proj1 (split_loop_collected rest ch)).
      right. apply append_char_length.
Qed.

Lemma at_nonempty {A : Type} (l : list A) (i : nat) :
  (i < List.length l)%nat -> exists a, at_ l i = Ok a.
Proof.
  intros H. unfold at_. destruct (nth_error l i) eqn:E; [eauto |].
  apply nth_error_None in E. lia.
Qed.

Lemma found_from_total (patt_spl : list string) (test : string) (n : nat) :
  forall i, (i + n = List.length patt_spl)%nat ->
            exists b, tools.found_from patt_spl test i n = Ok b.
Proof.
  induction n as [| n IH]; intros i Hi; simpl; [eauto |].
  assert (Hsub : exists slice,
             tools.subvect patt_spl 0 (Z.of_nat i) = Ok slice).
  { destruct i as [| i'].
    - cbn [Z.of_nat]. rewrite (subvect_none patt_spl 0) by lia. eauto.
    - rewrite subvect_in_range by lia. eauto. }
  destruct Hsub as [slice ->].
  destruct (at_nonempty patt_spl i) as [frag ->]; [lia |]. simpl.
  destruct (tools.find test frag (tools.total_size slice) =? tools.npos);
    [eauto |].
  apply IH. lia.
Qed.

Lemma matches_pattern_total (pattern test : string) :
  exists b, tools.matches_pattern pattern test = Ok b.
Proof.
  unfold tools.matches_pattern.
  destruct (tools.contains_char "*" pattern) eqn:Estar; simpl; [| eauto].
  assert (Hne : pattern <> "").
  { intros ->. discriminate Estar. }
  set (patt_spl := tools.split pattern "*").
  assert (Hanchor : exists b,
             (if negb (tools.front_is "*" pattern)
              then first <- at_ patt_spl 0 ;; Ok (String.prefix first test)
              else Ok true) = Ok b).
  { destruct (tools.front_is "*" pattern) eqn:Ef; simpl; [eauto |].
    destruct (at_nonempty patt_spl 0) as [first ->]; [| simpl; eauto].
    pose proof (split_front_nonempty pattern "*" Hne Ef) as Hs.
    fold patt_spl in Hs. destruct patt_spl; [contradiction | simpl; lia]. }
  destruct Hanchor as [anchored ->]. simpl.
  destruct anchored; simpl; [| eauto].
  destruct (found_from_total patt_spl test (List.length patt_spl) 0)
    as [all_found ->]; [reflexivity |]. simpl.
  destruct all_found; simpl; [| eauto].
  destruct (tools.back_is "*" pattern) eqn:Eb; simpl; [eauto |].
  destruct (at_nonempty patt_spl (List.length patt_spl - 1)) as [last ->].
  - pose proof (split_loop_back_nonempty pattern "*" [] "" false Hne Eb) as Hs.
    fold (tools.split pattern "*") in Hs. fold patt_spl in Hs.
    destruct patt_spl; [contradiction | simpl; lia].
  - simpl. match goal with |- context [negb ?c] => destruct c end; simpl; eauto.
Qed.

Lemma pattern_vect_contains_total (pattern_vect : list string) (value : string) :
  exists b, tools.pattern_vect_contains pattern_vect value = Ok b.
Proof.
  induction pattern_vect as [| v rest IH]; simpl; [eauto |].
  destruct (matches_pattern_total v value) as [m ->]. simpl.
  destruct m; [eauto | exact IH].
Qed.

(** With the stop mode enabled, the whitelist test of a record returns. *)
Lemma whitelist_test_total (cfg : Config.t) (p : Pid.t) :
  Config.use_SIGSTOP cfg = true ->
  exists b, Pid.whitelist_test cfg p = Ok b.
Proof.
  unfold Config.use_SIGSTOP. intros Hmode.
  unfold Pid.whitelist_test, Pid.orelse,
    Config.whitelist_max_nice, Config.whitelist_pid, Config.whitelist_state,
    Config.whitelist_ppid, Config.whitelist_pgrp, Config.whitelist_session,
    Config.whitelist_tty_nr, Config.whitelist_tpgid, Config.whitelist_flags,
    Config.whitelist_comm, Config.assert_SIGSTOP_mode_.
  rewrite Hmode. simpl.
  repeat match goal with
         | |- exists b, (if ?c then Ok true else _) = Ok b =>
             destruct c; [eauto |]
         end.
  apply pattern_vect_contains_total.
Qed.

(** ** Failures of the stat re-read *)

Lemma read_stat_IOError (fs : io.filesystem) (p : Pid.t) :
  io.File_read tools.convert_string fs (Pid.stat_path p) = Raise IOError ->
  Pid.read_stat_ fs p = Ok (Pid.set_is_a_process false p).
Proof.
  intros H. unfold Pid.read_stat_, Pid.parse_stat_. rewrite H. reflexivity.
Qed.

Lemma read_stat_other (fs : io.filesystem) (p : Pid.t) (k : kind) :
  k <> IOError -> Pid.parse_stat_ fs p = Raise k ->
  Pid.read_stat_ fs p = Raise k.
Proof.
  intros Hk H. unfold Pid.read_stat_. rewrite H. simpl.
  rewrite (kind_eqb_neq k IOError Hk). reflexivity.
Qed.

(** C8.  With the stop mode enabled: when the stat file cannot be read
    ([IOError]), [read_stat_] only clears [is_a_process_], and [update]
    returns normally with the record marked not live, its stat snapshot,
    PID and self-stopped flag untouched; an error of any other kind raised
    while the stat line is read and parsed leaves [read_stat_] and [update]
    as that same error. *)
Theorem C8_stat_read_error_handling
  (cfg : Config.t) (fs : io.filesystem) (cpu_time : Z) (p : Pid.t) :
  Config.use_SIGSTOP cfg = true ->
  (io.File_read tools.convert_string fs (Pid.stat_path p) = Raise IOError ->
   Pid.read_stat_ fs p = Ok (Pid.set_is_a_process false p) /\
   exists p', Pid.update cfg fs cpu_time p = Ok p' /\
              Pid.is_a_process p' = false /\
              Pid.stat_of p' = Pid.stat_of p /\
              Pid.pid p' = Pid.pid p /\
              Pid.is_self_stopped p' = Pid.is_self_stopped p) /\
  (forall k, k <> IOError -> Pid.parse_stat_ fs p = Raise k ->
             Pid.read_stat_ fs p = Raise k /\
             Pid.update cfg fs cpu_time p = Raise k).
Proof.
  intros Hmode. split.
  - intros Hio. split; [apply read_stat_IOError; exact Hio |].
    unfold Pid.update. rewrite (read_stat_IOError fs p Hio). simpl.
    unfold Pid.check_whitelist_.
    destruct (whitelist_test_total cfg (Pid.set_is_a_process false p) Hmode)
      as [w ->]. simpl.
    eexists. split; [reflexivity |].
    unfold Pid.sample. simpl.
    destruct w; simpl; [repeat split |].
    destruct (Pid.has_received_first_update_ p); simpl; repeat split.
  - intros k Hk Hparse. split; [apply read_stat_other; assumption |].
    unfold Pid.update. rewrite (read_stat_other fs p k Hk Hparse). reflexivity.
Qed.

(** The theorem at PID 100 of the fixture: its stat file is gone, then
    holds two lines ([InternalError]). *)
Lemma C8_stat_read_error_handling_witness :
  (Pid.read_stat_ fixture.gone fixture.ready_100
   = Ok (Pid.set_is_a_process false fixture.ready_100) /\
   exists p', Pid.update fixture.signal_cfg fixture.gone 2200 fixture.ready_100
              = Ok p' /\
              Pid.is_a_process p' = false /\
              Pid.stat_of p' = Pid.stat_of fixture.ready_100 /\
              Pid.pid p' = Pid.pid fixture.ready_100 /\
              Pid.is_self_stopped p' = Pid.is_self_stopped fixture.ready_100) /\
  (Pid.read_stat_ fixture.two_lines fixture.ready_100 = Raise InternalError /\
   Pid.update fixture.signal_cfg fixture.two_lines 2200 fixture.ready_100
   = Raise InternalError).
Proof.
  split.
  - apply (C8_stat_read_error_handling fixture.signal_cfg fixture.gone 2200
             fixture.ready_100).
    + vm_compute. reflexivity.
    + vm_compute. reflexivity.
  - apply (C8_stat_read_error_handling fixture.signal_cfg fixture.two_lines 2200
             fixture.ready_100).
    + vm_compute. reflexivity.
    + discriminate.
    + vm_compute. reflexivity.
Defined.

(** The scenario of the design document: a tracked and stopped PID whose
    stat file is removed is dropped from both vectors by the next refresh,
    and the refresh returns. *)
Example process_disappears :
  (m <- fixture.two_stopped ;;
   m' <- Monitor.update_pids_
           (fixture.signal_machine fixture.signal_conf
              "cpu  2300 0 0 0 0 0 0 0 0 0"
              [("200", fixture.stat_line "200" "(b)" "R" "65");
               ("300", fixture.stat_line "300" "(c)" "R" "120")]) m ;;
   Ok (pids_of (Monitor.objects m) (Monitor.pids_ m),
       pids_of (Monitor.objects m) (Monitor.self_stopped_pids_ m),
       pids_of (Monitor.objects m') (Monitor.pids_ m'),
       pids_of (Monitor.objects m') (Monitor.self_stopped_pids_ m')))
  = Ok ([100; 200; 300], [100; 200], [200; 300], [200]).
Proof. vm_compute. reflexivity. Qed.

(** ** The ready flag *)

Lemma read_stat_keeps (fs : io.filesystem) (p p1 : Pid.t) :
  Pid.read_stat_ fs p = Ok p1 ->
  Pid.is_ready_ p1 = Pid.is_ready_ p /\
  Pid.is_self_stopped_ p1 = Pid.is_self_stopped_ p /\
  Pid.pid_ p1 = Pid.pid_ p.
Proof.
  unfold Pid.read_stat_. destruct (Pid.parse_stat_ fs p) as [sf | k |]; simpl.
  - intros H. injection H as <-. repeat split.
  - destruct (kind_eqb k IOError); intros H; [| discriminate].
    injection H as <-. repeat split.
  - discriminate.
Qed.

Lemma check_whitelist_keeps (cfg : Config.t) (p p2 : Pid.t) :
  Pid.check_whitelist_ cfg p = Ok p2 ->
  Pid.is_ready_ p2 = Pid.is_ready_ p /\
  Pid.is_self_stopped_ p2 = Pid.is_self_stopped_ p /\
  Pid.pid_ p2 = Pid.pid_ p /\
  Pid.is_a_process_ p2 = Pid.is_a_process_ p.
Proof.
  unfold Pid.check_whitelist_. intros H. ok_inv H. subst p2. repeat split.
Qed.

Lemma sample_ready (cpu_time : Z) (p : Pid.t) :
  Pid.is_ready_ p = true -> Pid.is_ready_ (Pid.sample cpu_time p) = true.
Proof.
  intros H. unfold Pid.sample.
  destruct (Pid.is_whitelisted_ p), (Pid.has_received_first_update_ p);
    simpl; auto.
Qed.

Lemma sample_flags (cpu_time : Z) (p : Pid.t) :
  Pid.is_whitelisted_ (Pid.sample cpu_time p) = Pid.is_whitelisted_ p /\
  Pid.is_self_stopped_ (Pid.sample cpu_time p) = Pid.is_self_stopped_ p /\
  Pid.is_a_process_ (Pid.sample cpu_time p) = Pid.is_a_process_ p /\
  Pid.pid_ (Pid.sample cpu_time p) = Pid.pid_ p.
Proof.
  unfold Pid.sample.
  destruct (Pid.is_whitelisted_ p) eqn:Ew,
           (Pid.has_received_first_update_ p) eqn:Ef;
    simpl; rewrite ?Ew; repeat split.
Qed.

Lemma update_ready (cfg : Config.t) (fs : io.filesystem) (cpu_time : Z)
  (p p' : Pid.t) :
  Pid.update cfg fs cpu_time p = Ok p' ->
  Pid.is_ready_ p = true -> Pid.is_ready_ p' = true.
Proof.
  unfold Pid.update. intros H Hr. ok_inv H. subst p'.
  apply sample_ready.
  destruct (check_whitelist_keeps _ _ _ E0) as [-> _].
  destruct (read_stat_keeps _ _ _ E) as [-> _]. exact Hr.
Qed.

Lemma update_whitelisted (cfg : Config.t) (fs : io.filesystem) (cpu_time : Z)
  (p p' : Pid.t) :
  Pid.update cfg fs cpu_time p = Ok p' ->
  Pid.is_whitelisted_ p' = true ->
  Pid.pid_cpu_pct_ p' = float32.zero /\
  Pid.has_received_first_update_ p' = false /\
  Pid.is_ready_ p' = Pid.is_ready_ p.
Proof.
  unfold Pid.update. intros H Hw. ok_inv H. subst p'.
  destruct (sample_flags cpu_time a0) as [Hw' _]. rewrite Hw' in Hw.
  unfold Pid.sample. rewrite Hw. simpl. repeat split.
  destruct (check_whitelist_keeps _ _ _ E0) as [-> _].
  destruct (read_stat_keeps _ _ _ E) as [-> _]. reflexivity.
Qed.

Lemma pid_step_ready (cfg : Config.t) (p q : Pid.t) :
  pid_step cfg p q -> Pid.is_ready_ p = true -> Pid.is_ready_ q = true.
Proof.
  intros Hstep Hr. inversion Hstep; subst.
  - eapply update_ready; eassumption.
  - exact Hr.
  - exact Hr.
Qed.

(** C10.  Once [is_ready_] is true it stays true along every sequence of
    updates, stops and continues, and [pid_cpu_pct()] returns the stored
    share instead of raising; an update that finds the record whitelisted
    stores the share 0, clears [has_received_first_update_] and leaves
    [is_ready_] true. *)
Theorem C10_ready_is_never_cleared (cfg : Config.t) (p q : Pid.t) :
  pid_steps cfg p q ->
  Pid.is_ready p = true ->
  Pid.is_ready q = true /\
  Pid.pid_cpu_pct q = Ok (Pid.pid_cpu_pct_ q) /\
  (forall fs cpu_time r,
      Pid.update cfg fs cpu_time q = Ok r ->
      Pid.is_whitelisted r = true ->
      Pid.is_ready r = true /\
      Pid.has_received_first_update_ r = false /\
      Pid.pid_cpu_pct r = Ok float32.zero).
Proof.
  unfold Pid.is_ready, Pid.is_whitelisted.
  intros Hsteps. induction Hsteps as [p | p q r Hstep Hsteps IH]; intros Hr.
  - split; [exact Hr |]. split.
    + unfold Pid.pid_cpu_pct, Pid.assert_is_ready_. rewrite Hr. reflexivity.
    + intros fs cpu_time r Hu Hw.
      destruct (update_whitelisted _ _ _ _ _ Hu Hw) as (Hz & Hf & Hrr).
      rewrite Hr in Hrr. repeat split; [exact Hrr | exact Hf |].
      unfold Pid.pid_cpu_pct, Pid.assert_is_ready_. rewrite Hrr, Hz.
      reflexivity.
  - apply IH. eapply pid_step_ready; eassumption.
Qed.

(** The theorem on PID 100 of the fixture: ready after its second sample,
    then stopped, then found in state T, which [state_cfg] whitelists. *)
Lemma C10_ready_is_never_cleared_witness :
  Pid.is_ready (Pid.send_SIGSTOP fixture.ready_100) = true /\
  Pid.pid_cpu_pct (Pid.send_SIGSTOP fixture.ready_100)
  = Ok (Pid.pid_cpu_pct_ (Pid.send_SIGSTOP fixture.ready_100)) /\
  (forall r,
      Pid.update fixture.state_cfg
        (Monitor.fs (fixture.one "T" "10" "2200")) 2200
        (Pid.send_SIGSTOP fixture.ready_100) = Ok r ->
      Pid.is_whitelisted r = true ->
      Pid.is_ready r = true /\
      Pid.has_received_first_update_ r = false /\
      Pid.pid_cpu_pct r = Ok float32.zero).
Proof.
  destruct (C10_ready_is_never_cleared fixture.state_cfg fixture.ready_100
              (Pid.send_SIGSTOP fixture.ready_100)) as (H1 & H2 & H3).
  - eapply steps_cons; [apply step_SIGSTOP | apply steps_refl].
  - vm_compute. reflexivity.
  - split; [exact H1 |]. split; [exact H2 |].
    intros r. apply H3.
Defined.

(** ** Loading the configuration *)

Lemma load_config_values_whitelist_pid (c0 c : Config.t) :
  Config.load_config_values_ c0 = Ok c ->
  Config.own_pid_ c = Config.own_pid_ c0 /\
  Config.config_lines_ c = Config.config_lines_ c0 /\
  exists listed,
    Config.load_from_tag_vector_ (tools.convert_int t_pid_t)
      (Config.config_lines_ c0) "whitelist_pid" (Config.whitelist_pid_ c0)
    = Ok listed /\
    Config.whitelist_pid_ c = listed ++ [Config.own_pid_ c0].
Proof.
  unfold Config.load_config_values_. intros H.
  apply bind_Ok in H. destruct H as (log_file_path & _ & H).
  apply bind_Ok in H. destruct H as (listed & Hlisted & H).
  ok_inv H. subst c. simpl. repeat split. exists listed. split; auto.
Qed.

Lemma set_and_assert_config_fields (fs : io.filesystem) (c cfg : Config.t) :
  Config.set_and_assert_config_ fs c = Ok cfg ->
  exists tm sm,
    Config.set_throttle_ fs c = Ok tm /\
    Config.set_SIGSTOP_ fs c = Ok sm /\
    Config.own_pid_ cfg = Config.own_pid_ c /\
    Config.config_lines_ cfg = Config.config_lines_ c /\
    Config.whitelist_pid_ cfg = Config.whitelist_pid_ c /\
    Config.temp_throttle_ cfg = Config.tm_temp_throttle tm /\
    Config.temp_dethrottle_ cfg = Config.tm_temp_dethrottle tm /\
    Config.temp_SIGSTOP_ cfg = fst (fst sm) /\
    Config.temp_SIGCONT_ cfg = snd (fst sm).
Proof.
  unfold Config.set_and_assert_config_. intros H.
  apply bind_Ok in H. destruct H as (u & _ & H).
  apply bind_Ok in H. destruct H as (thermal_files & _ & H).
  apply bind_Ok in H. destruct H as (tm & Htm & H).
  apply bind_Ok in H. destruct H as (sm & Hsm & H).
  destruct sm as [[temp_SIGSTOP temp_SIGCONT] proc_stat_file].
  injection H as <-. exists tm, (temp_SIGSTOP, temp_SIGCONT, proc_stat_file).
  simpl. repeat split; assumption.
Qed.

Lemma set_throttle_ordered (fs : io.filesystem) (c : Config.t)
  (tm : Config.throttle_members) :
  Config.set_throttle_ fs c = Ok tm ->
  Config.tm_temp_dethrottle tm <= Config.tm_temp_throttle tm.
Proof.
  unfold Config.set_throttle_. intros H.
  destruct (Config.use_throttle_ c).
  - apply bind_Ok in H. destruct H as (u & Hassert & H).
    unfold Config.assert_throttle_gte_dethrottle_ in Hassert.
    destruct (Config.temp_throttle_ c <? Config.temp_dethrottle_ c) eqn:E;
      [discriminate |].
    apply Z.ltb_ge in E.
    ok_inv H; subst tm; simpl; exact E.
  - injection H as <-. simpl. unfold ULONG_MAX. lia.
Qed.

Lemma set_SIGSTOP_ordered (fs : io.filesystem) (c : Config.t)
  (sm : Z * Z * option string) :
  Config.set_SIGSTOP_ fs c = Ok sm -> snd (fst sm) <= fst (fst sm).
Proof.
  unfold Config.set_SIGSTOP_. intros H.
  destruct (Config.use_SIGSTOP_ c).
  - apply bind_Ok in H. destruct H as (u & Hassert & H).
    unfold Config.assert_SIGSTOP_gte_SIGCONT_ in Hassert.
    destruct (Config.temp_SIGSTOP_ c <? Config.temp_SIGCONT_ c) eqn:E;
      [discriminate |].
    apply Z.ltb_ge in E.
    ok_inv H; subst sm; simpl; exact E.
  - injection H as <-. simpl. unfold ULONG_MAX. lia.
Qed.

Lemma set_and_assert_config_rejects_throttle (fs : io.filesystem) (c : Config.t) :
  Config.use_throttle_ c = true ->
  Config.temp_throttle_ c < Config.temp_dethrottle_ c ->
  Config.assert_throttle_gte_dethrottle_ c = Raise ConfigError /\
  (forall cfg, Config.set_and_assert_config_ fs c <> Ok cfg) /\
  (forall thermal,
      io.FileCollection fs (Config.matcher_thermal_ c) = Ok thermal ->
      Config.set_and_assert_config_ fs c = Raise ConfigError).
Proof.
  intros Hmode Hlt.
  assert (Hassert : Config.assert_throttle_gte_dethrottle_ c = Raise ConfigError).
  { unfold Config.assert_throttle_gte_dethrottle_.
    apply Z.ltb_lt in Hlt. rewrite Hlt. reflexivity. }
  assert (Hset : Config.set_throttle_ fs c = Raise ConfigError).
  { unfold Config.set_throttle_. rewrite Hmode, Hassert. reflexivity. }
  split; [exact Hassert |]. split.
  - intros cfg H.
    destruct (set_and_assert_config_fields fs c cfg H) as (tm & sm & Htm & _).
    rewrite Hset in Htm. discriminate.
  - intros thermal Hth. unfold Config.set_and_assert_config_,
      Config.assert_any_mode_.
    rewrite Hmode, Hth, Hset. reflexivity.
Qed.

Lemma set_and_assert_config_rejects_SIGSTOP (fs : io.filesystem) (c : Config.t) :
  Config.use_SIGSTOP_ c = true ->
  Config.temp_SIGSTOP_ c < Config.temp_SIGCONT_ c ->
  Config.assert_SIGSTOP_gte_SIGCONT_ c = Raise ConfigError /\
  (forall cfg, Config.set_and_assert_config_ fs c <> Ok cfg) /\
  (forall thermal tm,
      io.FileCollection fs (Config.matcher_thermal_ c) = Ok thermal ->
      Config.set_throttle_ fs c = Ok tm ->
      Config.set_and_assert_config_ fs c = Raise ConfigError).
Proof.
  intros Hmode Hlt.
  assert (Hassert : Config.assert_SIGSTOP_gte_SIGCONT_ c = Raise ConfigError).
  { unfold Config.assert_SIGSTOP_gte_SIGCONT_.
    apply Z.ltb_lt in Hlt. rewrite Hlt. reflexivity. }
  assert (Hset : Config.set_SIGSTOP_ fs c = Raise ConfigError).
  { unfold Config.set_SIGSTOP_. rewrite Hmode, Hassert. reflexivity. }
  split; [exact Hassert |]. split.
  - intros cfg H.
    destruct (set_and_assert_config_fields fs c cfg H) as (tm & sm & _ & Hsm & _).
    rewrite Hset in Hsm. discriminate.
  - intros thermal tm Hth Htm. unfold Config.set_and_assert_config_,
      Config.assert_any_mode_.
    rewrite Hmode, Hth, Htm, Hset.
    destruct (Config.use_throttle_ c); reflexivity.
Qed.

Lemma new_Ok (fs : io.filesystem) (config_path : string) (cfg : Config.t) :
  Config.new fs config_path = Ok cfg ->
  exists lines own_pid c,
    Config.load_config_lines_ fs config_path = Ok lines /\
    Config.get_own_pid_ fs = Ok own_pid /\
    Config.load_config_values_ (Config.initial lines own_pid) = Ok c /\
    Config.set_and_assert_config_ fs c = Ok cfg.
Proof.
  unfold Config.new. intros H.
  apply bind_Ok in H. destruct H as (lines & Hlines & H).
  apply bind_Ok in H. destruct H as (own_pid & Hown & H).
  apply bind_Ok in H. destruct H as (c & Hc & H).
  exists lines, own_pid, c. auto.
Qed.

Lemma set_and_assert_config_earlier_error (fs : io.filesystem) (c : Config.t) :
  Config.use_throttle_ c || Config.use_SIGSTOP_ c = true ->
  (forall k,
      io.FileCollection fs (Config.matcher_thermal_ c) = Raise k ->
      Config.set_and_assert_config_ fs c = Raise k) /\
  (forall thermal k,
      io.FileCollection fs (Config.matcher_thermal_ c) = Ok thermal ->
      Config.set_throttle_ fs c = Raise k ->
      Config.set_and_assert_config_ fs c = Raise k).
Proof.
  intros Hmode.
  assert (Hany : Config.assert_any_mode_ c = Ok tt).
  { unfold Config.assert_any_mode_.
    destruct (Config.use_throttle_ c), (Config.use_SIGSTOP_ c);
      try reflexivity; discriminate. }
  split.
  - intros k Hth. unfold Config.set_and_assert_config_.
    rewrite Hany, Hth. reflexivity.
  - intros thermal k Hth Htm. unfold Config.set_and_assert_config_.
    rewrite Hany, Hth. cbn [bind]. rewrite Htm. reflexivity.
Qed.

(** C5 as claimed fails: the values read from [temp_throttle 50000] and
    [temp_dethrottle 60000] enable throttling and invert its pair, and on
    a machine where no thermal file is found the constructor throws
    [ArgumentError], from the thermal collection that it makes before it
    compares the pair, and no [ConfigError]. *)
Lemma C5_inverted_pair_without_thermal_file :
  Config.use_throttle_ (fixture.loaded fixture.inverted_conf) = true /\
  Config.temp_throttle_ (fixture.loaded fixture.inverted_conf)
  < Config.temp_dethrottle_ (fixture.loaded fixture.inverted_conf) /\
  Config.new (fixture.no_thermal fixture.inverted_conf) fixture.config_path
  = Raise ArgumentError.
Proof. repeat split; vm_compute; reflexivity. Qed.

(** C5, amended.  A configuration that [Config::Config] accepts has
    [temp_throttle >= temp_dethrottle] and [temp_SIGSTOP >= temp_SIGCONT],
    whatever the file and the enabled modes (a disabled mode has its pair
    overwritten with the largest and the smallest value).  When the values
    read from the file enable a mode and invert its pair, the assertion of
    that pair raises [ConfigError] and the configuration is never accepted;
    the constructor raises that [ConfigError] when the steps placed before
    the assertion succeed (the thermal collection, and for the stop pair
    the throttle set-up), and the error of the step that fails
    otherwise. *)
Theorem C5_accepted_thresholds_are_ordered
  (fs : io.filesystem) (config_path : string) :
  (forall cfg,
      Config.new fs config_path = Ok cfg ->
      Config.temp_throttle_ cfg >= Config.temp_dethrottle_ cfg /\
      Config.temp_SIGSTOP_ cfg >= Config.temp_SIGCONT_ cfg) /\
  (forall lines own_pid c,
      Config.load_config_lines_ fs config_path = Ok lines ->
      Config.get_own_pid_ fs = Ok own_pid ->
      Config.load_config_values_ (Config.initial lines own_pid) = Ok c ->
      (Config.use_throttle_ c = true ->
       Config.temp_throttle_ c < Config.temp_dethrottle_ c ->
       Config.assert_throttle_gte_dethrottle_ c = Raise ConfigError /\
       (forall cfg, Config.new fs config_path <> Ok cfg) /\
       (forall thermal,
           io.FileCollection fs (Config.matcher_thermal_ c) = Ok thermal ->
           Config.new fs config_path = Raise ConfigError) /\
       (forall k,
           io.FileCollection fs (Config.matcher_thermal_ c) = Raise k ->
           Config.new fs config_path = Raise k)) /\
      (Config.use_SIGSTOP_ c = true ->
       Config.temp_SIGSTOP_ c < Config.temp_SIGCONT_ c ->
       Config.assert_SIGSTOP_gte_SIGCONT_ c = Raise ConfigError /\
       (forall cfg, Config.new fs config_path <> Ok cfg) /\
       (forall thermal tm,
           io.FileCollection fs (Config.matcher_thermal_ c) = Ok thermal ->
           Config.set_throttle_ fs c = Ok tm ->
           Config.new fs config_path = Raise ConfigError) /\
       (forall k,
           io.FileCollection fs (Config.matcher_thermal_ c) = Raise k ->
           Config.new fs config_path = Raise k) /\
       (forall thermal k,
           io.FileCollection fs (Config.matcher_thermal_ c) = Ok thermal ->
           Config.set_throttle_ fs c = Raise k ->
           Config.new fs config_path = Raise k))).
Proof.
  split.
  - intros cfg H.
    destruct (new_Ok fs config_path cfg H) as (lines & own_pid & c & _ & _ & _ & Hset).
    destruct (set_and_assert_config_fields fs c cfg Hset)
      as (tm & sm & Htm & Hsm & _ & _ & _ & -> & -> & -> & ->).
    pose proof (set_throttle_ordered fs c tm Htm).
    pose proof (set_SIGSTOP_ordered fs c sm Hsm). lia.
  - intros lines own_pid c Hlines Hown Hc.
    assert (Hnew : Config.new fs config_path = Config.set_and_assert_config_ fs c).
    { unfold Config.new. rewrite Hlines, Hown. simpl. rewrite Hc. reflexivity. }
    rewrite Hnew. split; intros Hmode Hlt.
    + destruct (set_and_assert_config_rejects_throttle fs c Hmode Hlt)
        as (H1 & H2 & H3).
      destruct (set_and_assert_config_earlier_error fs c) as [H4 _];
        [rewrite Hmode; reflexivity |].
      auto.
    + destruct (set_and_assert_config_rejects_SIGSTOP fs c Hmode Hlt)
        as (H1 & H2 & H3).
      destruct (set_and_assert_config_earlier_error fs c) as [H4 H5];
        [rewrite Hmode; apply orb_true_r |].
      auto.
Qed.

(** The theorem on two machines: the throttle machine with its default
    file is accepted with ordered pairs; with [temp_throttle 50000] under
    [temp_dethrottle 60000] it is rejected with [ConfigError]. *)
Lemma C5_accepted_thresholds_are_ordered_witness :
  (exists cfg,
      Config.new (fixture.at_max []) fixture.config_path = Ok cfg /\
      Config.temp_throttle_ cfg >= Config.temp_dethrottle_ cfg /\
      Config.temp_SIGSTOP_ cfg >= Config.temp_SIGCONT_ cfg) /\
  Config.new (fixture.at_max fixture.inverted_conf) fixture.config_path
  = Raise ConfigError.
Proof.
  split.
  - exists fixture.throttle_cfg.
    assert (H : Config.new (fixture.at_max []) fixture.config_path
                = Ok fixture.throttle_cfg) by (vm_compute; reflexivity).
    split; [exact H |].
    apply (proj1 (C5_accepted_thresholds_are_ordered (fixture.at_max [])
                    fixture.config_path) fixture.throttle_cfg H).
  - destruct (C5_accepted_thresholds_are_ordered
                (fixture.at_max fixture.inverted_conf) fixture.config_path)
      as [_ H].
    refine (proj1 (proj2 (proj2 (proj1
      (H fixture.inverted_conf 4242
         (fixture.value (Config.initial [] 0)
            (Config.load_config_values_
               (Config.initial fixture.inverted_conf 4242)))
         _ _ _) _ _)))
      (snd fixture.thermal_glob) _);
      vm_compute; reflexivity.
Defined.

(** C9 as claimed fails: with [whitelist_pid 1 2] in the file and the
    daemon running as PID 4242 the configuration is accepted and the first
    element of [whitelist_pid_] is 1; the own PID comes last. *)
Lemma C9_own_pid_is_not_first :
  Config.new fixture.pid_machine fixture.config_path = Ok fixture.pid_cfg /\
  Config.get_own_pid_ fixture.pid_machine = Ok 4242 /\
  Config.own_pid_ fixture.pid_cfg = 4242 /\
  Config.whitelist_pid_ fixture.pid_cfg = [1; 2; 4242] /\
  hd_error (Config.whitelist_pid_ fixture.pid_cfg) = Some 1 /\
  hd_error (Config.whitelist_pid_ fixture.pid_cfg)
  <> Some (Config.own_pid_ fixture.pid_cfg).
Proof.
  split; [vm_compute; reflexivity |].
  split; [vm_compute; reflexivity |].
  split; [vm_compute; reflexivity |].
  split; [vm_compute; reflexivity |].
  split; [vm_compute; reflexivity |].
  vm_compute. discriminate.
Qed.

(** C9, amended.  For every configuration accepted at load, the daemon's
    own PID, read from /proc/self/stat, is appended to the PID whitelist:
    [whitelist_pid_] is the list configured under [whitelist_pid] (empty by
    default) followed by the own PID, which is therefore its last element
    and a member of it. *)
Theorem C9_own_pid_is_appended
  (fs : io.filesystem) (config_path : string) (cfg : Config.t) :
  Config.new fs config_path = Ok cfg ->
  Config.get_own_pid_ fs = Ok (Config.own_pid_ cfg) /\
  (exists listed,
      Config.load_from_tag_vector_ (tools.convert_int t_pid_t)
        (Config.config_lines_ cfg) "whitelist_pid" [] = Ok listed /\
      Config.whitelist_pid_ cfg = listed ++ [Config.own_pid_ cfg]) /\
  last (Config.whitelist_pid_ cfg) 0 = Config.own_pid_ cfg /\
  In (Config.own_pid_ cfg) (Config.whitelist_pid_ cfg).
Proof.
  intros H.
  destruct (new_Ok fs config_path cfg H)
    as (lines & own_pid & c & _ & Hown & Hc & Hset).
  destruct (set_and_assert_config_fields fs c cfg Hset)
    as (_ & _ & _ & _ & Hpid & Hlines & Hwl & _).
  destruct (load_config_values_whitelist_pid _ _ Hc)
    as (Hpid' & Hlines' & listed & Hlisted & Hwl').
  simpl in Hpid', Hlines', Hlisted, Hwl'.
  assert (Hp : Config.own_pid_ cfg = own_pid) by congruence.
  assert (Hw : Config.whitelist_pid_ cfg = listed ++ [own_pid]) by congruence.
  assert (Hl : Config.config_lines_ cfg = lines) by congruence.
  rewrite Hp, Hw, Hl. repeat split.
  - exact Hown.
  - exists listed. split; [exact Hlisted | reflexivity].
  - apply last_last.
  - apply in_or_app. right. left. reflexivity.
Qed.

Lemma C9_own_pid_is_appended_witness :
  Config.get_own_pid_ fixture.pid_machine
  = Ok (Config.own_pid_ fixture.pid_cfg) /\
  (exists listed,
      Config.load_from_tag_vector_ (tools.convert_int t_pid_t)
        (Config.config_lines_ fixture.pid_cfg) "whitelist_pid" [] = Ok listed /\
      Config.whitelist_pid_ fixture.pid_cfg
      = listed ++ [Config.own_pid_ fixture.pid_cfg]) /\
  last (Config.whitelist_pid_ fixture.pid_cfg) 0
  = Config.own_pid_ fixture.pid_cfg /\
  In (Config.own_pid_ fixture.pid_cfg) (Config.whitelist_pid_ fixture.pid_cfg).
Proof.
  apply (C9_own_pid_is_appended fixture.pid_machine fixture.config_path).
  vm_compute. reflexivity.
Defined.

(** ** The census and the self-stopped vector *)

Lemma for_each_inv {A S : Type} (P : S -> Prop)
  (body : A -> S -> outcome S) (l : list A) :
  (forall a s s', In a l -> P s -> body a s = Ok s' -> P s') ->
  forall s s', P s -> for_each body l s = Ok s' -> P s'.
Proof.
  induction l as [| a l IH]; intros Hbody s s' Hs H; simpl in H.
  - injection H as <-. exact Hs.
  - apply bind_Ok in H. destruct H as (s1 & H1 & H).
    apply (IH (fun a' t t' Hin => Hbody a' t t' (or_intror Hin)) s1 s');
      [| exact H].
    apply (Hbody a s s1); [left; reflexivity | exact Hs | exact H1].
Qed.

Lemma lookup_assign (h : Monitor.store) (v u : Monitor.ptr) (p : Pid.t) :
  Monitor.lookup (Monitor.assign h v p) u =
  if (u =? v)%nat
  then match Monitor.lookup h v with Some _ => Some p | None => None end
  else Monitor.lookup h u.
Proof.
  unfold Monitor.lookup. revert v u.
  induction h as [| q h IH]; intros v u; simpl.
  - destruct (u =? v)%nat, v, u; reflexivity.
  - destruct v as [| v], u as [| u]; simpl; try reflexivity. apply IH.
Qed.

(** Storing a record with only its self-stopped flag changed does not
    change what a test that ignores this flag sees through any pointer. *)
Lemma holds_assign_self_stopped (h : Monitor.store) (v : Monitor.ptr)
  (p : Pid.t) (b : bool) (f : Pid.t -> bool) :
  Monitor.lookup h v = Some p ->
  f (Pid.set_is_self_stopped b p) = f p ->
  forall u,
    Monitor.holds (Monitor.assign h v (Pid.set_is_self_stopped b p)) f u
    = Monitor.holds h f u.
Proof.
  intros Hv Hf u. unfold Monitor.holds. rewrite lookup_assign.
  destruct (u =? v)%nat eqn:E; [| reflexivity].
  apply Nat.eqb_eq in E. subst u. rewrite Hv. exact Hf.
Qed.

Lemma holds_andb_l (h : Monitor.store) (f g : Pid.t -> bool) (v : Monitor.ptr) :
  Monitor.holds h (fun p => f p && g p) v = true ->
  Monitor.holds h f v = true.
Proof.
  unfold Monitor.holds. destruct (Monitor.lookup h v); [| discriminate].
  intros H. apply andb_true_iff in H. tauto.
Qed.

Lemma deref_Ok {A : Type} (o : option A) (a : A) :
  Config.deref o = Ok a -> o = Some a.
Proof. destruct o; simpl; intros H; [injection H as -> | discriminate]; reflexivity. Qed.

(** What a refresh does to the two vectors. *)
Lemma update_pids_vectors (w : Monitor.world) (m m' : Monitor.t) :
  Monitor.update_pids_ w m = Ok m' ->
  Monitor.cfg_ m' = Monitor.cfg_ m /\
  Monitor.effects m' = Monitor.effects m /\
  exists h1,
    Monitor.self_stopped_pids_ m' =
    filter (Monitor.holds h1
              (fun p => Pid.is_a_process p && Pid.is_self_stopped p))
           (Monitor.self_stopped_pids_ m) /\
    incl (filter (Monitor.holds h1 Pid.is_a_process) (Monitor.pids_ m))
         (Monitor.pids_ m').
Proof.
  unfold Monitor.update_pids_. intros H.
  apply bind_Ok in H. destruct H as (h1 & _ & H).
  apply bind_Ok in H. destruct H as (files & _ & H).
  apply bind_Ok in H. destruct H as (pid_nums & _ & H).
  apply bind_Ok in H. destruct H as ([h2 pids2] & Hadd & H).
  injection H as <-. simpl. repeat split. exists h1. split; [reflexivity |].
  set (pids1 := filter (Monitor.holds h1 Pid.is_a_process) (Monitor.pids_ m)) in *.
  change pids2 with (snd (h2, pids2)).
  refine (for_each_inv (fun hp => incl pids1 (snd hp)) _ _ _ _ _ _ Hadd).
  - intros test_pid [h pids] [h' pids'] _ Hincl Hbody. simpl in *.
    destruct (negb (existsb (Monitor.holds h (fun p => Pid.pid p =? test_pid)) pids)).
    + apply bind_Ok in Hbody. destruct Hbody as (p & _ & Hbody).
      injection Hbody as _ <-. apply incl_appl. exact Hincl.
    + injection Hbody as _ <-. exact Hincl.
  - simpl. apply incl_refl.
Qed.

Lemma update_pids_subset (w : Monitor.world) (m m' : Monitor.t) :
  Monitor.update_pids_ w m = Ok m' ->
  incl (Monitor.self_stopped_pids_ m) (Monitor.pids_ m) ->
  incl (Monitor.self_stopped_pids_ m') (Monitor.pids_ m') /\
  incl (Monitor.self_stopped_pids_ m') (Monitor.self_stopped_pids_ m).
Proof.
  intros H Hincl.
  destruct (update_pids_vectors w m m' H) as (_ & _ & h1 & Hss & Hpids).
  rewrite Hss. split.
  - intros v Hv. apply filter_In in Hv. destruct Hv as [Hv Hlive].
    apply Hpids. apply filter_In. split; [apply Hincl; exact Hv |].
    apply holds_andb_l in Hlive. exact Hlive.
  - intros v Hv. apply filter_In in Hv. tauto.
Qed.

Lemma max_element_from_In (comp : Monitor.ptr -> Monitor.ptr -> outcome bool)
  (rest : list Monitor.ptr) :
  forall largest x,
    Monitor.max_element_from comp largest rest = Ok x -> In x (largest :: rest).
Proof.
  induction rest as [| y rest IH]; intros largest x H; simpl in H.
  - injection H as <-. left. reflexivity.
  - apply bind_Ok in H. destruct H as (c & _ & H).
    apply IH in H. destruct c; simpl in *; tauto.
Qed.

(** The candidates are in the census and not whitelisted. *)
Lemma available_spec (m : Monitor.t) (v : Monitor.ptr) :
  In v (Monitor.find_SIGSTOP_available_pids_ m) ->
  In v (Monitor.pids_ m) /\
  exists p, Monitor.lookup (Monitor.objects m) v = Some p /\
            Pid.is_whitelisted p = false.
Proof.
  unfold Monitor.find_SIGSTOP_available_pids_. intros H.
  apply filter_In in H. destruct H as [Hin H]. split; [exact Hin |].
  unfold Monitor.holds in H.
  destruct (Monitor.lookup (Monitor.objects m) v) as [p |]; [| discriminate].
  exists p. split; [reflexivity |].
  destruct (Pid.is_whitelisted p); [| reflexivity].
  rewrite andb_false_r in H. simpl in H. discriminate.
Qed.












(** ** Dethrottling *)



Lemma emit_all_emit (e : Monitor.event) (es : list Monitor.event) (m : Monitor.t) :
  emit_all es (Monitor.emit e m) = emit_all (e :: es) m.
Proof.
  unfold Monitor.emit, emit_all. simpl. rewrite <- app_assoc. reflexivity.
Qed.

Lemma map_outcome_length {A B : Type} (f : A -> outcome B) (l : list A) :
  forall l', map_outcome f l = Ok l' -> List.length l' = List.length l.
Proof.
  induction l as [| a l IH]; intros l' H; simpl in H.
  - injection H as <-. reflexivity.
  - apply bind_Ok in H. destruct H as (b & _ & H).
    apply bind_Ok in H. destruct H as (bs & Hbs & H).
    injection H as <-. simpl. rewrite (IH bs Hbs). reflexivity.
Qed.

Lemma map_outcome_nth {A B : Type} (f : A -> outcome B) (l : list A) :
  forall l' i a,
    map_outcome f l = Ok l' -> nth_error l i = Some a ->
    exists b, f a = Ok b /\ nth_error l' i = Some b.
Proof.
  induction l as [| a0 l IH]; intros l' i a H Hi; simpl in H.
  - destruct i; discriminate.
  - apply bind_Ok in H. destruct H as (b & Hb & H).
    apply bind_Ok in H. destruct H as (bs & Hbs & H).
    injection H as <-. destruct i as [| i]; simpl in *.
    + injection Hi as <-. eauto.
    + eapply IH; eassumption.
Qed.

Lemma skipn_nth_error {A : Type} (l : list A) :
  forall k v, nth_error l k = Some v -> skipn k l = v :: skipn (S k) l.
Proof.
  induction l as [| x l IH]; intros [| k] v Hv; simpl in *; try discriminate.
  - injection Hv as ->. reflexivity.
  - apply IH. exact Hv.
Qed.

Lemma emit_all_nil (m : Monitor.t) : emit_all [] m = m.
Proof. unfold emit_all. rewrite app_nil_r. destruct m; reflexivity. Qed.



(** The inner loop of the ladder step, from any starting value [next]. *)
Lemma next_higher_fold (speed : Z) (avail_speeds : list Z) :
  forall next,
    let r := fold_left
               (fun next v => if (v <? next) && (v >? speed) then v else next)
               avail_speeds next in
    r <= next /\
    (r = next \/ (In r avail_speeds /\ speed < r)) /\
    (forall u, In u avail_speeds -> speed < u -> r <= u).
Proof.
  induction avail_speeds as [| v l IH]; intros next; simpl.
  - split; [lia |]. split; [left; reflexivity |]. intros u [].
  - set (next' := if (v <? next) && (v >? speed) then v else next).
    destruct (IH next') as (H1 & H2 & H3).
    assert (Hn : next' <= next /\
                 (next' = next \/ (next' = v /\ speed < v)) /\
                 (speed < v -> next' <= v)).
    { unfold next'. rewrite Z.gtb_ltb.
      destruct (v <? next) eqn:E1, (speed <? v) eqn:E2; simpl;
        try apply Z.ltb_lt in E1; try apply Z.ltb_ge in E1;
        try apply Z.ltb_lt in E2; try apply Z.ltb_ge in E2;
        (split; [lia |]); (split; [| lia]); auto. }
    destruct Hn as (Hn1 & Hn2 & Hn3).
    split; [lia |]. split.
    + destruct H2 as [H2 | [H2 H2']].
      * destruct Hn2 as [Hn2 | [Hn2 Hn2']].
        -- left. congruence.
        -- right. split; [left; congruence | lia].
      * right. split; [right; exact H2 | exact H2'].
    + intros u [<- | Hu] Hlt.
      * specialize (Hn3 Hlt). lia.
      * apply H3; assumption.
Qed.

Lemma next_higher_spec (avail_speeds : list Z) (speed x : Z) :
  In x avail_speeds -> speed < x -> x < ULONG_MAX ->
  Monitor.next_higher avail_speeds speed <> ULONG_MAX /\
  In (Monitor.next_higher avail_speeds speed) avail_speeds /\
  speed < Monitor.next_higher avail_speeds speed /\
  Monitor.next_higher avail_speeds speed <= x.
Proof.
  intros Hin Hlt Hmax.
  destruct (next_higher_fold speed avail_speeds ULONG_MAX) as (H1 & H2 & H3).
  fold (Monitor.next_higher avail_speeds speed) in H1, H2, H3.
  specialize (H3 x Hin Hlt).
  destruct H2 as [H2 | [H2 H2']]; [lia |].
  repeat split; try assumption; lia.
Qed.

Lemma max_value_In (v : list Z) (x : Z) :
  Monitor.max_value v = Ok x -> In x v.
Proof.
  destruct v as [| y v]; simpl; intros H; [discriminate |].
  injection H as <-.
  revert y. induction v as [| z v IH]; intros y; simpl; [auto |].
  destruct (IH (if y <? z then z else y)) as [H | H]; [| auto].
  destruct (y <? z); auto.
Qed.


Lemma max_value_fold (v : list Z) :
  forall y0,
    let r := fold_left (fun largest y => if largest <? y then y else largest)
                       v y0 in
    y0 <= r /\ forall y, In y v -> y <= r.
Proof.
  induction v as [| z v IH]; intros y0; simpl.
  - split; [lia | intros y []].
  - destruct (IH (if y0 <? z then z else y0)) as [H1 H2].
    assert (Hz : y0 <= (if y0 <? z then z else y0) /\
                 z <= (if y0 <? z then z else y0)).
    { destruct (y0 <? z) eqn:E;
        [apply Z.ltb_lt in E | apply Z.ltb_ge in E]; lia. }
    split; [lia |]. intros y [<- | Hy]; [lia | apply H2; exact Hy].
Qed.


Lemma map_outcome_Forall2 {A B : Type} (f : A -> outcome B) (R : A -> B -> Prop) :
  (forall a b, R a b -> f a = Ok b) ->
  forall l l', Forall2 R l l' -> map_outcome f l = Ok l'.
Proof.
  intros Hf l l' H. induction H as [| a b l l' Hab _ IH]; [reflexivity |].
  cbn [map_outcome]. rewrite (Hf a b Hab). cbn [bind]. rewrite IH. reflexivity.
Qed.









(** The ladder of the design document, [800 1200 1800 2400 3000]: from the
    ceilings 800 and 3000 one step writes 1200 to the first CPU only. *)
Example dethrottle_ladder_step :
  (m <- Monitor.exec_dethrottle_
          (fixture.throttle_machine [] "800" "3000")
          (Monitor.new fixture.ladder_cfg) ;;
   Ok (Monitor.effects m))
  = Ok [Monitor.Log "Dethrottling CPU."; Monitor.Overwrite 0 1200].
Proof. vm_compute. reflexivity. Qed.

(** ** [split], [join], [subvect] and [ls] *)

Lemma string_app_assoc (a b c : string) :
  ((a ++ b) ++ c)%string = (a ++ (b ++ c))%string.
Proof. induction a as [| x a IH]; simpl; [reflexivity | rewrite IH; reflexivity]. Qed.

Lemma string_app_nil_r (a : string) : (a ++ "")%string = a.
Proof. induction a as [| x a IH]; simpl; [reflexivity | rewrite IH; reflexivity]. Qed.

Lemma plain_char_spec (ch c : ascii) :
  plain_char ch c = true ->
  Ascii.eqb c ch = false /\ Ascii.eqb c tools.backslash = false.
Proof.
  unfold plain_char. intros H. apply andb_true_iff in H. destruct H as [H1 H2].
  apply negb_true_iff in H1. apply negb_true_iff in H2. split; assumption.
Qed.

Lemma plain_spec (ch : ascii) (t : string) :
  plain ch t = true ->
  (0 <? String.length t)%nat = true /\ all_chars (plain_char ch) t = true /\
  t <> "".
Proof.
  unfold plain. intros H. apply andb_true_iff in H. destruct H as [H1 H2].
  repeat split; try assumption. intros ->. discriminate H1.
Qed.

(** A plain token is copied into [cur]. *)
Lemma split_loop_plain (ch : ascii) (t : string) :
  all_chars (plain_char ch) t = true -> t <> "" ->
  forall rest chunks cur w,
    tools.split_loop (t ++ rest) ch chunks cur w =
    tools.split_loop rest ch chunks (cur ++ t) false.
Proof.
  induction t as [| c t' IH]; intros Hall Hne rest chunks cur w; [contradiction |].
  simpl in Hall. apply andb_true_iff in Hall. destruct Hall as [Hc Hall].
  apply plain_char_spec in Hc. destruct Hc as [Hch Hbs].
  change (String c t' ++ rest)%string with (String c (t' ++ rest)).
  rewrite split_loop_cons, Hbs, Hch. cbn [andb].
  destruct t' as [| c' t''].
  - reflexivity.
  - rewrite IH; [| exact Hall | discriminate].
    rewrite string_app_assoc. reflexivity.
Qed.

(** Separators met while nothing is collected are skipped. *)
Lemma split_loop_run_empty (ch : ascii) (k : nat) :
  Ascii.eqb ch tools.backslash = false ->
  forall rest chunks w,
    tools.split_loop (run ch k ++ rest) ch chunks "" w =
    tools.split_loop rest ch chunks "" w.
Proof.
  intros Hbs. induction k as [| k IH]; intros rest chunks w; [reflexivity |].
  change (run ch (S k) ++ rest)%string with (String ch (run ch k ++ rest)).
  rewrite split_loop_cons, Hbs, Ascii.eqb_refl. cbn [andb].
  replace (negb w && (0 <? String.length "")%nat) with false
    by (destruct w; reflexivity).
  apply IH.
Qed.

(** The first separator after a token closes it. *)
Lemma split_loop_run (ch : ascii) (k : nat) :
  Ascii.eqb ch tools.backslash = false ->
  forall rest chunks cur,
    (0 <? String.length cur)%nat = true ->
    tools.split_loop (run ch k ++ rest) ch chunks cur false =
    match k with
    | O => tools.split_loop rest ch chunks cur false
    | S _ => tools.split_loop rest ch (chunks ++ [cur]) "" true
    end.
Proof.
  intros Hbs rest chunks cur Hcur. destruct k as [| k]; [reflexivity |].
  change (run ch (S k) ++ rest)%string with (String ch (run ch k ++ rest)).
  rewrite split_loop_cons, Hbs, Ascii.eqb_refl, Hcur. cbn [andb negb].
  apply split_loop_run_empty. exact Hbs.
Qed.

Lemma split_loop_spaced (ch : ascii) (toks : list (string * nat)) :
  Ascii.eqb ch tools.backslash = false ->
  forallb (fun tk => plain ch (fst tk)) toks = true ->
  separated toks = true ->
  forall chunks w,
    tools.split_loop (spaced ch toks) ch chunks "" w = chunks ++ List.map fst toks.
Proof.
  intros Hbs. induction toks as [| [t k] r IH]; intros Hplain Hsep chunks w.
  - simpl. rewrite app_nil_r. reflexivity.
  - cbn [forallb fst] in Hplain. apply andb_true_iff in Hplain.
    destruct Hplain as [Ht Hr].
    apply plain_spec in Ht. destruct Ht as (Hlen & Hall & Hne).
    cbn [spaced fst snd List.map].
    rewrite (split_loop_plain ch t Hall Hne).
    change ("" ++ t)%string with t.
    rewrite (split_loop_run ch k Hbs _ _ _ Hlen).
    destruct k as [| k].
    + destruct r as [| tk r']; [| discriminate Hsep].
      simpl. rewrite Hlen. reflexivity.
    + rewrite IH; [rewrite <- app_assoc; reflexivity | exact Hr |].
      destruct r as [| tk r']; [reflexivity |].
      cbn [separated snd] in Hsep. apply andb_true_iff in Hsep. apply Hsep.
Qed.

Lemma split_loop_join (ch : ascii) :
  Ascii.eqb ch tools.backslash = false ->
  forall vs v chunks w,
    forallb (plain ch) (v :: vs) = true ->
    tools.split_loop (tools.join_nonempty v vs (String ch "")) ch chunks "" w =
    chunks ++ v :: vs.
Proof.
  intros Hbs. induction vs as [| v' vs' IH]; intros v chunks w Hplain;
    cbn [forallb] in Hplain; apply andb_true_iff in Hplain;
    destruct Hplain as [Hv Hvs];
    apply plain_spec in Hv; destruct Hv as (Hlen & Hall & Hne).
  - cbn [tools.join_nonempty].
    pose proof (split_loop_plain ch v Hall Hne "" chunks "" w) as E.
    rewrite string_app_nil_r in E. rewrite E. simpl. rewrite Hlen. reflexivity.
  - cbn [tools.join_nonempty].
    rewrite (split_loop_plain ch v Hall Hne).
    change ("" ++ v)%string with v.
    change (String ch "" ++ tools.join_nonempty v' vs' (String ch ""))%string
      with (String ch (tools.join_nonempty v' vs' (String ch ""))).
    rewrite split_loop_cons, Hbs, Ascii.eqb_refl, Hlen. cbn [andb negb].
    rewrite IH; [rewrite <- app_assoc; reflexivity | exact Hvs].
Qed.

Lemma split_layout (ch : ascii) (lead : nat) (toks : list (string * nat)) :
  Ascii.eqb ch tools.backslash = false ->
  forallb (fun tk => plain ch (fst tk)) toks = true ->
  separated toks = true ->
  tools.split (run ch lead ++ spaced ch toks) ch = List.map fst toks.
Proof.
  intros Hbs Hplain Hsep. unfold tools.split.
  rewrite (split_loop_run_empty ch lead Hbs).
  apply (split_loop_spaced ch toks Hbs Hplain Hsep []).
Qed.

(** X1.  [split] counts a run of separators once and ignores separators at
    the front and at the end: plain tokens laid out with any number of
    separators before the first, at least one between two tokens and any
    number after the last are returned as they are, in order. *)
Theorem split_runs_of_separators (ch : ascii) (lead : nat)
  (toks : list (string * nat)) :
  Ascii.eqb ch tools.backslash = false ->
  forallb (fun tk => plain ch (fst tk)) toks = true ->
  separated toks = true ->
  tools.split (run ch lead ++ spaced ch toks) ch = List.map fst toks.
Proof. apply split_layout. Qed.

Lemma split_runs_of_separators_witness :
  tools.split (run " " 2 ++ spaced " " [("use_throttle", 3%nat); ("true", 1%nat)]) " "
  = ["use_throttle"; "true"].
Proof.
  apply (split_runs_of_separators " " 2 [("use_throttle", 3%nat); ("true", 1%nat)]);
    reflexivity.
Defined.

(** X2.  [split] undoes [join]: joining plain tokens with the separator
    and splitting the result on it gives the tokens back. *)
Theorem split_join_round_trip (ch : ascii) (v : string) (vs : list string) :
  Ascii.eqb ch tools.backslash = false ->
  forallb (plain ch) (v :: vs) = true ->
  exists j, tools.join (v :: vs) (String ch "") = Ok j /\
            tools.split j ch = v :: vs.
Proof.
  intros Hbs Hplain. eexists. split; [reflexivity |].
  apply (split_loop_join ch Hbs vs v [] false Hplain).
Qed.

Lemma split_join_round_trip_witness :
  exists j, tools.join ["proc"; "42"; "stat"] "/" = Ok j /\
            tools.split j "/" = ["proc"; "42"; "stat"].
Proof.
  apply (split_join_round_trip "/" "proc" ["42"; "stat"]); reflexivity.
Defined.

Lemma split_loop_chunks_nonempty (s : string) (ch : ascii) :
  (forall chunks cur w,
      Forall (fun c => c <> "") chunks ->
      Forall (fun c => c <> "") (tools.split_loop s ch chunks cur w)) /\
  (forall c chunks cur w,
      Forall (fun c => c <> "") chunks ->
      Forall (fun c => c <> "") (tools.split_loop (String c s) ch chunks cur w)).
Proof.
  assert (Hpush : forall (chunks : list string) (cur : string),
             Forall (fun c => c <> "") chunks ->
             (0 <? String.length cur)%nat = true ->
             Forall (fun c => c <> "") (chunks ++ [cur])).
  { intros chunks cur H Hcur. apply Forall_app. split; [exact H |].
    constructor; [| constructor]. intros ->. discriminate Hcur. }
  assert (Hbase : forall chunks cur w,
             Forall (fun c => c <> "") chunks ->
             Forall (fun c => c <> "") (tools.split_loop "" ch chunks cur w)).
  { intros chunks cur w H. simpl.
    destruct (0 <? String.length cur)%nat eqn:E; [apply Hpush | ]; assumption. }
  assert (Hstep : forall s',
             (forall chunks cur w,
                 Forall (fun c => c <> "") chunks ->
                 Forall (fun c => c <> "") (tools.split_loop s' ch chunks cur w)) ->
             forall c chunks cur w,
               (Ascii.eqb c tools.backslash
                && match s' with EmptyString => false | _ => true end) = false ->
               Forall (fun c => c <> "") chunks ->
               Forall (fun c => c <> "")
                      (tools.split_loop (String c s') ch chunks cur w)).
  { intros s' IH c chunks cur w Hesc Hc. rewrite split_loop_cons, Hesc.
    destruct (Ascii.eqb c ch).
    - destruct (negb w && (0 <? String.length cur)%nat) eqn:E.
      + apply IH. apply Hpush; [exact Hc |].
        apply andb_true_iff in E. apply E.
      + apply IH. exact Hc.
    - apply IH. exact Hc. }
  induction s as [| a s' [IH1 IH2]].
  - split; [exact Hbase |].
    intros c chunks cur w Hc. apply Hstep; [exact Hbase | | exact Hc].
    apply andb_false_r.
  - split; [intros; apply IH2; assumption |].
    intros c chunks cur w Hc.
    destruct (Ascii.eqb c tools.backslash) eqn:Eb.
    + rewrite split_loop_cons, Eb. simpl. apply IH1. exact Hc.
    + apply Hstep; [intros; apply IH2; assumption | | exact Hc].
      rewrite Eb. reflexivity.
Qed.

(** X3.  [split] never returns an empty chunk, whatever the string and
    the separator; and a string made of separators only (the empty string
    too) has no chunk at all. *)
Theorem split_chunks_nonempty (s : string) (ch : ascii) :
  Forall (fun c => c <> "") (tools.split s ch) /\
  (Ascii.eqb ch tools.backslash = false ->
   forall k, tools.split (run ch k) ch = []).
Proof.
  split.
  - apply (proj1 (split_loop_chunks_nonempty s ch)). constructor.
  - intros Hbs k. unfold tools.split.
    pose proof (split_loop_run_empty ch k Hbs "" [] false) as E.
    rewrite string_app_nil_r in E. rewrite E. reflexivity.
Qed.



Lemma basename_of_path (path name : string) :
  last_component path name ->
  (let spl := tools.split path "/" in
   sub <- tools.subvect spl (Z.of_nat (List.length spl) - 1) 1 ;;
   tools.join sub "/") = Ok name.
Proof.
  intros (lead & toks & k & Hplain & Hsep & ->).
  rewrite (split_layout "/" lead _ eq_refl Hplain Hsep).
  rewrite map_app. cbn [List.map fst].
  set (front := List.map fst toks).
  cbv zeta.
  rewrite subvect_in_range
    by (rewrite ?length_app; cbn [List.length]; lia).
  rewrite length_app. cbn [List.length].
  replace (Z.to_nat (Z.of_nat (List.length front + 1) - 1))
    with (List.length front + 0)%nat by lia.
  rewrite skipn_app, skipn_all2 by lia.
  replace (List.length front + 0 - List.length front)%nat with 0%nat by lia.
  reflexivity.
Qed.

(** X5.  [ls] without paths returns, for each path that [glob] found, its
    last component, whether or not [glob] marked the path as a directory
    with a final slash; the order is that of [glob]. *)
Theorem ls_last_components (fs : io.filesystem) (pattern : string)
  (names : list string) :
  Forall2 last_component (io.glob fs pattern) names ->
  io.ls fs pattern false = Ok names.
Proof.
  intros H. unfold io.ls.
  apply (map_outcome_Forall2 _ last_component); [| exact H].
  intros path name Hc. apply (basename_of_path path name Hc).
Qed.

Lemma ls_last_components_witness :
  io.ls fixture.gone "/proc/*" false = Ok ["self"; "uptime"].
Proof.
  apply (ls_last_components fixture.gone "/proc/*" ["self"; "uptime"]).
  constructor; [| constructor; [| constructor]].
  - exists 1%nat, [("proc", 1%nat)], 1%nat. repeat split.
  - exists 1%nat, [("proc", 1%nat)], 0%nat. repeat split.
Defined.

(** ** type-convert.h *)

(** X6.  The conversions accept exactly what [to_string] prints: a string
    converts to the integer [z] of type [t] if and only if [z] is in the
    range of [t] and the string is the decimal numeral of [z] (so a plus
    sign, leading zeros, blanks and trailing characters are refused), and a
    string converts to the truth value [b] if and only if it is the name of
    [b]; every other input throws [TypeError]. *)
Theorem convert_round_trip (t : int_type) (s : string) :
  (forall z, tools.convert_int t s = Ok z <->
             in_range t z = true /\ s = tools.to_string z) /\
  ((forall z, tools.convert_int t s <> Ok z) ->
   tools.convert_int t s = Raise TypeError) /\
  (forall b, tools.convert_bool s = Ok b <-> s = tools.to_string_bool b) /\
  ((forall b, tools.convert_bool s <> Ok b) ->
   tools.convert_bool s = Raise TypeError).
Proof.
  split; [| split; [| split]].
  - intros z. unfold tools.convert_int. split.
    + destruct (NilZero.int_of_string s) as [d |] eqn:Ed; [| discriminate].
      cbv zeta.
      destruct (in_range t (Z.of_int d)
                && String.eqb (tools.to_string (Z.of_int d)) s) eqn:E;
        [| discriminate].
      intros H. injection H as <-. apply andb_true_iff in E.
      destruct E as [Hr He]. apply String.eqb_eq in He. split; [exact Hr |].
      symmetry. exact He.
    + intros [Hr ->]. unfold tools.to_string.
      rewrite NilZero.isi.
      * cbv zeta. rewrite DecimalZ.of_to, Hr, String.eqb_refl. reflexivity.
      * destruct z as [| p | p]; simpl; try discriminate.
        intros H. injection H as H.
        exact (DecimalPos.Unsigned.to_uint_nonnil p H).
      * destruct z as [| p | p]; simpl; try discriminate.
        intros H. injection H as H.
        exact (DecimalPos.Unsigned.to_uint_nonnil p H).
  - unfold tools.convert_int. intros H.
    destruct (NilZero.int_of_string s) as [d |]; [| reflexivity].
    cbv zeta in *.
    destruct (in_range t (Z.of_int d)
              && String.eqb (tools.to_string (Z.of_int d)) s);
      [exfalso; exact (H _ eq_refl) | reflexivity].
  - intros b. unfold tools.convert_bool. cbv zeta. split.
    + destruct (String.eqb (tools.to_string_bool (String.prefix "true" s)) s)
        eqn:E; [| discriminate].
      simpl. intros H. injection H as <-. apply String.eqb_eq in E.
      symmetry. exact E.
    + intros ->. destruct b; reflexivity.
  - unfold tools.convert_bool. cbv zeta. intros H.
    destruct (negb (String.eqb (tools.to_string_bool (String.prefix "true" s)) s));
      [reflexivity | exfalso; exact (H _ eq_refl)].
Qed.


(** ** Patterns with one fragment *)

Lemma index_star_append (f : string) :
  exists n, String.index 0 "*" (f ++ "*") = Some n /\
            (n <= String.length f)%nat.
Proof.
  induction f as [| c f IH].
  - exists 0%nat. split; [reflexivity | simpl; lia].
  - destruct IH as (n & IH & Hn).
    change (String c f ++ "*")%string with (String c (f ++ "*")).
    cbn [String.index].
    destruct (String.prefix "*" (String c (f ++ "*"))).
    + exists 0%nat. split; [reflexivity | simpl; lia].
    + rewrite IH. exists (S n). split; [reflexivity | simpl; lia].
Qed.

Lemma contains_star_append (f : string) :
  Z.of_nat (String.length f) < tools.npos ->
  tools.contains_char "*" (f ++ "*") = true.
Proof.
  intros Hlen. unfold tools.contains_char, tools.find.
  destruct (index_star_append f) as (n & E & Hn). rewrite E.
  apply negb_true_iff. apply Z.eqb_neq. lia.
Qed.

Lemma back_is_append (c : ascii) (f : string) :
  tools.back_is c (f ++ String c "") = true.
Proof.
  induction f as [| x f IH]; [apply Ascii.eqb_refl |].
  change (String x f ++ String c "")%string with (String x (f ++ String c "")).
  cbn [tools.back_is].
  destruct (f ++ String c "")%string eqn:E; [| exact IH].
  destruct f; discriminate E.
Qed.

Lemma prefix_index (f test : string) :
  String.prefix f test = true -> String.index 0 f test = Some 0%nat.
Proof.
  intros H. destruct test as [| b test].
  - destruct f; [reflexivity | discriminate H].
  - cbn [String.index]. rewrite H. reflexivity.
Qed.

Lemma found_from_one (f test : string) :
  tools.found_from [f] test 0 1 =
  Ok (negb (tools.find test f 0 =? tools.npos)).
Proof.
  cbn [tools.found_from]. unfold tools.subvect. simpl.
  change (tools.total_size []) with 0%nat.
  destruct (tools.find test f 0 =? tools.npos); reflexivity.
Qed.

(** X7.  A pattern of one plain fragment and stars means what one
    expects: [f*] matches exactly the strings that begin with [f], and
    [*f*] exactly the strings in which [find] locates [f]. *)
Theorem matches_pattern_one_fragment (f test : string) :
  plain "*" f = true ->
  (Z.of_nat (String.length f) <? tools.npos) = true ->
  tools.matches_pattern (f ++ "*") test = Ok (String.prefix f test) /\
  tools.matches_pattern ("*" ++ f ++ "*") test =
  Ok (negb (tools.find test f 0 =? tools.npos)).
Proof.
  intros Hplain Hlen. apply Z.ltb_lt in Hlen.
  assert (Hsplit0 : tools.split (f ++ "*") "*" = [f]).
  { apply (split_layout "*" 0 [(f, 1%nat)] eq_refl).
    - cbn [forallb fst]. rewrite Hplain. reflexivity.
    - reflexivity. }
  assert (Hsplit1 : tools.split ("*" ++ f ++ "*") "*" = [f]).
  { apply (split_layout "*" 1 [(f, 1%nat)] eq_refl).
    - cbn [forallb fst]. rewrite Hplain. reflexivity.
    - reflexivity. }
  pose proof (back_is_append "*" f) as Hback.
  destruct (plain_spec "*" f Hplain) as (_ & Hall & Hne).
  split.
  - unfold tools.matches_pattern.
    rewrite (contains_star_append f Hlen), Hsplit0, Hback.
    assert (Hfront : tools.front_is "*" (f ++ "*") = false).
    { destruct f as [| c f']; [contradiction |].
      simpl in Hall. apply andb_true_iff in Hall. destruct Hall as [Hc _].
      apply plain_char_spec in Hc. apply Hc. }
    rewrite Hfront. cbn [negb at_ nth_error bind List.length].
    destruct (String.prefix f test) eqn:Ep; cbn [negb]; [| reflexivity].
    rewrite found_from_one. unfold tools.find at 1.
    rewrite (prefix_index f test Ep). reflexivity.
  - unfold tools.matches_pattern. rewrite Hsplit1.
    change ("*" ++ f ++ "*")%string with (String "*" (f ++ "*")).
    assert (Hback1 : tools.back_is "*" (String "*" (f ++ "*")) = true).
    { cbn [tools.back_is].
      destruct (f ++ "*")%string eqn:E; [destruct f; discriminate E |].
      exact Hback. }
    rewrite Hback1.
    assert (Hstar : tools.contains_char "*" (String "*" (f ++ "*")) = true).
    { unfold tools.contains_char, tools.find. simpl String.index.
      destruct (f ++ "*")%string; reflexivity. }
    rewrite Hstar.
    cbn [negb tools.front_is Ascii.eqb Bool.eqb bind List.length].
    rewrite found_from_one.
    destruct (tools.find test f 0 =? tools.npos); reflexivity.
Qed.

Lemma matches_pattern_one_fragment_witness :
  tools.matches_pattern "systemd*" "systemd-udevd" = Ok true /\
  tools.matches_pattern "*systemd*" "systemd-udevd" = Ok true.
Proof.
  apply (matches_pattern_one_fragment "systemd" "systemd-udevd"); reflexivity.
Defined.

(** X8.  The pattern matcher always returns a truth value: whatever the
    pattern and the tested string, [matches_pattern] neither throws nor
    indexes its fragment vector out of range, and so does the search of a
    pattern vector. *)
Theorem matches_pattern_returns (pattern test : string)
  (pattern_vect : list string) :
  (exists b, tools.matches_pattern pattern test = Ok b) /\
  (exists b, tools.pattern_vect_contains pattern_vect test = Ok b).
Proof.
  split; [apply matches_pattern_total | apply pattern_vect_contains_total].
Qed.


(** ** Lines and tags of the configuration file *)

Lemma blank_is_run (ch : ascii) (s : string) :
  all_chars (Ascii.eqb ch) s = true -> s = run ch (String.length s).
Proof.
  induction s as [| c s IH]; intros H; [reflexivity |].
  simpl in H. apply andb_true_iff in H. destruct H as [Hc H].
  apply Ascii.eqb_eq in Hc. subst c. simpl. rewrite <- IH by exact H.
  reflexivity.
Qed.

Lemma split_blank (ch : ascii) (s : string) :
  Ascii.eqb ch tools.backslash = false ->
  all_chars (Ascii.eqb ch) s = true -> tools.split s ch = [].
Proof.
  intros Hbs H. rewrite (blank_is_run ch s H). unfold tools.split.
  pose proof (split_loop_run_empty ch (String.length s) Hbs "" [] false) as E.
  rewrite string_app_nil_r in E. rewrite E. reflexivity.
Qed.

Lemma indices_of_tag_from_blank (tag : string) (lines : list string) :
  existsb (all_chars (Ascii.eqb " ")) lines = true ->
  forall i, Config.indices_of_tag_from lines tag i = Undefined.
Proof.
  induction lines as [| line lines IH]; intros H i; [discriminate H |].
  cbn [existsb] in H. cbn [Config.indices_of_tag_from]. cbv zeta.
  destruct (all_chars (Ascii.eqb " ") line) eqn:Eb.
  - rewrite (split_blank " " line eq_refl Eb). reflexivity.
  - simpl in H. rewrite (IH H).
    unfold at_. destruct (nth_error (tools.split line " ") 0); reflexivity.
Qed.

(** X9.  A configuration file with a line that holds no token (an empty
    line, or blanks only) is not skipped: every tag lookup takes element 0 of
    the empty vector that [split] returns for that line, so loading the
    values, and with it the construction of the configuration, has
    undefined behaviour. *)
Theorem blank_config_line_is_undefined (lines : list string) :
  existsb (all_chars (Ascii.eqb " ")) lines = true ->
  (forall tag, Config.indices_of_tag_ lines tag = Undefined) /\
  (forall own_pid,
      Config.load_config_values_ (Config.initial lines own_pid) = Undefined) /\
  (forall fs config_path own_pid,
      Config.load_config_lines_ fs config_path = Ok lines ->
      Config.get_own_pid_ fs = Ok own_pid ->
      Config.new fs config_path = Undefined).
Proof.
  intros H.
  assert (Hidx : forall tag, Config.indices_of_tag_ lines tag = Undefined).
  { intros tag. apply indices_of_tag_from_blank. exact H. }
  assert (Hload : forall own_pid,
             Config.load_config_values_ (Config.initial lines own_pid)
             = Undefined).
  { intros own_pid. unfold Config.load_config_values_.
    cbn [Config.config_lines_ Config.initial]. cbv zeta.
    unfold Config.load_from_tag_ at 1. unfold Config.values_of_tag_.
    rewrite Hidx. reflexivity. }
  split; [exact Hidx |]. split; [exact Hload |].
  intros fs config_path own_pid Hlines Hown. unfold Config.new.
  rewrite Hlines. cbn [bind]. rewrite Hown. cbn [bind]. rewrite Hload.
  reflexivity.
Qed.

Lemma blank_config_line_is_undefined_witness :
  Config.load_config_values_
    (Config.initial ["use_throttle true"; ""; "min_sleep 250"] 4242)
  = Undefined.
Proof.
  apply (blank_config_line_is_undefined
           ["use_throttle true"; ""; "min_sleep 250"] eq_refl).
Defined.

Lemma indices_of_tag_from_positions (tag : string) (lines : list string) :
  forallb has_token lines = true ->
  forall i, Config.indices_of_tag_from lines tag i
            = Ok (tag_positions tag lines i).
Proof.
  induction lines as [| line lines IH]; intros H i; [reflexivity |].
  cbn [forallb] in H. apply andb_true_iff in H. destruct H as [Ht H].
  cbn [Config.indices_of_tag_from tag_positions]. cbv zeta.
  unfold has_token in Ht. unfold configures.
  destruct (tools.split line " ") as [| spl0 spl]; [discriminate Ht |].
  cbn [at_ nth_error bind]. rewrite (IH H). cbn [bind].
  destruct (String.eqb spl0 tag); reflexivity.
Qed.

Lemma tag_positions_filter (tag : string) (lines : list string) :
  forall i,
    Forall2 (fun idx line => (i <= idx)%nat /\
                             nth_error lines (idx - i) = Some line)
            (tag_positions tag lines i) (filter (configures tag) lines).
Proof.
  induction lines as [| line lines IH]; intros i; [constructor |].
  cbn [tag_positions filter].
  assert (Hrest : Forall2
            (fun idx l => (i <= idx)%nat /\
                          nth_error (line :: lines) (idx - i) = Some l)
            (tag_positions tag lines (S i)) (filter (configures tag) lines)).
  { eapply Forall2_impl; [| apply (IH (S i))].
    intros idx l [Hle Hn]. split; [lia |].
    replace (idx - i)%nat with (S (idx - S i)) by lia. exact Hn. }
  destruct (configures tag line); [| exact Hrest].
  constructor; [| exact Hrest].
  split; [lia |]. rewrite Nat.sub_diag. reflexivity.
Qed.

Lemma subvect_tail {A : Type} (a : A) (l : list A) :
  tools.subvect (a :: l) 1 (Z.of_nat (List.length (a :: l)) - 1) = Ok l.
Proof.
  destruct l as [| b l'].
  - reflexivity.
  - rewrite subvect_in_range by (cbn [List.length]; lia).
    replace (Z.to_nat (Z.of_nat (List.length (a :: b :: l')) - 1))
      with (List.length (b :: l')) by (cbn [List.length]; lia).
    change (Z.to_nat 1) with 1%nat. cbn [skipn].
    rewrite firstn_all. reflexivity.
Qed.

Lemma values_of_tag_cases (lines : list string) (tag : string) :
  forallb has_token lines = true ->
  (filter (configures tag) lines = [] ->
   Config.values_of_tag_ lines tag = Ok None) /\
  ((2 <= List.length (filter (configures tag) lines))%nat ->
   Config.values_of_tag_ lines tag = Raise ConfigError) /\
  (forall line spl0 vals,
      filter (configures tag) lines = [line] ->
      tools.split line " " = spl0 :: vals ->
      Config.values_of_tag_ lines tag
      = Ok (match vals with [] => None | _ :: _ => Some vals end)).
Proof.
  intros Htok. unfold Config.values_of_tag_, Config.indices_of_tag_.
  rewrite (indices_of_tag_from_positions tag lines Htok). cbn [bind].
  pose proof (tag_positions_filter tag lines 0) as HF.
  split; [| split].
  - intros E. rewrite E in HF. inversion HF. reflexivity.
  - intros Hlen. pose proof (Forall2_length HF) as Hl.
    destruct (tag_positions tag lines 0) as [| a [| b rest]];
      simpl in Hl; try lia. reflexivity.
  - intros line spl0 vals E Hspl. rewrite E in HF.
    inversion HF as [| idx l idxs ls [_ Hnth] Hrest]; subst.
    inversion Hrest; subst. rewrite Nat.sub_0_r in Hnth.
    unfold at_ at 1. rewrite Hnth. cbn [bind]. rewrite Hspl.
    rewrite subvect_tail. cbn [bind].
    destruct vals; reflexivity.
Qed.

(** X10.  How a tag is looked up in a file whose lines all hold a token.
    A tag that no line configures gets the default; a tag configured on two
    or more lines throws [ConfigError]; a tag configured on one line takes
    the values right of it on that line: none gives the default, a value
    that does not convert throws [ConfigError] instead of [TypeError], and
    a scalar tag with more than one value throws [ConfigError]. *)
Theorem load_from_tag_lookup {T : Type} (conv : string -> outcome T)
  (lines : list string) (tag : string) (defval : T) (defvals : list T) :
  forallb has_token lines = true ->
  (filter (configures tag) lines = [] ->
   Config.load_from_tag_ conv lines tag defval = Ok defval /\
   Config.load_from_tag_vector_ conv lines tag defvals = Ok defvals) /\
  ((2 <= List.length (filter (configures tag) lines))%nat ->
   Config.load_from_tag_ conv lines tag defval = Raise ConfigError /\
   Config.load_from_tag_vector_ conv lines tag defvals = Raise ConfigError) /\
  (forall line spl0 vals,
      filter (configures tag) lines = [line] ->
      tools.split line " " = spl0 :: vals ->
      Config.load_from_tag_ conv lines tag defval
      = match vals with
        | [] => Ok defval
        | [val] => catch_named (conv val) TypeError (Raise ConfigError)
        | _ :: _ :: _ => Raise ConfigError
        end /\
      Config.load_from_tag_vector_ conv lines tag defvals
      = match vals with
        | [] => Ok defvals
        | _ :: _ =>
            catch_named (tools.convert_vector conv vals) TypeError
                        (Raise ConfigError)
        end).
Proof.
  intros Htok.
  destruct (values_of_tag_cases lines tag Htok) as (Hnone & Hmany & Hone).
  unfold Config.load_from_tag_, Config.load_from_tag_vector_.
  split; [| split].
  - intros E. rewrite (Hnone E). split; reflexivity.
  - intros E. rewrite (Hmany E). split; reflexivity.
  - intros line spl0 vals E Hspl. rewrite (Hone line spl0 vals E Hspl).
    cbn [bind]. destruct vals as [| v [| v' vals]]; split; reflexivity.
Qed.

Lemma load_from_tag_lookup_witness :
  Config.load_from_tag_ (tools.convert_int t_u_long)
    ["use_SIGSTOP true"; "temp_SIGSTOP  80000"; "whitelist_pid 1 2"]
    "temp_SIGSTOP" 70000
  = catch_named (tools.convert_int t_u_long "80000") TypeError
                (Raise ConfigError) /\
  Config.load_from_tag_vector_ (tools.convert_int t_u_long)
    ["use_SIGSTOP true"; "temp_SIGSTOP  80000"; "whitelist_pid 1 2"]
    "temp_SIGSTOP" []
  = catch_named (tools.convert_vector (tools.convert_int t_u_long) ["80000"])
                TypeError (Raise ConfigError).
Proof.
  refine (proj2 (proj2
    (load_from_tag_lookup (tools.convert_int t_u_long)
       ["use_SIGSTOP true"; "temp_SIGSTOP  80000"; "whitelist_pid 1 2"]
       "temp_SIGSTOP" 70000 [] eq_refl))
    "temp_SIGSTOP  80000" "temp_SIGSTOP" ["80000"] eq_refl eq_refl).
Defined.


(** ** What an accepted configuration guarantees *)

Lemma map_outcome_Ok_id {A : Type} (l : list A) :
  map_outcome (fun a => Ok a) l = Ok l.
Proof.
  induction l as [| a l IH]; [reflexivity |].
  cbn [map_outcome bind]. rewrite IH. reflexivity.
Qed.

Lemma ls_with_paths (fs : io.filesystem) (pattern : string) :
  io.ls fs pattern true = Ok (io.glob fs pattern).
Proof. unfold io.ls. apply (map_outcome_Ok_id (io.glob fs pattern)). Qed.

Lemma validate_loop (l : list string) :
  forall acc,
    (exists r,
        for_each (fun path files_ => io.validate_ path ;;; Ok (files_ ++ [path]))
                 l acc = Ok r /\
        r = acc ++ l /\ Forall (fun p => io.validate_ p = Ok tt) l) \/
    for_each (fun path files_ => io.validate_ path ;;; Ok (files_ ++ [path]))
             l acc = Raise ArgumentError.
Proof.
  induction l as [| path l IH]; intros acc.
  - left. exists acc. rewrite app_nil_r. repeat split. constructor.
  - cbn [for_each].
    assert (Hv : io.validate_ path = Ok tt \/
                 io.validate_ path = Raise ArgumentError).
    { unfold io.validate_.
      destruct (String.length path =? 0)%nat; [right; reflexivity |].
      destruct (negb (tools.front_is "/" path)); [right; reflexivity |].
      destruct (tools.back_is "/" path); [right; reflexivity |].
      left. reflexivity. }
    destruct Hv as [Hv | Hv]; rewrite Hv; cbn [bind]; [| right; reflexivity].
    destruct (IH (acc ++ [path])) as [(r & Hr & -> & Hall) | Hr].
    + left. exists ((acc ++ [path]) ++ l). split; [exact Hr |].
      split; [rewrite <- app_assoc; reflexivity |].
      constructor; assumption.
    + right. exact Hr.
Qed.

(** The constructor of a file collection returns the paths that [glob]
    found, when there is one at least and every one names a file by an
    absolute path; in every other case it throws [ArgumentError]. *)
Lemma FileCollection_cases (fs : io.filesystem) (pattern : string) :
  (io.FileCollection fs pattern = Ok (io.glob fs pattern) /\
   io.glob fs pattern <> [] /\
   Forall (fun p => io.validate_ p = Ok tt) (io.glob fs pattern)) \/
  io.FileCollection fs pattern = Raise ArgumentError.
Proof.
  unfold io.FileCollection. rewrite ls_with_paths. cbn [bind].
  destruct (io.glob fs pattern) as [| path paths] eqn:Eg; [right; reflexivity |].
  cbn [List.length Nat.ltb Nat.leb].
  destruct (validate_loop (path :: paths) []) as [(r & Hr & -> & Hall) | Hr].
  - left. rewrite Hr. repeat split; [discriminate | exact Hall].
  - right. exact Hr.
Qed.

Lemma FileCollection_Ok (fs : io.filesystem) (pattern : string)
  (files : list string) :
  io.FileCollection fs pattern = Ok files ->
  files = io.glob fs pattern /\ files <> [].
Proof.
  intros H. destruct (FileCollection_cases fs pattern) as [(E & Hne & _) | E];
    rewrite E in H; [| discriminate].
  injection H as <-. split; [reflexivity | exact Hne].
Qed.

Lemma set_throttle_members (fs : io.filesystem) (c : Config.t)
  (tm : Config.throttle_members) :
  Config.set_throttle_ fs c = Ok tm ->
  Config.use_throttle_ c = true ->
  exists files cur,
    Config.tm_scaling_max_freq_files tm = Some files /\
    io.FileCollection fs (Config.matcher_scaling_max_freq_ c) = Ok files /\
    io.FileCollection_read (tools.convert_int t_u_long) fs files = Ok cur /\
    cur <> [] /\
    (if Config.tm_use_scaling_available tm
     then List.length (Config.tm_scaling_available_frequencies tm)
          = List.length cur /\
          Config.use_scaling_available_ c = true /\
          exists ladder,
            io.FileCollection fs (Config.matcher_scaling_available_frequencies_ c)
            = Ok ladder /\
            Config.tm_scaling_available_frequencies_files tm = Some ladder
     else List.length (Config.tm_cpuinfo_max_freqs tm) = List.length cur /\
          List.length (Config.tm_cpuinfo_min_freqs tm) = List.length cur /\
          (Config.use_scaling_available_ c = true ->
           io.FileCollection fs (Config.matcher_scaling_available_frequencies_ c)
           = Raise ArgumentError)).
Proof.
  unfold Config.set_throttle_. intros H Hmode. rewrite Hmode in H.
  apply bind_Ok in H. destruct H as (u0 & _ & H).
  apply bind_Ok in H. destruct H as (files & Hfiles & H).
  apply bind_Ok in H. destruct H as (cur & Hcur & H).
  apply bind_Ok in H. destruct H as (u1 & Hsz & H).
  apply bind_Ok in H. destruct H as (test & Htest & H).
  exists files, cur.
  assert (Hne : cur <> []).
  { unfold Config.assert_scale_max_freq_files_sizey_ in Hsz.
    intros ->. discriminate Hsz. }
  destruct test as [ladder |].
  - apply bind_Ok in H. destruct H as (lines & _ & H).
    apply bind_Ok in H. destruct H as (matrix & _ & H).
    apply bind_Ok in H. destruct H as (u2 & _ & H).
    apply bind_Ok in H. destruct H as (u3 & Heq & H).
    injection H as <-. cbn. repeat split; try assumption.
    + unfold Config.assert_scaling_max_size_eq_scaling_available_ in Heq.
      destruct (List.length cur
                =? List.length (Config.scaling_available_frequencies_ c ++ matrix))%nat
        eqn:E; [| discriminate Heq].
      apply Nat.eqb_eq in E. symmetry. exact E.
    + destruct (Config.use_scaling_available_ c); [reflexivity | discriminate].
    + exists ladder. split; [| reflexivity].
      destruct (Config.use_scaling_available_ c); [| discriminate].
      destruct (io.FileCollection fs
                  (Config.matcher_scaling_available_frequencies_ c))
        as [f | k |]; cbn in Htest.
      * injection Htest as ->. reflexivity.
      * destruct (kind_eqb k ArgumentError); discriminate.
      * discriminate.
  - apply bind_Ok in H. destruct H as (maxf & _ & H).
    apply bind_Ok in H. destruct H as (minf & _ & H).
    apply bind_Ok in H. destruct H as (maxs & _ & H).
    apply bind_Ok in H. destruct H as (mins & _ & H).
    apply bind_Ok in H. destruct H as (u2 & Heq & H).
    injection H as <-. cbn.
    unfold Config.assert_scaling_max_size_eq_cpu_max_and_min_ in Heq.
    cbv zeta in Heq.
    destruct (List.length maxs =? 0)%nat; [discriminate |].
    destruct (List.length mins =? 0)%nat; [discriminate |].
    destruct (List.length cur =? List.length maxs)%nat eqn:E1;
      [| discriminate].
    destruct (List.length cur =? List.length mins)%nat eqn:E2;
      [| discriminate].
    apply Nat.eqb_eq in E1. apply Nat.eqb_eq in E2.
    repeat split; try assumption; try (symmetry; assumption).
    intros Hs. rewrite Hs in Htest.
    destruct (io.FileCollection fs
                (Config.matcher_scaling_available_frequencies_ c))
      as [f | k |]; cbn in Htest.
    + discriminate.
    + destruct (kind_eqb k ArgumentError) eqn:Ek; [| discriminate].
      apply kind_eqb_eq in Ek. subst k. reflexivity.
    + discriminate.
Qed.

Lemma set_and_assert_config_members (fs : io.filesystem) (c cfg : Config.t) :
  Config.set_and_assert_config_ fs c = Ok cfg ->
  exists thermal tm sm,
    Config.assert_any_mode_ c = Ok tt /\
    io.FileCollection fs (Config.matcher_thermal_ c) = Ok thermal /\
    Config.set_throttle_ fs c = Ok tm /\
    Config.set_SIGSTOP_ fs c = Ok sm /\
    Config.use_throttle_ cfg = Config.use_throttle_ c /\
    Config.use_SIGSTOP_ cfg = Config.use_SIGSTOP_ c /\
    Config.thermal_files_ cfg = Some thermal /\
    Config.proc_stat_file_ cfg = snd sm /\
    Config.use_scaling_available_ cfg = Config.tm_use_scaling_available tm /\
    Config.scaling_max_freq_files_ cfg = Config.tm_scaling_max_freq_files tm /\
    Config.scaling_available_frequencies_files_ cfg
    = Config.tm_scaling_available_frequencies_files tm /\
    Config.scaling_available_frequencies_ cfg
    = Config.tm_scaling_available_frequencies tm /\
    Config.cpuinfo_max_freqs_ cfg = Config.tm_cpuinfo_max_freqs tm /\
    Config.cpuinfo_min_freqs_ cfg = Config.tm_cpuinfo_min_freqs tm.
Proof.
  unfold Config.set_and_assert_config_. intros H.
  apply bind_Ok in H. destruct H as ([] & Hany & H).
  apply bind_Ok in H. destruct H as (thermal & Hth & H).
  apply bind_Ok in H. destruct H as (tm & Htm & H).
  apply bind_Ok in H. destruct H as (sm & Hsm & H).
  destruct sm as [[temp_SIGSTOP temp_SIGCONT] proc_stat_file].
  injection H as <-.
  exists thermal, tm, (temp_SIGSTOP, temp_SIGCONT, proc_stat_file).
  cbn. repeat split; assumption.
Qed.

(** X11.  What the constructor has checked when it accepts a
    configuration: a mode is enabled; the thermal collection holds the
    files [glob] found, at least one; in stop mode /proc/stat is the
    aggregate file; in throttle mode the [scaling_max_freq] files were read
    and gave at least one ceiling, and the vector the ceilings are compared
    with (the ladders, or the hardware maxima and minima) has one entry per
    ceiling read at load, so that without the ladder both comparisons of
    the monitor return on these ceilings. *)
Theorem accepted_config_invariants (fs : io.filesystem) (config_path : string)
  (cfg : Config.t) :
  Config.new fs config_path = Ok cfg ->
  Config.use_throttle_ cfg || Config.use_SIGSTOP_ cfg = true /\
  (exists thermal,
      Config.thermal_files_ cfg = Some thermal /\ thermal <> [] /\
      thermal = io.glob fs (Config.matcher_thermal_ cfg)) /\
  (Config.use_SIGSTOP_ cfg = true ->
   Config.proc_stat_file cfg = Ok Config.PROC_STAT_) /\
  (Config.use_throttle_ cfg = true ->
   exists files cur,
     Config.scaling_max_freq_files cfg = Ok files /\
     io.FileCollection_read (tools.convert_int t_u_long) fs files = Ok cur /\
     cur <> [] /\
     (if Config.use_scaling_available_ cfg
      then List.length (Config.scaling_available_frequencies_ cfg)
           = List.length cur
      else Monitor.is_below_max_speed_ cfg cur
           = Ok (Monitor.any_below cur (Config.cpuinfo_max_freqs_ cfg)) /\
           Monitor.is_above_min_speed_ cfg cur
           = Ok (Monitor.any_above cur (Config.cpuinfo_min_freqs_ cfg)))).
Proof.
  intros H.
  destruct (new_Ok fs config_path cfg H) as (lines & own_pid & c & _ & _ & _ & Hset).
  assert (Hmatcher : Config.matcher_thermal_ cfg = Config.matcher_thermal_ c).
  { unfold Config.set_and_assert_config_ in Hset. ok_inv Hset. subst cfg.
    reflexivity. }
  destruct (set_and_assert_config_members fs c cfg Hset)
    as (thermal & tm & sm & Hany & Hth & Htm & Hsm & Hut & Hus & Htf & Hps
        & Hsa & Hsmf & _ & Hsaf & Hmax & Hmin).
  split; [| split; [| split]].
  - rewrite Hut, Hus. unfold Config.assert_any_mode_ in Hany.
    destruct (Config.use_throttle_ c), (Config.use_SIGSTOP_ c);
      try reflexivity; discriminate Hany.
  - exists thermal. destruct (FileCollection_Ok _ _ _ Hth) as [E Hne].
    rewrite Hmatcher. auto.
  - intros Hmode. unfold Config.proc_stat_file, Config.assert_SIGSTOP_mode_.
    rewrite Hmode, Hps. cbn [negb bind].
    unfold Config.set_SIGSTOP_ in Hsm. rewrite <- Hus, Hmode in Hsm.
    ok_inv Hsm. subst sm. reflexivity.
  - intros Hmode.
    assert (Hmode' : Config.use_throttle_ c = true) by congruence.
    destruct (set_throttle_members fs c tm Htm Hmode')
      as (files & cur & Hf & _ & Hcur & Hne & Hcase).
    exists files, cur.
    split.
    { unfold Config.scaling_max_freq_files, Config.assert_throttle_mode_.
      rewrite Hmode, Hsmf, Hf. reflexivity. }
    split; [exact Hcur |]. split; [exact Hne |].
    rewrite Hsa. destruct (Config.tm_use_scaling_available tm) eqn:Eflag.
    + rewrite Hsaf. apply Hcase.
    + destruct Hcase as (Hlmax & Hlmin & _).
      unfold Monitor.is_below_max_speed_, Monitor.is_above_min_speed_,
        Monitor.max_speeds_, Monitor.min_speeds_,
        Config.use_scaling_available, Config.cpuinfo_max_freqs,
        Config.cpuinfo_min_freqs, Config.assert_throttle_mode_.
      rewrite Hmode, Hsa. cbn [negb bind].
      rewrite Hmax, Hmin, Hlmax, Hlmin, Nat.eqb_refl. split; reflexivity.
Qed.

Lemma accepted_config_invariants_witness :
  Config.use_throttle_ fixture.throttle_cfg
  || Config.use_SIGSTOP_ fixture.throttle_cfg = true /\
  (exists thermal,
      Config.thermal_files_ fixture.throttle_cfg = Some thermal /\
      thermal <> [] /\
      thermal = io.glob (fixture.at_max [])
                        (Config.matcher_thermal_ fixture.throttle_cfg)) /\
  (Config.use_SIGSTOP_ fixture.throttle_cfg = true ->
   Config.proc_stat_file fixture.throttle_cfg = Ok Config.PROC_STAT_) /\
  (Config.use_throttle_ fixture.throttle_cfg = true ->
   exists files cur,
     Config.scaling_max_freq_files fixture.throttle_cfg = Ok files /\
     io.FileCollection_read (tools.convert_int t_u_long) (fixture.at_max [])
                            files = Ok cur /\
     cur <> [] /\
     (if Config.use_scaling_available_ fixture.throttle_cfg
      then List.length (Config.scaling_available_frequencies_ fixture.throttle_cfg)
           = List.length cur
      else Monitor.is_below_max_speed_ fixture.throttle_cfg cur
           = Ok (Monitor.any_below cur
                   (Config.cpuinfo_max_freqs_ fixture.throttle_cfg)) /\
           Monitor.is_above_min_speed_ fixture.throttle_cfg cur
           = Ok (Monitor.any_above cur
                   (Config.cpuinfo_min_freqs_ fixture.throttle_cfg)))).
Proof.
  apply (accepted_config_invariants (fixture.at_max []) fixture.config_path).
  vm_compute. reflexivity.
Defined.

(** X12.  Asking for the ladder does not ensure it is used.  With
    throttling enabled and [use_scaling_available true] loaded, the
    accepted configuration has the switch on when the collection of ladder
    files could be made; when [glob] finds no ladder file, the
    [ArgumentError] of the collection is swallowed, the switch is turned
    off, and the hardware minima and maxima are loaded and checked
    instead. *)
Theorem ladder_needs_its_files (fs : io.filesystem) (c cfg : Config.t) :
  Config.set_and_assert_config_ fs c = Ok cfg ->
  Config.use_throttle_ c = true ->
  Config.use_scaling_available_ c = true ->
  (forall ladder,
      io.FileCollection fs (Config.matcher_scaling_available_frequencies_ c)
      = Ok ladder ->
      Config.use_scaling_available_ cfg = true /\
      Config.scaling_available_frequencies_files_ cfg = Some ladder) /\
  (io.glob fs (Config.matcher_scaling_available_frequencies_ c) = [] ->
   Config.use_scaling_available_ cfg = false /\
   Config.cpuinfo_max_freqs_ cfg <> [] /\
   List.length (Config.cpuinfo_max_freqs_ cfg)
   = List.length (Config.cpuinfo_min_freqs_ cfg)).
Proof.
  intros Hset Hmode Hladder.
  destruct (set_and_assert_config_members fs c cfg Hset)
    as (thermal & tm & sm & _ & _ & Htm & _ & _ & _ & _ & _
        & Hsa & _ & Hsaff & _ & Hmax & Hmin).
  destruct (set_throttle_members fs c tm Htm Hmode)
    as (files & cur & _ & _ & _ & Hne & Hcase).
  rewrite Hsa, Hsaff, Hmax, Hmin.
  destruct (Config.tm_use_scaling_available tm).
  - destruct Hcase as (_ & _ & ladder' & Hfc & Hfiles). split.
    + intros ladder E. rewrite E in Hfc. injection Hfc as ->. auto.
    + intros Hglob.
      destruct (FileCollection_Ok _ _ _ Hfc) as [E Hnil].
      rewrite Hglob in E. contradiction.
  - destruct Hcase as (Hlmax & Hlmin & Hraise). split.
    + intros ladder E. rewrite (Hraise Hladder) in E. discriminate E.
    + intros _. split; [reflexivity |]. split; [| congruence].
      intros E. rewrite E in Hlmax. destruct cur; [contradiction | discriminate].
Qed.

Lemma ladder_needs_its_files_witness :
  Config.use_scaling_available_
    (fixture.value (Config.initial [] 0)
       (Config.new (fixture.no_ladder ["use_scaling_available true"])
                   fixture.config_path)) = false.
Proof.
  refine (proj1 (proj2
    (ladder_needs_its_files
       (fixture.no_ladder ["use_scaling_available true"])
       (fixture.loaded ["use_scaling_available true"])
       (fixture.value (Config.initial [] 0)
          (Config.new (fixture.no_ladder ["use_scaling_available true"])
                      fixture.config_path))
       _ _ _) _)); vm_compute; reflexivity.
Defined.


(** ** The life of a process record *)

(** [update] is [sample] on a record that keeps the sampling state of the
    old one. *)
Lemma update_sample (cfg : Config.t) (fs : io.filesystem) (cpu_time : Z)
  (p p' : Pid.t) :
  Pid.update cfg fs cpu_time p = Ok p' ->
  exists q,
    p' = Pid.sample cpu_time q /\
    Pid.check_whitelist_ cfg (Pid.set_is_whitelisted (Pid.is_whitelisted_ p) q)
    = Ok q /\
    Pid.has_received_first_update_ q = Pid.has_received_first_update_ p /\
    Pid.is_ready_ q = Pid.is_ready_ p /\
    Pid.pid_time_prev_ q = Pid.pid_time_prev_ p /\
    Pid.cpu_time_prev_ q = Pid.cpu_time_prev_ p /\
    Pid.pid_ q = Pid.pid_ p.
Proof.
  unfold Pid.update. intros H.
  apply bind_Ok in H. destruct H as (p1 & H1 & H).
  apply bind_Ok in H. destruct H as (q & Hq & H).
  injection H as <-. exists q. split; [reflexivity |].
  assert (Hp1 : Pid.has_received_first_update_ p1
                = Pid.has_received_first_update_ p /\
                Pid.is_ready_ p1 = Pid.is_ready_ p /\
                Pid.pid_time_prev_ p1 = Pid.pid_time_prev_ p /\
                Pid.cpu_time_prev_ p1 = Pid.cpu_time_prev_ p /\
                Pid.pid_ p1 = Pid.pid_ p /\
                Pid.is_whitelisted_ p1 = Pid.is_whitelisted_ p).
  { unfold Pid.read_stat_ in H1.
    destruct (Pid.parse_stat_ fs p) as [sf | k |]; simpl in H1.
    - injection H1 as <-. repeat split.
    - destruct (kind_eqb k IOError); [| discriminate].
      injection H1 as <-. repeat split.
    - discriminate. }
  destruct Hp1 as (E1 & E2 & E3 & E4 & E5 & E6).
  unfold Pid.check_whitelist_ in Hq.
  apply bind_Ok in Hq. destruct Hq as (wl & Hwl & Hq). injection Hq as <-.
  split.
  - unfold Pid.check_whitelist_.
    assert (Hsame : Pid.whitelist_test cfg
                      (Pid.set_is_whitelisted (Pid.is_whitelisted_ p)
                         (Pid.set_is_whitelisted wl p1))
                    = Pid.whitelist_test cfg p1) by reflexivity.
    rewrite Hsame, Hwl. destruct p1. reflexivity.
  - cbn. auto.
Qed.

Lemma new_fresh (cfg : Config.t) (fs : io.filesystem) (pid : Z) (raw p : Pid.t) :
  Pid.new cfg fs pid raw = Ok p ->
  Pid.pid_ p = pid /\
  Pid.is_ready_ p = false /\
  Pid.has_received_first_update_ p = false /\
  Pid.is_self_stopped_ p = false /\
  exists p1, Pid.pid_ p1 = pid /\ Pid.check_whitelist_ cfg p1 = Ok p.
Proof.
  unfold Pid.new. cbv zeta. intros H.
  apply bind_Ok in H. destruct H as (u & _ & H).
  apply bind_Ok in H. destruct H as (p1 & H1 & H).
  assert (Hp1 : Pid.pid_ p1 = pid /\ Pid.is_ready_ p1 = false /\
                Pid.has_received_first_update_ p1 = false /\
                Pid.is_self_stopped_ p1 = false).
  { unfold Pid.read_stat_ in H1.
    match type of H1 with
    | catch_named (bind ?x _) _ _ = _ => destruct x as [sf | k |]
    end; simpl in H1.
    - injection H1 as <-. repeat split.
    - destruct (kind_eqb k IOError); [| discriminate].
      injection H1 as <-. repeat split.
    - discriminate. }
  destruct Hp1 as (E1 & E2 & E3 & E4).
  pose proof H as Hc. unfold Pid.check_whitelist_ in H.
  apply bind_Ok in H. destruct H as (wl & _ & H). injection H as <-.
  cbn. repeat split; try assumption. exists p1. auto.
Qed.

(** X13.  A record becomes ready at its second sample in a row that finds
    it not whitelisted, and not before: a new record is not ready, it is
    not ready after one update, and after two updates it is ready exactly
    when neither found it whitelisted; its share is then the quotient of
    the process time and the aggregate time elapsed between the two. *)
Theorem ready_at_second_sample (cfg : Config.t) (fs : io.filesystem) (pid : Z)
  (raw p0 : Pid.t) :
  Pid.new cfg fs pid raw = Ok p0 ->
  Pid.is_ready p0 = false /\
  forall fs1 t1 p1,
    Pid.update cfg fs1 t1 p0 = Ok p1 ->
    Pid.is_ready p1 = false /\
    forall fs2 t2 p2,
      Pid.update cfg fs2 t2 p1 = Ok p2 ->
      Pid.is_ready p2
      = negb (Pid.is_whitelisted p1) && negb (Pid.is_whitelisted p2) /\
      (Pid.is_ready p2 = true ->
       Pid.pid_cpu_pct p2
       = Ok (Pid.cpu_share (Pid.pid_time p2) (Pid.pid_time p1) t2 t1)).
Proof.
  intros Hnew.
  destruct (new_fresh cfg fs pid raw p0 Hnew) as (_ & Hr0 & Hf0 & _).
  split; [exact Hr0 |].
  intros fs1 t1 p1 H1.
  destruct (update_sample cfg fs1 t1 p0 p1 H1)
    as (q1 & -> & _ & Hf1 & Hr1 & _ & _ & _).
  rewrite Hf0 in Hf1. rewrite Hr0 in Hr1.
  assert (Hready1 : Pid.is_ready (Pid.sample t1 q1) = false).
  { unfold Pid.is_ready, Pid.sample. rewrite Hf1.
    destruct (Pid.is_whitelisted_ q1); cbn; exact Hr1. }
  split; [exact Hready1 |].
  intros fs2 t2 p2 H2.
  destruct (update_sample cfg fs2 t2 _ p2 H2)
    as (q2 & -> & _ & Hf2 & Hr2 & Hpt & Hct & _).
  clear H1 H2 Hready1.
  assert (Hs1 : Pid.sample t1 q1
                = if Pid.is_whitelisted_ q1
                  then Pid.set_sample false (Pid.is_ready_ q1) 0 0
                                      float32.zero q1
                  else Pid.set_sample true (Pid.is_ready_ q1) (Pid.pid_time q1)
                                      t1 (Pid.pid_cpu_pct_ q1) q1).
  { unfold Pid.sample. rewrite Hf1. destruct (Pid.is_whitelisted_ q1); reflexivity. }
  rewrite Hs1 in *. clear Hs1.
  unfold Pid.is_ready, Pid.is_whitelisted, Pid.pid_cpu_pct,
    Pid.assert_is_ready_, Pid.sample.
  destruct (Pid.is_whitelisted_ q1) eqn:E1;
    cbn in Hf2, Hr2, Hpt, Hct; rewrite Hf2;
    destruct (Pid.is_whitelisted_ q2) eqn:E2; cbn; rewrite ?E1, ?E2, ?Hr2, ?Hr1;
    (split; [reflexivity |]); intros Hready; try discriminate Hready.
  cbn. rewrite Hpt, Hct. reflexivity.
Qed.

Lemma ready_at_second_sample_witness :
  Pid.is_ready fixture.sampled_100 = false /\
  Pid.is_ready fixture.ready_100 = true /\
  Pid.pid_cpu_pct fixture.ready_100
  = Ok (Pid.cpu_share (Pid.pid_time fixture.ready_100)
                      (Pid.pid_time fixture.sampled_100) 2100 2000).
Proof.
  destruct (ready_at_second_sample fixture.signal_cfg (fixture.twice "0") 100
              fixture.raw_zero
              (fixture.value fixture.raw_zero
                 (Pid.new fixture.signal_cfg (fixture.twice "0") 100
                          fixture.raw_zero)))
    as [_ H]; [vm_compute; reflexivity |].
  destruct (H (fixture.twice "0") 2000 fixture.sampled_100) as [H1 H2];
    [vm_compute; reflexivity |].
  destruct (H2 (fixture.twice "10") 2100 fixture.ready_100) as [H3 H4];
    [vm_compute; reflexivity |].
  split; [exact H1 |].
  assert (Hr : Pid.is_ready fixture.ready_100 = true)
    by (vm_compute; reflexivity).
  split; [exact Hr | exact (H4 Hr)].
Defined.


(** ** Stop signals *)

Lemma contains_In (l : list Z) (v : Z) :
  In v l -> tools.contains Z.eqb l v = true.
Proof.
  induction l as [| a l IH]; simpl; intros H; [contradiction |].
  destruct H as [-> | H]; [rewrite Z.eqb_refl; reflexivity |].
  destruct (a =? v); [reflexivity | apply IH; exact H].
Qed.

Lemma own_pid_whitelisted (cfg : Config.t) (p p' : Pid.t) :
  In (Config.own_pid_ cfg) (Config.whitelist_pid_ cfg) ->
  Pid.pid_ p = Config.own_pid_ cfg ->
  Pid.check_whitelist_ cfg p = Ok p' -> Pid.is_whitelisted_ p' = true.
Proof.
  intros Hin Hpid H. unfold Pid.check_whitelist_ in H.
  apply bind_Ok in H. destruct H as (wl & Hwl & H). injection H as <-. cbn.
  unfold Pid.whitelist_test in Hwl. cbv zeta in Hwl.
  unfold Pid.orelse at 1 in Hwl.
  apply bind_Ok in Hwl. destruct Hwl as (x & _ & Hwl).
  destruct x; [injection Hwl as <-; reflexivity |].
  unfold Pid.orelse at 1 in Hwl.
  apply bind_Ok in Hwl. destruct Hwl as (y & Hy & Hwl).
  apply bind_Ok in Hy. destruct Hy as (l & Hl & Hy).
  unfold Config.whitelist_pid in Hl.
  apply bind_Ok in Hl. destruct Hl as (u & _ & Hl).
  injection Hl as <-. injection Hy as <-.
  rewrite Hpid, (contains_In _ _ Hin) in Hwl. injection Hwl as <-. reflexivity.
Qed.

Lemma new_own_pid_listed (fs : io.filesystem) (config_path : string)
  (cfg : Config.t) :
  Config.new fs config_path = Ok cfg ->
  In (Config.own_pid_ cfg) (Config.whitelist_pid_ cfg).
Proof.
  intros H.
  destruct (new_Ok fs config_path cfg H)
    as (lines & own_pid & c & _ & _ & Hc & Hset).
  destruct (set_and_assert_config_fields fs c cfg Hset)
    as (_ & _ & _ & _ & Hpid & _ & Hwl & _).
  destruct (load_config_values_whitelist_pid _ _ Hc)
    as (Hpid' & _ & listed & _ & Hwl').
  rewrite Hwl, Hwl', Hpid, Hpid'. apply in_or_app. right. left. reflexivity.
Qed.

Lemma lookup_app (h : Monitor.store) (p : Pid.t) (v : Monitor.ptr) :
  Monitor.lookup (h ++ [p]) v =
  if (v <? List.length h)%nat then Monitor.lookup h v
  else if (v =? List.length h)%nat then Some p else None.
Proof.
  unfold Monitor.lookup. destruct (v <? List.length h)%nat eqn:E.
  - apply Nat.ltb_lt in E. apply nth_error_app1. exact E.
  - apply Nat.ltb_ge in E. rewrite nth_error_app2 by exact E.
    destruct (v =? List.length h)%nat eqn:E'.
    + apply Nat.eqb_eq in E'. subst v. rewrite Nat.sub_diag. reflexivity.
    + apply Nat.eqb_neq in E'.
      destruct (v - List.length h)%nat as [| k] eqn:Ek; [lia |].
      destruct k; reflexivity.
Qed.

Lemma lookup_valid (h : Monitor.store) (v : Monitor.ptr) (p : Pid.t) :
  Monitor.lookup h v = Some p -> (v < List.length h)%nat.
Proof.
  unfold Monitor.lookup. intros H. apply nth_error_Some. rewrite H. discriminate.
Qed.

Lemma assign_length (h : Monitor.store) (v : Monitor.ptr) (p : Pid.t) :
  List.length (Monitor.assign h v p) = List.length h.
Proof.
  revert v. induction h as [| q h IH]; intros v; [reflexivity |].
  destruct v; simpl; [reflexivity | rewrite IH; reflexivity].
Qed.

(** After a refresh every record of the census has just been returned by
    [update] or by the constructor. *)
Lemma update_loop_refreshed (cfg : Config.t) (fs : io.filesystem)
  (Q : Pid.t -> Prop) :
  (forall t p p', Pid.update cfg fs t p = Ok p' -> Q p') ->
  forall l h h',
    for_each
      (fun v h =>
         cpu_time <- Monitor.sum_cur_cpu_time_ cfg fs ;;
         p <- Config.deref (Monitor.lookup h v) ;;
         p' <- Pid.update cfg fs cpu_time p ;;
         Ok (Monitor.assign h v p'))
      l h = Ok h' ->
    forall v p, In v l -> Monitor.lookup h' v = Some p -> Q p.
Proof.
  intros HQ. induction l as [| a l IH]; intros h h' H v p Hin Hp;
    [contradiction |].
  cbn [for_each] in H. apply bind_Ok in H. destruct H as (ha & Ha & H).
  assert (Hkeep : forall q, Monitor.lookup ha a = Some q -> Q q).
  { apply bind_Ok in Ha. destruct Ha as (t & _ & Ha).
    apply bind_Ok in Ha. destruct Ha as (p0 & Hp0 & Ha).
    apply bind_Ok in Ha. destruct Ha as (p1 & Hp1 & Ha).
    injection Ha as <-. apply deref_Ok in Hp0.
    intros q Hq. rewrite lookup_assign, Nat.eqb_refl, Hp0 in Hq.
    injection Hq as <-. exact (HQ _ _ _ Hp1). }
  destruct (in_dec Nat.eq_dec v l) as [Hl | Hl].
  - exact (IH ha h' H v p Hl Hp).
  - destruct Hin as [-> | Hin]; [| contradiction].
    revert p Hp.
    refine (for_each_inv
              (fun hx => forall q, Monitor.lookup hx v = Some q -> Q q)
              _ l _ ha h' Hkeep H).
    intros b hx hx' _ Hx Hb.
    apply bind_Ok in Hb. destruct Hb as (t & _ & Hb).
    apply bind_Ok in Hb. destruct Hb as (p0 & Hp0 & Hb).
    apply bind_Ok in Hb. destruct Hb as (p1 & Hp1 & Hb).
    injection Hb as <-. apply deref_Ok in Hp0.
    intros q Hq. rewrite lookup_assign in Hq.
    destruct (v =? b)%nat.
    + rewrite Hp0 in Hq. injection Hq as <-. exact (HQ _ _ _ Hp1).
    + exact (Hx q Hq).
Qed.

Lemma update_pids_refreshed (w : Monitor.world) (m m1 : Monitor.t)
  (Q : Pid.t -> Prop) :
  (forall t p p',
      Pid.update (Monitor.cfg_ m) (Monitor.fs w) t p = Ok p' -> Q p') ->
  (forall pid p,
      Pid.new (Monitor.cfg_ m) (Monitor.fs w) pid (Monitor.raw w pid) = Ok p ->
      Q p) ->
  Monitor.update_pids_ w m = Ok m1 ->
  forall v p,
    In v (Monitor.pids_ m1) -> Monitor.lookup (Monitor.objects m1) v = Some p ->
    Q p.
Proof.
  intros Hup Hnew H. unfold Monitor.update_pids_ in H. cbv zeta in H.
  apply bind_Ok in H. destruct H as (h1 & Hloop & H).
  apply bind_Ok in H. destruct H as (files & _ & H).
  apply bind_Ok in H. destruct H as (pid_nums & _ & H).
  apply bind_Ok in H. destruct H as ([h2 pids2] & Hadd & H).
  injection H as <-. cbn.
  change h2 with (fst (h2, pids2)). change pids2 with (snd (h2, pids2)) at 1.
  refine (for_each_inv
            (fun hp => forall v p,
                 In v (snd hp) -> Monitor.lookup (fst hp) v = Some p -> Q p)
            _ _ _ _ _ _ Hadd).
  - intros test_pid [h pids] [h' pids'] _ Hinv Hbody. cbn in Hinv |- *.
    destruct (negb (existsb (Monitor.holds h (fun p => Pid.pid p =? test_pid))
                            pids)).
    + apply bind_Ok in Hbody. destruct Hbody as (p0 & Hp0 & Hbody).
      injection Hbody as <- <-. intros v p Hin Hp.
      rewrite lookup_app in Hp.
      destruct (v <? List.length h)%nat eqn:E.
      * apply in_app_or in Hin. destruct Hin as [Hin | [<- | []]].
        -- exact (Hinv v p Hin Hp).
        -- rewrite Nat.ltb_irrefl in E. discriminate.
      * destruct (v =? List.length h)%nat; [| discriminate].
        injection Hp as <-. exact (Hnew _ _ Hp0).
    + injection Hbody as <- <-. exact Hinv.
  - cbn. intros v p Hin Hp. apply filter_In in Hin. destruct Hin as [Hin _].
    exact (update_loop_refreshed _ _ Q Hup _ _ _ Hloop v p Hin Hp).
Qed.

Lemma pids_of_assign (h : Monitor.store) (v : Monitor.ptr) (p q : Pid.t)
  (l : list Monitor.ptr) :
  Monitor.lookup h v = Some p -> Pid.pid q = Pid.pid p ->
  pids_of (Monitor.assign h v q) l = pids_of h l.
Proof.
  intros Hp Hq. induction l as [| a l IH]; [reflexivity |].
  cbn [pids_of flat_map]. fold (pids_of (Monitor.assign h v q) l).
  fold (pids_of h l). rewrite IH, lookup_assign.
  destruct (a =? v)%nat eqn:E; [| reflexivity].
  apply Nat.eqb_eq in E. subst a. rewrite Hp, Hq. reflexivity.
Qed.

Lemma kills_emit (m : Monitor.t) (pid sig : Z) :
  kills (Monitor.effects (Monitor.emit (Monitor.Kill pid sig) m))
  = kills (Monitor.effects m) ++ [(pid, sig)].
Proof. unfold kills. cbn. rewrite flat_map_app. reflexivity. Qed.

(** What the loop that stops all candidates does. *)
Lemma send_all_SIGSTOPs_effects (available : list Monitor.ptr) :
  forall m m',
    Monitor.send_all_SIGSTOPs_ available m = Ok m' ->
    Monitor.cfg_ m' = Monitor.cfg_ m /\
    Monitor.pids_ m' = Monitor.pids_ m /\
    Monitor.self_stopped_pids_ m' = Monitor.self_stopped_pids_ m ++ available /\
    kills (Monitor.effects m')
    = kills (Monitor.effects m)
      ++ List.map (fun pid => (pid, 19)) (pids_of (Monitor.objects m) available) /\
    List.length (pids_of (Monitor.objects m) available) = List.length available /\
    (forall u, In u available ->
               Monitor.holds (Monitor.objects m') Pid.is_self_stopped u = true) /\
    (forall u, Monitor.holds (Monitor.objects m) Pid.is_self_stopped u = true ->
               Monitor.holds (Monitor.objects m') Pid.is_self_stopped u = true) /\
    (forall f : Pid.t -> bool,
        (forall b p, f (Pid.set_is_self_stopped b p) = f p) ->
        forall u, Monitor.holds (Monitor.objects m') f u
                  = Monitor.holds (Monitor.objects m) f u).
Proof.
  induction available as [| v av IH]; intros m m' H.
  - injection H as <-. rewrite app_nil_r. cbn. rewrite app_nil_r.
    repeat split; auto.
  - unfold Monitor.send_all_SIGSTOPs_ in H. cbn [for_each] in H.
    apply bind_Ok in H. destruct H as (m2 & Hbody & H).
    apply bind_Ok in Hbody. destruct Hbody as (p & Hp & Hbody).
    apply deref_Ok in Hp. injection Hbody as <-.
    destruct (IH _ _ H) as (Hcfg & Hpids & Hss & Hk & Hlen & Hnew & Hold & Hf).
    clear IH H.
    cbn [Monitor.cfg_ Monitor.pids_ Monitor.self_stopped_pids_ Monitor.objects
         Monitor.effects Monitor.with_pids Monitor.with_objects Monitor.emit]
      in Hcfg, Hpids, Hss, Hk, Hlen, Hnew, Hold, Hf.
    rewrite (pids_of_assign _ _ p (Pid.send_SIGSTOP p) av Hp eq_refl) in Hk, Hlen.
    assert (Hv : Monitor.holds
                   (Monitor.assign (Monitor.objects m) v (Pid.send_SIGSTOP p))
                   Pid.is_self_stopped v = true).
    { unfold Monitor.holds. rewrite lookup_assign, Nat.eqb_refl, Hp.
      reflexivity. }
    split; [exact Hcfg |]. split; [exact Hpids |].
    split; [rewrite Hss, <- app_assoc; reflexivity |].
    split.
    { rewrite Hk. unfold kills at 1. cbn [Monitor.effects].
      rewrite flat_map_app. cbn [flat_map]. fold (kills (Monitor.effects m)).
      cbn [pids_of flat_map]. rewrite Hp. cbn [app List.map].
      rewrite <- app_assoc. reflexivity. }
    split.
    { cbn [pids_of flat_map]. rewrite Hp. cbn [app List.length].
      fold (pids_of (Monitor.objects m) av). rewrite Hlen. reflexivity. }
    split.
    { intros u [<- | Hu]; [apply Hold; exact Hv | apply Hnew; exact Hu]. }
    split.
    { intros u Hu. apply Hold. unfold Monitor.holds. rewrite lookup_assign.
      destruct (u =? v)%nat eqn:E; [rewrite Hp; reflexivity | exact Hu]. }
    intros f Hfp u. rewrite (Hf f Hfp u).
    apply holds_assign_self_stopped; [exact Hp | apply Hfp].
Qed.

Lemma filter_none {A : Type} (f : A -> bool) (l : list A) :
  (forall x, In x l -> f x = false) -> filter f l = [].
Proof.
  induction l as [| a l IH]; intros H; [reflexivity |].
  cbn [filter]. rewrite (H a (or_introl eq_refl)).
  apply IH. intros x Hx. apply H. right. exact Hx.
Qed.

(** X14.  With stepwise stop off, [exec_SIGSTOP_] stops every candidate
    of the refreshed census, once each and in census order: one SIGSTOP per
    candidate is sent, the candidates are appended to [self_stopped_pids_]
    in that order, and no candidate is left when the operation returns. *)
Theorem stop_all_signals_every_candidate (w : Monitor.world)
  (m m' : Monitor.t) :
  Config.use_stepwise_SIGSTOP (Monitor.cfg_ m) = Ok false ->
  Monitor.exec_SIGSTOP_ w m = Ok m' ->
  exists m1,
    Monitor.update_pids_ w m = Ok m1 /\
    Monitor.self_stopped_pids_ m'
    = Monitor.self_stopped_pids_ m1 ++ Monitor.find_SIGSTOP_available_pids_ m1 /\
    kills (Monitor.effects m')
    = kills (Monitor.effects m)
      ++ List.map (fun pid => (pid, 19))
           (pids_of (Monitor.objects m1)
                    (Monitor.find_SIGSTOP_available_pids_ m1)) /\
    List.length (pids_of (Monitor.objects m1)
                         (Monitor.find_SIGSTOP_available_pids_ m1))
    = List.length (Monitor.find_SIGSTOP_available_pids_ m1) /\
    Monitor.find_SIGSTOP_available_pids_ m' = [].
Proof.
  intros Hstep H. unfold Monitor.exec_SIGSTOP_ in H.
  apply bind_Ok in H. destruct H as (m1 & Hup & H). cbv zeta in H.
  exists m1. split; [exact Hup |].
  destruct (update_pids_vectors w m m1 Hup) as (Hcfg & Heff & _).
  set (available := Monitor.find_SIGSTOP_available_pids_ m1) in *.
  destruct (0 <? List.length available)%nat eqn:Elen.
  - rewrite Hcfg, Hstep in H. cbn [bind] in H.
    destruct (send_all_SIGSTOPs_effects available m1 m' H)
      as (_ & Hpids & Hss & Hk & Hlen & Hnew & Hold & Hf).
    rewrite Heff in Hk. repeat split; try assumption.
    unfold Monitor.find_SIGSTOP_available_pids_ at 1. rewrite Hpids.
    apply filter_none. intros u Hu.
    set (f := fun p => Pid.is_a_process p && Pid.is_ready p
                       && negb (Pid.is_whitelisted p)).
    assert (Hfu := Hf f (fun b p => eq_refl) u).
    destruct (in_dec Nat.eq_dec u available) as [Hin | Hout].
    + specialize (Hnew u Hin). unfold Monitor.holds in Hnew |- *.
      destruct (Monitor.lookup (Monitor.objects m') u) as [p' |];
        [| reflexivity].
      rewrite Hnew. apply andb_false_r.
    + assert (Htest : Monitor.holds (Monitor.objects m1)
                        (fun p => f p && negb (Pid.is_self_stopped p)) u
                      = false).
      { destruct (Monitor.holds (Monitor.objects m1)
                    (fun p => f p && negb (Pid.is_self_stopped p)) u) eqn:E;
          [| reflexivity].
        exfalso. apply Hout. unfold available.
        unfold Monitor.find_SIGSTOP_available_pids_.
        apply filter_In. split; [exact Hu | exact E]. }
      specialize (Hold u). unfold Monitor.holds in Hfu, Hold, Htest |- *.
      destruct (Monitor.lookup (Monitor.objects m') u) as [p' |];
        [| reflexivity].
      destruct (Monitor.lookup (Monitor.objects m1) u) as [p |].
      * change (f p' && negb (Pid.is_self_stopped p') = false).
        rewrite Hfu. destruct (f p); [| reflexivity].
        cbn in Htest. apply negb_false_iff in Htest.
        rewrite (Hold Htest). reflexivity.
      * change (f p' && negb (Pid.is_self_stopped p') = false).
        rewrite Hfu. reflexivity.
  - injection H as <-.
    assert (Hnil : available = []).
    { destruct available; [reflexivity | discriminate Elen]. }
    rewrite Hnil. cbn. rewrite !app_nil_r, Heff. repeat split.
    exact Hnil.
Qed.

Lemma stop_all_signals_every_candidate_witness :
  exists m m',
    fixture.sampled_once fixture.flipped_conf = Ok m /\
    fixture.all_stopped = Ok m' /\
    kills (Monitor.effects m')
    = kills (Monitor.effects m) ++ [(100, 19); (200, 19); (300, 19)] /\
    Monitor.find_SIGSTOP_available_pids_ m' = [].
Proof.
  exists (fixture.value fixture.s0 (fixture.sampled_once fixture.flipped_conf)),
         (fixture.value fixture.s0 fixture.all_stopped).
  split; [vm_compute; reflexivity |].
  split; [vm_compute; reflexivity |].
  destruct (stop_all_signals_every_candidate
              (fixture.third_tick fixture.flipped_conf)
              (fixture.value fixture.s0
                 (fixture.sampled_once fixture.flipped_conf))
              (fixture.value fixture.s0 fixture.all_stopped))
    as (m1 & Hup & _ & Hk & _ & Hnone);
    [vm_compute; reflexivity | vm_compute; reflexivity |].
  split; [| exact Hnone].
  rewrite Hk. f_equal.
  assert (E : Ok m1 = Monitor.update_pids_
                        (fixture.third_tick fixture.flipped_conf)
                        (fixture.value fixture.s0
                           (fixture.sampled_once fixture.flipped_conf)))
    by (symmetry; exact Hup).
  vm_compute in E. injection E as ->. vm_compute. reflexivity.
Defined.

(** X15.  The daemon never stops itself.  Under a configuration that the
    constructor accepted, the whitelist check marks every record that
    carries the daemon's own PID as whitelisted, and every SIGSTOP that
    [exec_SIGSTOP_] sends, stepwise or not, goes to another PID. *)
Theorem daemon_never_stops_itself (fs : io.filesystem) (config_path : string)
  (cfg : Config.t) :
  Config.new fs config_path = Ok cfg ->
  (forall p p',
      Pid.pid p = Config.own_pid_ cfg ->
      Pid.check_whitelist_ cfg p = Ok p' -> Pid.is_whitelisted p' = true) /\
  (forall w m m',
      Monitor.cfg_ m = cfg ->
      Monitor.exec_SIGSTOP_ w m = Ok m' ->
      forall pid sig,
        In (pid, sig) (kills (Monitor.effects m')) ->
        In (pid, sig) (kills (Monitor.effects m)) \/
        (sig = 19 /\ pid <> Config.own_pid_ cfg)).
Proof.
  intros Hnew. pose proof (new_own_pid_listed fs config_path cfg Hnew) as Hown.
  split; [intros p p'; apply own_pid_whitelisted; exact Hown |].
  intros w m m' Hcfg H pid sig Hin.
  set (Q := fun p : Pid.t =>
              Pid.pid_ p = Config.own_pid_ cfg -> Pid.is_whitelisted_ p = true).
  unfold Monitor.exec_SIGSTOP_ in H.
  apply bind_Ok in H. destruct H as (m1 & Hup & H). cbv zeta in H.
  destruct (update_pids_vectors w m m1 Hup) as (_ & Heff & _).
  assert (HQ : forall v p,
             In v (Monitor.pids_ m1) ->
             Monitor.lookup (Monitor.objects m1) v = Some p -> Q p).
  { apply (update_pids_refreshed w m m1 Q); [| | exact Hup]; rewrite Hcfg.
    - intros t p p' Hu.
      destruct (update_sample _ _ _ _ _ Hu) as (q & -> & Hq & _ & _ & _ & _ & Hpid).
      intros Hp. destruct (sample_flags t q) as (-> & _ & _ & Hpid').
      rewrite Hpid' in Hp.
      apply (own_pid_whitelisted cfg _ q Hown) in Hq; [exact Hq | exact Hp].
    - intros pid0 p Hp Hpid.
      destruct (new_fresh _ _ _ _ _ Hp) as (E & _ & _ & _ & p1 & Hp1 & Hc).
      apply (own_pid_whitelisted cfg p1 p Hown); [congruence | exact Hc]. }
  assert (Hcand : forall v p,
             In v (Monitor.find_SIGSTOP_available_pids_ m1) ->
             Monitor.lookup (Monitor.objects m1) v = Some p ->
             Pid.pid p <> Config.own_pid_ cfg).
  { intros v p Hv Hp Hpid.
    destruct (available_spec m1 v Hv) as (Hcensus & p0 & Hp0 & Hwl).
    rewrite Hp in Hp0. injection Hp0 as <-.
    specialize (HQ v p Hcensus Hp Hpid).
    unfold Pid.is_whitelisted in Hwl. congruence. }
  destruct (0 <? List.length (Monitor.find_SIGSTOP_available_pids_ m1))%nat.
  - apply bind_Ok in H. destruct H as (stepwise & _ & H).
    destruct stepwise.
    + destruct (Monitor.find_SIGSTOP_available_pids_ m1) as [| first rest] eqn:Eav.
      * injection H as <-. left. rewrite <- Heff. exact Hin.
      * destruct (send_next_SIGSTOP_one first rest m1 m' H)
          as (x & p & Hx & Hp & _ & Hk).
        rewrite Hk, Heff in Hin. apply in_app_or in Hin.
        destruct Hin as [Hin | [Hin | []]]; [left; exact Hin |].
        injection Hin as <- <-. right. split; [reflexivity |].
        exact (Hcand x p Hx Hp).
    + destruct (send_all_SIGSTOPs_effects _ m1 m' H)
        as (_ & _ & _ & Hk & _).
      rewrite Hk, Heff in Hin. apply in_app_or in Hin.
      destruct Hin as [Hin | Hin]; [left; exact Hin |].
      apply in_map_iff in Hin. destruct Hin as (pid0 & E & Hin).
      injection E as <- <-. right. split; [reflexivity |].
      unfold pids_of in Hin. apply in_flat_map in Hin.
      destruct Hin as (v & Hv & Hin).
      destruct (Monitor.lookup (Monitor.objects m1) v) as [p |] eqn:Hp;
        [| contradiction].
      destruct Hin as [<- | []]. exact (Hcand v p Hv Hp).
  - injection H as <-. left. rewrite <- Heff. exact Hin.
Qed.

Lemma daemon_never_stops_itself_witness :
  (forall p p',
      Pid.pid p = Config.own_pid_ fixture.signal_cfg ->
      Pid.check_whitelist_ fixture.signal_cfg p = Ok p' ->
      Pid.is_whitelisted p' = true) /\
  (forall w m m',
      Monitor.cfg_ m = fixture.signal_cfg ->
      Monitor.exec_SIGSTOP_ w m = Ok m' ->
      forall pid sig,
        In (pid, sig) (kills (Monitor.effects m')) ->
        In (pid, sig) (kills (Monitor.effects m)) \/
        (sig = 19 /\ pid <> Config.own_pid_ fixture.signal_cfg)).
Proof.
  apply (daemon_never_stops_itself (fixture.twice "0") fixture.config_path).
  vm_compute. reflexivity.
Defined.


(** ** The census *)

Lemma update_pids_anatomy (w : Monitor.world) (m m' : Monitor.t) :
  Monitor.update_pids_ w m = Ok m' ->
  exists h1 files pid_nums,
    for_each (refresh_body (Monitor.cfg_ m) (Monitor.fs w))
             (Monitor.pids_ m) (Monitor.objects m) = Ok h1 /\
    io.ls (Monitor.fs w) Monitor.PROC_FILES_MATCHER_ false = Ok files /\
    tools.convert_vector (tools.convert_int t_pid_t)
                         (filter Monitor.all_digits files) = Ok pid_nums /\
    for_each (add_body (Monitor.cfg_ m) w) pid_nums
             (h1, filter (Monitor.holds h1 Pid.is_a_process) (Monitor.pids_ m))
    = Ok (Monitor.objects m', Monitor.pids_ m') /\
    Monitor.self_stopped_pids_ m'
    = filter (Monitor.holds h1
                (fun p => Pid.is_a_process p && Pid.is_self_stopped p))
             (Monitor.self_stopped_pids_ m) /\
    Monitor.cfg_ m' = Monitor.cfg_ m /\
    Monitor.effects m' = Monitor.effects m.
Proof.
  unfold Monitor.update_pids_. intros H.
  apply bind_Ok in H. destruct H as (h1 & Hloop & H).
  apply bind_Ok in H. destruct H as (files & Hls & H).
  apply bind_Ok in H. destruct H as (pid_nums & Hnums & H).
  apply bind_Ok in H. destruct H as ([h2 pids2] & Hadd & H).
  injection H as <-. exists h1, files, pid_nums. cbn.
  repeat split; assumption.
Qed.

Lemma update_keeps (cfg : Config.t) (fs : io.filesystem) (cpu_time : Z)
  (p p' : Pid.t) :
  Pid.update cfg fs cpu_time p = Ok p' ->
  Pid.pid p' = Pid.pid p /\
  Pid.is_self_stopped p' = Pid.is_self_stopped p /\
  (Pid.is_ready p = true -> Pid.is_ready p' = true).
Proof.
  intros H. split; [| split].
  - unfold Pid.update in H. ok_inv H. subst p'.
    destruct (sample_flags cpu_time a0) as (_ & _ & _ & E3).
    destruct (check_whitelist_keeps _ _ _ E0) as (_ & _ & E2 & _).
    destruct (read_stat_keeps _ _ _ E) as (_ & _ & E1).
    unfold Pid.pid. congruence.
  - unfold Pid.update in H. ok_inv H. subst p'.
    destruct (sample_flags cpu_time a0) as (_ & E3 & _).
    destruct (check_whitelist_keeps _ _ _ E0) as (_ & E2 & _).
    destruct (read_stat_keeps _ _ _ E) as (_ & E1 & _).
    unfold Pid.is_self_stopped. congruence.
  - apply (update_ready _ _ _ _ _ H).
Qed.

Lemma updated_refl (h : Monitor.store) : updated h h.
Proof. intros u. destruct (Monitor.lookup h u); auto. Qed.

Lemma refresh_updated (cfg : Config.t) (fs : io.filesystem)
  (l : list Monitor.ptr) (h h1 : Monitor.store) :
  for_each (refresh_body cfg fs) l h = Ok h1 -> updated h h1.
Proof.
  intros H.
  refine (for_each_inv (updated h) _ _ _ _ _ (updated_refl h) H).
  intros v hx hx' _ Hx Hbody. unfold refresh_body in Hbody.
  apply bind_Ok in Hbody. destruct Hbody as (t & _ & Hbody).
  apply bind_Ok in Hbody. destruct Hbody as (p0 & Hp0 & Hbody).
  apply bind_Ok in Hbody. destruct Hbody as (p' & Hp' & Hbody).
  injection Hbody as <-. apply deref_Ok in Hp0.
  destruct (update_keeps _ _ _ _ _ Hp') as (E1 & E2 & E3).
  intros u. specialize (Hx u). rewrite lookup_assign.
  destruct (u =? v)%nat eqn:E; [| exact Hx].
  apply Nat.eqb_eq in E. subst u. rewrite Hp0 in Hx |- *.
  destruct (Monitor.lookup h v) as [p |]; [| contradiction].
  destruct Hx as (F1 & F2 & F3). repeat split; try congruence. auto.
Qed.

Lemma updated_census (h h' : Monitor.store) (pids : list Monitor.ptr) :
  updated h h' -> census_ok h pids -> census_ok h' pids.
Proof.
  intros Hu (Hnd & Hvalid & Hinj). split; [exact Hnd |]. split.
  - intros v Hv E. specialize (Hu v). specialize (Hvalid v Hv).
    rewrite E in Hu. destruct (Monitor.lookup h v); [contradiction | auto].
  - intros v u p q Hv Hu' Hp Hq Hpq.
    pose proof (Hu v) as Uv. pose proof (Hu u) as Uu.
    rewrite Hp in Uv. rewrite Hq in Uu.
    destruct (Monitor.lookup h v) as [p0 |] eqn:Ev; [| contradiction].
    destruct (Monitor.lookup h u) as [q0 |] eqn:Eu; [| contradiction].
    apply (Hinj v u p0 q0 Hv Hu' Ev Eu).
    destruct Uv as (Uv & _). destruct Uu as (Uu & _). congruence.
Qed.

Lemma census_ok_filter (h : Monitor.store) (pids : list Monitor.ptr)
  (f : Monitor.ptr -> bool) :
  census_ok h pids -> census_ok h (filter f pids).
Proof.
  intros (Hnd & Hvalid & Hinj). split; [apply NoDup_filter; exact Hnd |].
  split.
  - intros v Hv. apply filter_In in Hv. apply Hvalid. tauto.
  - intros v u p q Hv Hu. apply filter_In in Hv. apply filter_In in Hu.
    apply Hinj; tauto.
Qed.

Lemma lookup_app_l (h ext : Monitor.store) (v : Monitor.ptr) (p : Pid.t) :
  Monitor.lookup h v = Some p -> Monitor.lookup (h ++ ext) v = Some p.
Proof.
  intros H. unfold Monitor.lookup in *.
  rewrite nth_error_app1; [exact H |].
  apply nth_error_Some. rewrite H. discriminate.
Qed.

Lemma census_ok_add (h : Monitor.store) (pids : list Monitor.ptr) (p : Pid.t) :
  census_ok h pids ->
  existsb (Monitor.holds h (fun q => Pid.pid q =? Pid.pid p)) pids = false ->
  census_ok (h ++ [p]) (pids ++ [List.length h]).
Proof.
  intros (Hnd & Hvalid & Hinj) Hnew.
  assert (Hlt : forall v, In v pids -> (v < List.length h)%nat).
  { intros v Hv. specialize (Hvalid v Hv).
    destruct (Monitor.lookup h v) as [q |] eqn:E; [| contradiction].
    exact (lookup_valid h v q E). }
  assert (Hfresh : forall v q,
             In v pids -> Monitor.lookup h v = Some q ->
             Pid.pid q <> Pid.pid p).
  { intros v q Hv Hq Hpq.
    assert (existsb (Monitor.holds h (fun q => Pid.pid q =? Pid.pid p)) pids
            = true); [| congruence].
    apply existsb_exists. exists v. split; [exact Hv |].
    unfold Monitor.holds. rewrite Hq. apply Z.eqb_eq. exact Hpq. }
  assert (Hold : forall v q,
             In v pids -> Monitor.lookup (h ++ [p]) v = Some q ->
             Monitor.lookup h v = Some q).
  { intros v q Hv Hq. rewrite lookup_app in Hq.
    replace (v <? List.length h)%nat with true in Hq
      by (symmetry; apply Nat.ltb_lt; apply Hlt; exact Hv).
    exact Hq. }
  assert (Hlast : Monitor.lookup (h ++ [p]) (List.length h) = Some p).
  { rewrite lookup_app, Nat.ltb_irrefl, Nat.eqb_refl. reflexivity. }
  split; [| split].
  - apply NoDup_rev in Hnd. rewrite <- (rev_involutive (pids ++ _)).
    apply NoDup_rev. rewrite rev_app_distr. cbn. constructor; [| exact Hnd].
    intros Hin. apply in_rev in Hin. specialize (Hlt _ Hin). lia.
  - intros v Hv. apply in_app_or in Hv. destruct Hv as [Hv | [<- | []]].
    + specialize (Hvalid v Hv).
      destruct (Monitor.lookup h v) as [q |] eqn:E; [| contradiction].
      rewrite (lookup_app_l h [p] v q E). discriminate.
    + rewrite Hlast. discriminate.
  - intros v u q1 q2 Hv Hu Hq1 Hq2 Hpq.
    apply in_app_or in Hv. apply in_app_or in Hu.
    destruct Hv as [Hv | [<- | []]], Hu as [Hu | [<- | []]].
    + apply (Hinj v u q1 q2); auto.
    + exfalso. rewrite Hlast in Hq2. injection Hq2 as <-.
      exact (Hfresh v q1 Hv (Hold v q1 Hv Hq1) Hpq).
    + exfalso. rewrite Hlast in Hq1. injection Hq1 as <-.
      exact (Hfresh u q2 Hu (Hold u q2 Hu Hq2) (eq_sym Hpq)).
    + reflexivity.
Qed.

(** The loop that adds the processes not yet in the census. *)
Lemma add_loop_spec (cfg : Config.t) (w : Monitor.world) (l : list Z) :
  forall h pids h' pids',
    for_each (add_body cfg w) l (h, pids) = Ok (h', pids') ->
    census_ok h pids ->
    census_ok h' pids' /\
    (exists ext, h' = h ++ ext) /\
    incl pids pids' /\
    (forall x, In x l ->
               exists v p, In v pids' /\ Monitor.lookup h' v = Some p /\
                           Pid.pid p = x).
Proof.
  induction l as [| a l IH]; intros h pids h' pids' H Hok.
  - injection H as <- <-. split; [exact Hok |].
    split; [exists []; rewrite app_nil_r; reflexivity |].
    split; [apply incl_refl |]. intros x [].
  - cbn [for_each] in H. apply bind_Ok in H.
    destruct H as ([ha pa] & Ha & H). unfold add_body in Ha.
    destruct (existsb (Monitor.holds h (fun p => Pid.pid p =? a)) pids) eqn:Eex;
      cbn [negb] in Ha.
    + injection Ha as <- <-.
      destruct (IH _ _ _ _ H Hok) as (Hok' & (ext & Hext) & Hincl & Hall).
      split; [exact Hok' |]. split; [exists ext; exact Hext |].
      split; [exact Hincl |].
      intros x [<- | Hx]; [| apply Hall; exact Hx].
      apply existsb_exists in Eex. destruct Eex as (v & Hv & Hh).
      unfold Monitor.holds in Hh.
      destruct (Monitor.lookup h v) as [p |] eqn:Ep; [| discriminate].
      apply Z.eqb_eq in Hh. exists v, p.
      split; [apply Hincl; exact Hv |].
      split; [rewrite Hext; apply lookup_app_l; exact Ep | exact Hh].
    + apply bind_Ok in Ha. destruct Ha as (p & Hp & Ha).
      unfold Monitor.make_shared in Ha. injection Ha as <- <-.
      destruct (new_fresh _ _ _ _ _ Hp) as (Hpid & _).
      assert (Hok1 : census_ok (h ++ [p]) (pids ++ [List.length h])).
      { apply census_ok_add; [exact Hok |].
        unfold Pid.pid. rewrite Hpid. exact Eex. }
      destruct (IH _ _ _ _ H Hok1) as (Hok' & (ext & Hext) & Hincl & Hall).
      split; [exact Hok' |].
      split; [exists ([p] ++ ext); rewrite Hext, <- app_assoc; reflexivity |].
      split; [intros v Hv; apply Hincl; apply in_or_app; left; exact Hv |].
      intros x [<- | Hx]; [| apply Hall; exact Hx].
      exists (List.length h), p.
      split; [apply Hincl; apply in_or_app; right; left; reflexivity |].
      split; [| exact Hpid].
      rewrite Hext. apply lookup_app_l.
      rewrite lookup_app, Nat.ltb_irrefl, Nat.eqb_refl. reflexivity.
Qed.

(** What a refresh does to the store and to the census. *)
Lemma update_pids_census (w : Monitor.world) (m m' : Monitor.t) :
  Monitor.update_pids_ w m = Ok m' ->
  census_ok (Monitor.objects m) (Monitor.pids_ m) ->
  census_ok (Monitor.objects m') (Monitor.pids_ m') /\
  (forall u p,
      Monitor.lookup (Monitor.objects m) u = Some p ->
      exists p',
        Monitor.lookup (Monitor.objects m') u = Some p' /\
        Pid.pid p' = Pid.pid p /\
        Pid.is_self_stopped p' = Pid.is_self_stopped p /\
        (Pid.is_ready p = true -> Pid.is_ready p' = true)) /\
  (forall files pid_nums x,
      io.ls (Monitor.fs w) Monitor.PROC_FILES_MATCHER_ false = Ok files ->
      tools.convert_vector (tools.convert_int t_pid_t)
                           (filter Monitor.all_digits files) = Ok pid_nums ->
      In x pid_nums ->
      exists v p, In v (Monitor.pids_ m') /\
                  Monitor.lookup (Monitor.objects m') v = Some p /\
                  Pid.pid p = x).
Proof.
  intros H Hok.
  destruct (update_pids_anatomy w m m' H)
    as (h1 & files & pid_nums & Hloop & Hls & Hnums & Hadd & _).
  pose proof (refresh_updated _ _ _ _ _ Hloop) as Hupd.
  assert (Hok1 : census_ok h1 (filter (Monitor.holds h1 Pid.is_a_process)
                                      (Monitor.pids_ m))).
  { apply census_ok_filter. apply (updated_census _ _ _ Hupd Hok). }
  destruct (add_loop_spec _ _ _ _ _ _ _ Hadd Hok1)
    as (Hok' & (ext & Hext) & _ & Hall).
  split; [exact Hok' |]. split.
  - intros u p Hp. specialize (Hupd u). rewrite Hp in Hupd.
    destruct (Monitor.lookup h1 u) as [p' |] eqn:Ep'; [| contradiction].
    exists p'. split; [rewrite Hext; apply lookup_app_l; exact Ep' | exact Hupd].
  - intros files' pid_nums' x Hls' Hnums' Hx.
    rewrite Hls in Hls'. injection Hls' as <-.
    rewrite Hnums in Hnums'. injection Hnums' as <-.
    apply Hall. exact Hx.
Qed.


(** ** The signal loops *)

Lemma flag_only_refl (h : Monitor.store) : flag_only h h.
Proof. intros f _ u. reflexivity. Qed.

Lemma flag_only_trans (h1 h2 h3 : Monitor.store) :
  flag_only h1 h2 -> flag_only h2 h3 -> flag_only h1 h3.
Proof. intros H12 H23 f Hf u. rewrite (H23 f Hf u). apply (H12 f Hf u). Qed.

Lemma flag_only_assign (h : Monitor.store) (v : Monitor.ptr) (p : Pid.t)
  (b : bool) :
  Monitor.lookup h v = Some p ->
  flag_only h (Monitor.assign h v (Pid.set_is_self_stopped b p)).
Proof.
  intros Hp f Hf u. apply holds_assign_self_stopped; [exact Hp | apply Hf].
Qed.

Lemma flag_only_lookup (h h' : Monitor.store) (u : Monitor.ptr) :
  flag_only h h' ->
  match Monitor.lookup h u, Monitor.lookup h' u with
  | Some p, Some p' =>
      Pid.pid p' = Pid.pid p /\ Pid.is_ready p' = Pid.is_ready p
  | None, None => True
  | _, _ => False
  end.
Proof.
  intros H.
  pose proof (H (fun _ => true) (fun _ _ => eq_refl) u) as H1.
  pose proof (H Pid.is_ready (fun _ _ => eq_refl) u) as H2.
  unfold Monitor.holds in H1, H2.
  destruct (Monitor.lookup h u) as [p |] eqn:E,
           (Monitor.lookup h' u) as [p' |] eqn:E'; try discriminate; auto.
  split; [| exact H2].
  pose proof (H (fun q => Pid.pid q =? Pid.pid p) (fun _ _ => eq_refl) u) as H3.
  unfold Monitor.holds in H3. rewrite E, E', Z.eqb_refl in H3.
  apply Z.eqb_eq. exact H3.
Qed.

Lemma flag_only_census (h h' : Monitor.store) (pids : list Monitor.ptr) :
  flag_only h h' -> census_ok h pids -> census_ok h' pids.
Proof.
  intros Hf (Hnd & Hvalid & Hinj). split; [exact Hnd |]. split.
  - intros v Hv E. pose proof (flag_only_lookup h h' v Hf) as L.
    specialize (Hvalid v Hv). rewrite E in L.
    destruct (Monitor.lookup h v); [contradiction | auto].
  - intros v u p q Hv Hu Hp Hq Hpq.
    pose proof (flag_only_lookup h h' v Hf) as Lv.
    pose proof (flag_only_lookup h h' u Hf) as Lu.
    rewrite Hp in Lv. rewrite Hq in Lu.
    destruct (Monitor.lookup h v) as [p0 |] eqn:Ev; [| contradiction].
    destruct (Monitor.lookup h u) as [q0 |] eqn:Eu; [| contradiction].
    apply (Hinj v u p0 q0 Hv Hu Ev Eu).
    destruct Lv as (Lv & _). destruct Lu as (Lu & _). congruence.
Qed.

Lemma send_next_SIGSTOP_effects (available : list Monitor.ptr)
  (m m' : Monitor.t) :
  Monitor.send_next_SIGSTOP_ available m = Ok m' ->
  Monitor.cfg_ m' = Monitor.cfg_ m /\
  Monitor.pids_ m' = Monitor.pids_ m /\
  flag_only (Monitor.objects m) (Monitor.objects m') /\
  (forall v, In v (Monitor.self_stopped_pids_ m') ->
             In v (Monitor.self_stopped_pids_ m) \/ In v available).
Proof.
  unfold Monitor.send_next_SIGSTOP_. intros H.
  destruct available as [| first rest].
  - injection H as <-. repeat split; auto using flag_only_refl.
  - apply bind_Ok in H. destruct H as (x & Hmax & H).
    apply bind_Ok in H. destruct H as (p & Hp & H).
    apply deref_Ok in Hp. apply max_element_from_In in Hmax.
    injection H as <-. cbn. repeat split.
    + apply (flag_only_assign _ _ _ true Hp).
    + intros v Hv. apply in_app_or in Hv. destruct Hv as [Hv | [<- | []]]; auto.
Qed.

Lemma min_element_from_In (comp : Monitor.ptr -> Monitor.ptr -> outcome bool)
  (rest : list Monitor.ptr) :
  forall smallest x,
    Monitor.min_element_from comp smallest rest = Ok x ->
    In x (smallest :: rest).
Proof.
  induction rest as [| y rest IH]; intros smallest x H; simpl in H.
  - injection H as <-. left. reflexivity.
  - apply bind_Ok in H. destruct H as (c & _ & H).
    apply IH in H. destruct c; simpl in *; tauto.
Qed.

Lemma send_next_SIGCONT_effects (m m' : Monitor.t) :
  Monitor.send_next_SIGCONT_ m = Ok m' ->
  Monitor.cfg_ m' = Monitor.cfg_ m /\
  Monitor.pids_ m' = Monitor.pids_ m /\
  Monitor.self_stopped_pids_ m' = Monitor.self_stopped_pids_ m /\
  flag_only (Monitor.objects m) (Monitor.objects m').
Proof.
  unfold Monitor.send_next_SIGCONT_. intros H.
  destruct (Monitor.self_stopped_pids_ m) as [| first rest] eqn:Ess.
  - injection H as <-. repeat split; auto using flag_only_refl.
  - apply bind_Ok in H. destruct H as (x & _ & H).
    apply bind_Ok in H. destruct H as (p & Hp & H).
    apply deref_Ok in Hp. injection H as <-. cbn. repeat split; auto.
    apply (flag_only_assign _ _ _ false Hp).
Qed.

(** What the loop that continues all self-stopped records does. *)
Lemma continue_loop (l : list Monitor.ptr) :
  forall m m',
    for_each
      (fun v m =>
         p <- Config.deref (Monitor.lookup (Monitor.objects m) v) ;;
         let m1 := Monitor.emit (Monitor.Kill (Pid.pid p) 18) m in
         Ok (Monitor.with_objects
               (Monitor.assign (Monitor.objects m1) v (Pid.send_SIGCONT p)) m1))
      l m = Ok m' ->
    Monitor.cfg_ m' = Monitor.cfg_ m /\
    Monitor.pids_ m' = Monitor.pids_ m /\
    Monitor.self_stopped_pids_ m' = Monitor.self_stopped_pids_ m /\
    flag_only (Monitor.objects m) (Monitor.objects m') /\
    kills (Monitor.effects m')
    = kills (Monitor.effects m)
      ++ List.map (fun pid => (pid, 18)) (pids_of (Monitor.objects m) l) /\
    (forall u, In u l ->
               Monitor.holds (Monitor.objects m') Pid.is_self_stopped u = false) /\
    (forall u, Monitor.holds (Monitor.objects m) Pid.is_self_stopped u = false ->
               Monitor.holds (Monitor.objects m') Pid.is_self_stopped u = false).
Proof.
  induction l as [| v l IH]; intros m m' H.
  - injection H as <-. cbn. rewrite app_nil_r.
    repeat split; auto using flag_only_refl. intros u [].
  - cbn [for_each] in H.
    apply bind_Ok in H. destruct H as (m2 & Hbody & H).
    apply bind_Ok in Hbody. destruct Hbody as (p & Hp & Hbody).
    apply deref_Ok in Hp. injection Hbody as <-.
    destruct (IH _ _ H) as (Hcfg & Hpids & Hss & Hflag & Hk & Hnew & Hold).
    clear IH H.
    cbn [Monitor.cfg_ Monitor.pids_ Monitor.self_stopped_pids_ Monitor.objects
         Monitor.effects Monitor.with_pids Monitor.with_objects Monitor.emit]
      in Hcfg, Hpids, Hss, Hflag, Hk, Hnew, Hold.
    rewrite (pids_of_assign _ _ p (Pid.send_SIGCONT p) l Hp eq_refl) in Hk.
    assert (Hv : Monitor.holds
                   (Monitor.assign (Monitor.objects m) v (Pid.send_SIGCONT p))
                   Pid.is_self_stopped v = false).
    { unfold Monitor.holds. rewrite lookup_assign, Nat.eqb_refl, Hp.
      reflexivity. }
    split; [exact Hcfg |]. split; [exact Hpids |]. split; [exact Hss |].
    split.
    { apply (flag_only_trans _ _ _ (flag_only_assign _ _ _ false Hp) Hflag). }
    split.
    { rewrite Hk. unfold kills at 1. cbn [Monitor.effects].
      rewrite flat_map_app. cbn [flat_map]. fold (kills (Monitor.effects m)).
      cbn [pids_of flat_map]. rewrite Hp. cbn [app List.map].
      rewrite <- app_assoc. reflexivity. }
    split.
    { intros u [<- | Hu]; [apply Hold; exact Hv | apply Hnew; exact Hu]. }
    intros u Hu. apply Hold. unfold Monitor.holds. rewrite lookup_assign.
    destruct (u =? v)%nat eqn:E; [rewrite Hp; reflexivity | exact Hu].
Qed.

Lemma exec_SIGSTOP_effects (w : Monitor.world) (m m' : Monitor.t) :
  Monitor.exec_SIGSTOP_ w m = Ok m' ->
  exists m1,
    Monitor.update_pids_ w m = Ok m1 /\
    Monitor.cfg_ m' = Monitor.cfg_ m1 /\
    Monitor.pids_ m' = Monitor.pids_ m1 /\
    flag_only (Monitor.objects m1) (Monitor.objects m') /\
    (forall v, In v (Monitor.self_stopped_pids_ m') ->
               In v (Monitor.self_stopped_pids_ m1) \/
               In v (Monitor.find_SIGSTOP_available_pids_ m1)).
Proof.
  unfold Monitor.exec_SIGSTOP_. intros H.
  apply bind_Ok in H. destruct H as (m1 & Hup & H). cbv zeta in H.
  exists m1. split; [exact Hup |].
  destruct (0 <? List.length (Monitor.find_SIGSTOP_available_pids_ m1))%nat.
  - apply bind_Ok in H. destruct H as (stepwise & _ & H).
    destruct stepwise.
    + apply send_next_SIGSTOP_effects. exact H.
    + destruct (send_all_SIGSTOPs_effects _ _ _ H)
        as (Hcfg & Hpids & Hss & _ & _ & _ & _ & Hf).
      repeat split; try assumption.
      intros v Hv. rewrite Hss in Hv. apply in_app_or in Hv. exact Hv.
  - injection H as <-. repeat split; auto using flag_only_refl.
Qed.

Lemma exec_SIGCONT_effects (w : Monitor.world) (m m' : Monitor.t) :
  Monitor.exec_SIGCONT_ w m = Ok m' ->
  (Monitor.self_stopped_pids_ m = [] /\ m' = m) \/
  exists m1,
    Monitor.update_pids_ w m = Ok m1 /\
    Monitor.cfg_ m' = Monitor.cfg_ m1 /\
    Monitor.pids_ m' = Monitor.pids_ m1 /\
    Monitor.self_stopped_pids_ m' = Monitor.self_stopped_pids_ m1 /\
    flag_only (Monitor.objects m1) (Monitor.objects m').
Proof.
  unfold Monitor.exec_SIGCONT_. intros H.
  destruct (Monitor.self_stopped_pids_ m) as [| v ss] eqn:Ess.
  - left. injection H as <-. auto.
  - right. cbn [List.length Nat.ltb Nat.leb] in H.
    apply bind_Ok in H. destruct H as (m1 & Hup & H).
    exists m1. split; [exact Hup |].
    apply bind_Ok in H. destruct H as (stepwise & _ & H).
    destruct stepwise.
    + apply send_next_SIGCONT_effects. exact H.
    + unfold Monitor.send_all_SIGCONTs_ in H.
      destruct (continue_loop _ _ _ H) as (Hcfg & Hpids & Hss & Hflag & _).
      auto.
Qed.

(** ** Throttling only writes *)

Lemma effects_only_refl (m : Monitor.t) : effects_only m m.
Proof. exists []. symmetry. apply emit_all_nil. Qed.

Lemma effects_only_trans (m1 m2 m3 : Monitor.t) :
  effects_only m1 m2 -> effects_only m2 m3 -> effects_only m1 m3.
Proof.
  intros [es1 ->] [es2 ->]. exists (es1 ++ es2).
  unfold emit_all. cbn. rewrite app_assoc. reflexivity.
Qed.

Lemma effects_only_emit (e : Monitor.event) (m : Monitor.t) :
  effects_only m (Monitor.emit e m).
Proof. exists [e]. reflexivity. Qed.

Lemma effects_only_fields (m m' : Monitor.t) :
  effects_only m m' ->
  Monitor.cfg_ m' = Monitor.cfg_ m /\
  Monitor.objects m' = Monitor.objects m /\
  Monitor.pids_ m' = Monitor.pids_ m /\
  Monitor.self_stopped_pids_ m' = Monitor.self_stopped_pids_ m /\
  exists es, Monitor.effects m' = Monitor.effects m ++ es.
Proof. intros [es ->]. cbn. repeat split. exists es. reflexivity. Qed.

Lemma overwrite_effects_only (files_ : list string) (i : nat) (v : Z)
  (m m' : Monitor.t) :
  Monitor.overwrite files_ i v m = Ok m' -> effects_only m m'.
Proof.
  unfold Monitor.overwrite. intros H.
  destruct (i <? List.length files_)%nat; [| discriminate].
  injection H as <-. apply effects_only_emit.
Qed.

Lemma for_each_effects_only {A : Type}
  (body : A -> Monitor.t -> outcome Monitor.t) (l : list A) (m m' : Monitor.t) :
  (forall a s s', body a s = Ok s' -> effects_only s s') ->
  for_each body l m = Ok m' -> effects_only m m'.
Proof.
  intros Hbody H.
  refine (for_each_inv (effects_only m) _ _ _ _ _ (effects_only_refl m) H).
  intros a s s' _ Hs Hb.
  apply (effects_only_trans _ _ _ Hs (Hbody a s s' Hb)).
Qed.

Lemma exec_dethrottle_effects_only (w : Monitor.world) (m m' : Monitor.t) :
  Monitor.exec_dethrottle_ w m = Ok m' -> effects_only m m'.
Proof.
  unfold Monitor.exec_dethrottle_. intros H.
  apply bind_Ok in H. destruct H as (files_ & _ & H).
  apply bind_Ok in H. destruct H as (cur_speeds & _ & H).
  apply bind_Ok in H. destruct H as (below & _ & H).
  destruct below; [| injection H as <-; apply effects_only_refl].
  cbv zeta in H. apply bind_Ok in H. destruct H as (use_scaling & _ & H).
  apply (effects_only_trans _ _ _
           (effects_only_emit (Monitor.Log "Dethrottling CPU.") m)).
  destruct use_scaling.
  - unfold Monitor.dethrottle_next_higher_ in H.
    apply bind_Ok in H. destruct H as (scaling_avail & _ & H).
    revert H. generalize (Monitor.emit (Monitor.Log "Dethrottling CPU.") m).
    generalize 0%nat.
    induction cur_speeds as [| speed rest IH]; intros i s H.
    + injection H as <-. apply effects_only_refl.
    + cbn [Monitor.dethrottle_next_higher_from] in H.
      apply bind_Ok in H. destruct H as (avail_speeds & _ & H). cbv zeta in H.
      apply bind_Ok in H. destruct H as (s1 & Hs1 & H).
      apply (effects_only_trans _ s1); [| apply (IH _ _ H)].
      destruct (negb (Monitor.next_higher avail_speeds speed =? ULONG_MAX)).
      * apply bind_Ok in Hs1. destruct Hs1 as (fl & _ & Hs1).
        apply (overwrite_effects_only _ _ _ _ _ Hs1).
      * injection Hs1 as <-. apply effects_only_refl.
  - unfold Monitor.dethrottle_highest_ in H.
    apply bind_Ok in H. destruct H as (max_freqs & _ & H).
    apply bind_Ok in H. destruct H as (curfreq_files & _ & H).
    refine (for_each_effects_only _ _ _ _ _ H).
    intros i s s' Hb. apply bind_Ok in Hb. destruct Hb as (v & _ & Hb).
    apply (overwrite_effects_only _ _ _ _ _ Hb).
Qed.

Lemma exec_throttle_effects_only (w : Monitor.world) (m m' : Monitor.t) :
  Monitor.exec_throttle_ w m = Ok m' -> effects_only m m'.
Proof.
  unfold Monitor.exec_throttle_. intros H.
  apply bind_Ok in H. destruct H as (files_ & _ & H).
  apply bind_Ok in H. destruct H as (cur_speeds & _ & H).
  apply bind_Ok in H. destruct H as (above & _ & H).
  destruct above; [| injection H as <-; apply effects_only_refl].
  cbv zeta in H. apply bind_Ok in H. destruct H as (use_scaling & _ & H).
  apply (effects_only_trans _ _ _
           (effects_only_emit (Monitor.Log "Throttling CPU.") m)).
  destruct use_scaling.
  - unfold Monitor.throttle_next_lower_ in H.
    apply bind_Ok in H. destruct H as (scaling_avail & _ & H).
    revert H. generalize (Monitor.emit (Monitor.Log "Throttling CPU.") m).
    generalize 0%nat.
    induction cur_speeds as [| speed rest IH]; intros i s H.
    + injection H as <-. apply effects_only_refl.
    + cbn [Monitor.throttle_next_lower_from] in H.
      apply bind_Ok in H. destruct H as (avail_speeds & _ & H). cbv zeta in H.
      apply bind_Ok in H. destruct H as (s1 & Hs1 & H).
      apply (effects_only_trans _ s1); [| apply (IH _ _ H)].
      destruct (negb (Monitor.next_lower avail_speeds speed =? 0)).
      * apply bind_Ok in Hs1. destruct Hs1 as (fl & _ & Hs1).
        apply (overwrite_effects_only _ _ _ _ _ Hs1).
      * injection Hs1 as <-. apply effects_only_refl.
  - unfold Monitor.throttle_lowest_ in H.
    apply bind_Ok in H. destruct H as (min_freqs & _ & H).
    apply bind_Ok in H. destruct H as (curfreq_files & _ & H).
    refine (for_each_effects_only _ _ _ _ _ H).
    intros i s s' Hb.
    apply bind_Ok in Hb. destruct Hb as (readings & _ & Hb).
    apply bind_Ok in Hb. destruct Hb as (cur_reading & _ & Hb).
    apply bind_Ok in Hb. destruct Hb as (min_freq & _ & Hb).
    destruct (cur_reading >? min_freq).
    + apply (overwrite_effects_only _ _ _ _ _ Hb).
    + injection Hb as <-. apply effects_only_refl.
Qed.

(** ** What holds between two operations *)

Lemma update_pids_stopped_ok (w : Monitor.world) (m m' : Monitor.t) :
  Monitor.update_pids_ w m = Ok m' ->
  census_ok (Monitor.objects m) (Monitor.pids_ m) ->
  stopped_ok m -> stopped_ok m'.
Proof.
  intros H Hok [Hincl Hready].
  destruct (update_pids_subset w m m' H Hincl) as [Hincl' Hsub].
  destruct (update_pids_census w m m' H Hok) as (_ & Hkeep & _).
  split; [exact Hincl' |].
  intros v Hv. specialize (Hready v (Hsub v Hv)).
  unfold Monitor.holds in Hready |- *.
  destruct (Monitor.lookup (Monitor.objects m) v) as [p |] eqn:Ep;
    [| discriminate].
  destruct (Hkeep v p Ep) as (p' & -> & _ & _ & Hr). apply Hr. exact Hready.
Qed.

Lemma operated_invariant (cfg : Config.t) (m : Monitor.t) :
  operated cfg m ->
  Monitor.cfg_ m = cfg /\
  census_ok (Monitor.objects m) (Monitor.pids_ m) /\
  stopped_ok m.
Proof.
  intros H.
  induction H as [| w m m' _ (Hcfg & Hok & Hst) H
                  | w m m' _ (Hcfg & Hok & Hst) H
                  | w m m' _ (Hcfg & Hok & Hst) H
                  | w m m' _ (Hcfg & Hok & Hst) H].
  - split; [reflexivity |]. split.
    + split; [constructor |]. split.
      * intros v [].
      * intros v u p q [].
    + split; intros v; intros [].
  - destruct (exec_SIGSTOP_effects w m m' H)
      as (m1 & Hup & Hcfg' & Hpids & Hflag & Hss).
    destruct (update_pids_vectors w m m1 Hup) as (Hc1 & _).
    destruct (update_pids_census w m m1 Hup Hok) as (Hok1 & _).
    destruct (update_pids_stopped_ok w m m1 Hup Hok Hst) as [Hincl1 Hready1].
    split; [congruence |]. split.
    + rewrite Hpids. apply (flag_only_census _ _ _ Hflag Hok1).
    + split.
      * rewrite Hpids. intros v Hv. destruct (Hss v Hv) as [Hv1 | Hav].
        -- apply Hincl1. exact Hv1.
        -- apply available_spec in Hav. tauto.
      * intros v Hv. rewrite (Hflag Pid.is_ready (fun _ _ => eq_refl) v).
        destruct (Hss v Hv) as [Hv1 | Hav]; [apply Hready1; exact Hv1 |].
        unfold Monitor.find_SIGSTOP_available_pids_ in Hav.
        apply filter_In in Hav. destruct Hav as [_ Hav].
        unfold Monitor.holds in Hav |- *.
        destruct (Monitor.lookup (Monitor.objects m1) v) as [p |]; [| discriminate].
        destruct (Pid.is_ready p); [reflexivity |].
        rewrite andb_false_r in Hav. discriminate.
  - destruct (exec_SIGCONT_effects w m m' H)
      as [[_ ->] | (m1 & Hup & Hcfg' & Hpids & Hss & Hflag)]; [auto |].
    destruct (update_pids_vectors w m m1 Hup) as (Hc1 & _).
    destruct (update_pids_census w m m1 Hup Hok) as (Hok1 & _).
    destruct (update_pids_stopped_ok w m m1 Hup Hok Hst) as [Hincl1 Hready1].
    split; [congruence |]. split.
    + rewrite Hpids. apply (flag_only_census _ _ _ Hflag Hok1).
    + split.
      * rewrite Hpids, Hss. exact Hincl1.
      * intros v Hv. rewrite (Hflag Pid.is_ready (fun _ _ => eq_refl) v).
        apply Hready1. rewrite <- Hss. exact Hv.
  - destruct (effects_only_fields m m' (exec_throttle_effects_only w m m' H))
      as (E1 & E2 & E3 & E4 & _).
    unfold stopped_ok. rewrite E1, E2, E3, E4. auto.
  - destruct (effects_only_fields m m' (exec_dethrottle_effects_only w m m' H))
      as (E1 & E2 & E3 & E4 & _).
    unfold stopped_ok. rewrite E1, E2, E3, E4. auto.
Qed.


Lemma census_ok_tail (h : Monitor.store) (a : Monitor.ptr)
  (l : list Monitor.ptr) :
  census_ok h (a :: l) -> census_ok h l.
Proof.
  intros (Hnd & Hvalid & Hinj). split; [inversion Hnd; assumption |].
  split.
  - intros v Hv. apply Hvalid. right. exact Hv.
  - intros v u p q Hv Hu. apply Hinj; right; assumption.
Qed.

Lemma census_pids_of (h : Monitor.store) (pids : list Monitor.ptr) :
  census_ok h pids ->
  NoDup (pids_of h pids) /\
  List.length (pids_of h pids) = List.length pids.
Proof.
  induction pids as [| a l IH]; intros Hok; [split; [constructor | reflexivity] |].
  destruct (IH (census_ok_tail h a l Hok)) as [IH1 IH2].
  destruct Hok as (Hnd & Hvalid & Hinj).
  cbn [pids_of flat_map]. fold (pids_of h l).
  destruct (Monitor.lookup h a) as [p |] eqn:Ep;
    [| exfalso; apply (Hvalid a (or_introl eq_refl)); exact Ep].
  cbn [app List.length]. split; [| rewrite IH2; reflexivity].
  constructor; [| exact IH1].
  intros Hin. unfold pids_of in Hin. apply in_flat_map in Hin.
  destruct Hin as (u & Hu & Hin).
  destruct (Monitor.lookup h u) as [q |] eqn:Eq; [| contradiction].
  destruct Hin as [Hpq | []].
  assert (a = u).
  { apply (Hinj a u p q); [left; reflexivity | right; exact Hu | | |];
      auto. }
  subst u. inversion Hnd. contradiction.
Qed.

(** X16.  The census stays sound and is complete after a refresh.  In
    every state the monitor goes through, no pointer is twice in [pids_],
    every pointer is at a record, and no two records of the census carry
    the same PID; and when a refresh returns, every numeric name that
    [ls] found under /proc is the PID of a record of the new census. *)
Theorem census_sound_and_complete (cfg : Config.t) (m : Monitor.t) :
  operated cfg m ->
  NoDup (Monitor.pids_ m) /\
  NoDup (pids_of (Monitor.objects m) (Monitor.pids_ m)) /\
  List.length (pids_of (Monitor.objects m) (Monitor.pids_ m))
  = List.length (Monitor.pids_ m) /\
  forall w m1 names pid_nums,
    Monitor.update_pids_ w m = Ok m1 ->
    io.ls (Monitor.fs w) Monitor.PROC_FILES_MATCHER_ false = Ok names ->
    tools.convert_vector (tools.convert_int t_pid_t)
                         (filter Monitor.all_digits names) = Ok pid_nums ->
    NoDup (pids_of (Monitor.objects m1) (Monitor.pids_ m1)) /\
    forall x, In x pid_nums ->
              In x (pids_of (Monitor.objects m1) (Monitor.pids_ m1)).
Proof.
  intros Hop. destruct (operated_invariant cfg m Hop) as (_ & Hok & _).
  destruct (census_pids_of _ _ Hok) as [Hnd Hlen].
  split; [apply Hok |]. split; [exact Hnd |]. split; [exact Hlen |].
  intros w m1 names pid_nums Hup Hls Hnums.
  destruct (update_pids_census w m m1 Hup Hok) as (Hok1 & _ & Hall).
  split; [apply (census_pids_of _ _ Hok1) |].
  intros x Hx. destruct (Hall names pid_nums x Hls Hnums Hx) as (v & p & Hv & Hp & Hpid).
  unfold pids_of. apply in_flat_map. exists v. split; [exact Hv |].
  rewrite Hp. left. exact Hpid.
Qed.

Lemma census_sound_and_complete_witness :
  NoDup (Monitor.pids_ fixture.s2) /\
  NoDup (pids_of (Monitor.objects fixture.s2) (Monitor.pids_ fixture.s2)) /\
  List.length (pids_of (Monitor.objects fixture.s2) (Monitor.pids_ fixture.s2))
  = List.length (Monitor.pids_ fixture.s2) /\
  forall w m1 names pid_nums,
    Monitor.update_pids_ w fixture.s2 = Ok m1 ->
    io.ls (Monitor.fs w) Monitor.PROC_FILES_MATCHER_ false = Ok names ->
    tools.convert_vector (tools.convert_int t_pid_t)
                         (filter Monitor.all_digits names) = Ok pid_nums ->
    NoDup (pids_of (Monitor.objects m1) (Monitor.pids_ m1)) /\
    forall x, In x pid_nums ->
              In x (pids_of (Monitor.objects m1) (Monitor.pids_ m1)).
Proof.
  apply (census_sound_and_complete fixture.state_cfg fixture.s2).
  apply (op_SIGSTOP _ (fixture.one "R" "0" "2000") fixture.s1);
    [| vm_compute; reflexivity].
  apply (op_SIGSTOP _ (fixture.one "R" "0" "1000") fixture.s0);
    [| vm_compute; reflexivity].
  apply op_new.
Defined.

(** ** The signal operations return *)

Lemma pct_ready (h : Monitor.store) (v : Monitor.ptr) :
  Monitor.holds h Pid.is_ready v = true -> exists x, Monitor.pct h v = Ok x.
Proof.
  unfold Monitor.holds, Monitor.pct, Pid.pid_cpu_pct, Pid.assert_is_ready_,
    Pid.is_ready.
  destruct (Monitor.lookup h v) as [p |]; [| discriminate].
  intros H. cbn. rewrite H. cbn. eauto.
Qed.

Lemma min_element_from_total (h : Monitor.store) (rest : list Monitor.ptr) :
  forall smallest,
    (forall v, In v (smallest :: rest) ->
               Monitor.holds h Pid.is_ready v = true) ->
    exists x,
      Monitor.min_element_from
        (fun a b => x <- Monitor.pct h a ;; y <- Monitor.pct h b ;;
                    Ok (float32.ltb x y))
        smallest rest = Ok x.
Proof.
  induction rest as [| y rest IH]; intros smallest Hall; [cbn; eauto |].
  cbn [Monitor.min_element_from].
  destruct (pct_ready h y (Hall y (or_intror (or_introl eq_refl)))) as [py ->].
  destruct (pct_ready h smallest (Hall smallest (or_introl eq_refl))) as [ps ->].
  cbn [bind]. apply IH. intros v [<- | Hv].
  - destruct (float32.ltb py ps); apply Hall; cbn; auto.
  - apply Hall. right. right. exact Hv.
Qed.

Lemma max_element_from_total (h : Monitor.store) (rest : list Monitor.ptr) :
  forall largest,
    (forall v, In v (largest :: rest) ->
               Monitor.holds h Pid.is_ready v = true) ->
    exists x,
      Monitor.max_element_from
        (fun a b => x <- Monitor.pct h a ;; y <- Monitor.pct h b ;;
                    Ok (float32.gtb x y))
        largest rest = Ok x.
Proof.
  induction rest as [| y rest IH]; intros largest Hall; [cbn; eauto |].
  cbn [Monitor.max_element_from].
  destruct (pct_ready h largest (Hall largest (or_introl eq_refl))) as [pl ->].
  destruct (pct_ready h y (Hall y (or_intror (or_introl eq_refl)))) as [py ->].
  cbn [bind]. apply IH. intros v [<- | Hv].
  - destruct (float32.gtb pl py); apply Hall; cbn; auto.
  - apply Hall. right. right. exact Hv.
Qed.

Lemma ready_lookup (h : Monitor.store) (v : Monitor.ptr) :
  Monitor.holds h Pid.is_ready v = true -> Monitor.lookup h v <> None.
Proof.
  unfold Monitor.holds. destruct (Monitor.lookup h v); [discriminate |].
  discriminate.
Qed.

Lemma send_all_SIGSTOPs_total (available : list Monitor.ptr) :
  forall m,
    (forall v, In v available ->
               Monitor.lookup (Monitor.objects m) v <> None) ->
    exists m', Monitor.send_all_SIGSTOPs_ available m = Ok m'.
Proof.
  unfold Monitor.send_all_SIGSTOPs_.
  induction available as [| v av IH]; intros m Hall; [cbn; eauto |].
  cbn [for_each].
  destruct (Monitor.lookup (Monitor.objects m) v) as [p |] eqn:Ep;
    [| exfalso; apply (Hall v (or_introl eq_refl)); exact Ep].
  cbn [Config.deref bind]. apply IH. intros u Hu. cbn.
  rewrite lookup_assign. destruct (u =? v)%nat; [rewrite Ep; discriminate |].
  apply Hall. right. exact Hu.
Qed.

Lemma send_all_SIGCONTs_total (l : list Monitor.ptr) :
  forall m,
    (forall v, In v l -> Monitor.lookup (Monitor.objects m) v <> None) ->
    exists m',
      for_each
        (fun v m =>
           p <- Config.deref (Monitor.lookup (Monitor.objects m) v) ;;
           let m1 := Monitor.emit (Monitor.Kill (Pid.pid p) 18) m in
           Ok (Monitor.with_objects
                 (Monitor.assign (Monitor.objects m1) v (Pid.send_SIGCONT p))
                 m1))
        l m = Ok m'.
Proof.
  induction l as [| v l IH]; intros m Hall; [cbn; eauto |].
  cbn [for_each].
  destruct (Monitor.lookup (Monitor.objects m) v) as [p |] eqn:Ep;
    [| exfalso; apply (Hall v (or_introl eq_refl)); exact Ep].
  cbn [Config.deref bind]. apply IH. intros u Hu. cbn.
  rewrite lookup_assign. destruct (u =? v)%nat; [rewrite Ep; discriminate |].
  apply Hall. right. exact Hu.
Qed.

(** X17.  Once the refresh of the census has returned, the two signal
    operations return as well, in every state the monitor goes through:
    every share they compare belongs to a ready record (no
    [InternalError] from [pid_cpu_pct]) and every pointer they follow is at
    a record. *)
Theorem signal_operations_return (cfg : Config.t) (m : Monitor.t)
  (w : Monitor.world) (m1 : Monitor.t) :
  operated cfg m ->
  Config.use_SIGSTOP cfg = true ->
  Monitor.update_pids_ w m = Ok m1 ->
  (exists m', Monitor.exec_SIGSTOP_ w m = Ok m') /\
  (exists m', Monitor.exec_SIGCONT_ w m = Ok m').
Proof.
  intros Hop Hmode Hup.
  destruct (operated_invariant cfg m Hop) as (Hcfg & Hok & Hst).
  destruct (update_pids_vectors w m m1 Hup) as (Hcfg1 & _).
  pose proof (update_pids_stopped_ok w m m1 Hup Hok Hst) as [_ Hready1].
  assert (Hstep : exists b, Config.use_stepwise_SIGSTOP (Monitor.cfg_ m1) = Ok b).
  { unfold Config.use_stepwise_SIGSTOP, Config.assert_SIGSTOP_mode_.
    rewrite Hcfg1, Hcfg. unfold Config.use_SIGSTOP in Hmode. rewrite Hmode.
    cbn. eauto. }
  destruct Hstep as [stepwise Hstep].
  split.
  - unfold Monitor.exec_SIGSTOP_. rewrite Hup. cbn [bind]. cbv zeta.
    destruct (0 <? List.length (Monitor.find_SIGSTOP_available_pids_ m1))%nat;
      [| eauto].
    rewrite Hstep. cbn [bind].
    assert (Hav : forall v,
               In v (Monitor.find_SIGSTOP_available_pids_ m1) ->
               Monitor.holds (Monitor.objects m1) Pid.is_ready v = true).
    { intros v Hv. unfold Monitor.find_SIGSTOP_available_pids_ in Hv.
      apply filter_In in Hv. destruct Hv as [_ Hv].
      unfold Monitor.holds in Hv |- *.
      destruct (Monitor.lookup (Monitor.objects m1) v) as [p |]; [| discriminate].
      destruct (Pid.is_ready p); [reflexivity |].
      rewrite andb_false_r in Hv. discriminate. }
    destruct stepwise.
    + unfold Monitor.send_next_SIGSTOP_.
      destruct (Monitor.find_SIGSTOP_available_pids_ m1) as [| first rest];
        [eauto |].
      destruct (max_element_from_total (Monitor.objects m1) rest first Hav)
        as [x Hx].
      rewrite Hx. cbn [bind].
      apply max_element_from_In in Hx. apply Hav in Hx.
      apply ready_lookup in Hx.
      destruct (Monitor.lookup (Monitor.objects m1) x); [| contradiction].
      cbn. eauto.
    + apply send_all_SIGSTOPs_total. intros v Hv.
      apply ready_lookup. apply Hav. exact Hv.
  - unfold Monitor.exec_SIGCONT_.
    destruct (0 <? List.length (Monitor.self_stopped_pids_ m))%nat; [| eauto].
    rewrite Hup. cbn [bind]. rewrite Hstep. cbn [bind].
    destruct stepwise.
    + unfold Monitor.send_next_SIGCONT_.
      destruct (Monitor.self_stopped_pids_ m1) as [| first rest]; [eauto |].
      destruct (min_element_from_total (Monitor.objects m1) rest first Hready1)
        as [x Hx].
      rewrite Hx. cbn [bind].
      apply min_element_from_In in Hx. apply Hready1 in Hx.
      apply ready_lookup in Hx.
      destruct (Monitor.lookup (Monitor.objects m1) x); [| contradiction].
      cbn. eauto.
    + apply send_all_SIGCONTs_total. intros v Hv.
      apply ready_lookup. apply Hready1. exact Hv.
Qed.

Lemma signal_operations_return_witness :
  (exists m', Monitor.exec_SIGSTOP_ (fixture.one "R" "10" "2100") fixture.s2
              = Ok m') /\
  (exists m', Monitor.exec_SIGCONT_ (fixture.one "R" "10" "2100") fixture.s2
              = Ok m').
Proof.
  apply (signal_operations_return fixture.state_cfg fixture.s2
           (fixture.one "R" "10" "2100")
           (fixture.value fixture.s0
              (Monitor.update_pids_ (fixture.one "R" "10" "2100") fixture.s2))).
  - apply (op_SIGSTOP _ (fixture.one "R" "0" "2000") fixture.s1);
      [| vm_compute; reflexivity].
    apply (op_SIGSTOP _ (fixture.one "R" "0" "1000") fixture.s0);
      [| vm_compute; reflexivity].
    apply op_new.
  - vm_compute. reflexivity.
  - vm_compute. reflexivity.
Defined.

(** X18.  With stepwise stop off, [exec_SIGCONT_] continues every
    self-stopped record of the refreshed census, once each and in order;
    the pointers stay in [self_stopped_pids_] with their flag cleared, and
    the next refresh of the census empties the vector. *)
Theorem continue_all_then_refresh (w : Monitor.world) (m m' : Monitor.t) :
  Config.use_stepwise_SIGSTOP (Monitor.cfg_ m) = Ok false ->
  Monitor.exec_SIGCONT_ w m = Ok m' ->
  (forall v, In v (Monitor.self_stopped_pids_ m') ->
             Monitor.holds (Monitor.objects m') Pid.is_self_stopped v = false) /\
  (forall m1,
      Monitor.update_pids_ w m = Ok m1 ->
      kills (Monitor.effects m')
      = kills (Monitor.effects m)
        ++ List.map (fun pid => (pid, 18))
             (pids_of (Monitor.objects m1) (Monitor.self_stopped_pids_ m1))) /\
  (forall w' m'',
      Monitor.update_pids_ w' m' = Ok m'' ->
      Monitor.self_stopped_pids_ m'' = []).
Proof.
  intros Hstep H.
  assert (Hfirst : (forall v, In v (Monitor.self_stopped_pids_ m') ->
                      Monitor.holds (Monitor.objects m') Pid.is_self_stopped v
                      = false) /\
                   (forall m1,
                       Monitor.update_pids_ w m = Ok m1 ->
                       kills (Monitor.effects m')
                       = kills (Monitor.effects m)
                         ++ List.map (fun pid => (pid, 18))
                              (pids_of (Monitor.objects m1)
                                 (Monitor.self_stopped_pids_ m1)))).
  { unfold Monitor.exec_SIGCONT_ in H.
    destruct (Monitor.self_stopped_pids_ m) as [| v0 ss] eqn:Ess.
    - injection H as <-. rewrite Ess. split; [intros v [] |].
      intros m1 Hup.
      destruct (update_pids_vectors w m m1 Hup) as (_ & _ & h1 & Hss & _).
      rewrite Hss, Ess. cbn. rewrite app_nil_r. reflexivity.
    - cbn [List.length Nat.ltb Nat.leb] in H.
      apply bind_Ok in H. destruct H as (m1 & Hup & H).
      destruct (update_pids_vectors w m m1 Hup) as (Hcfg & Heff & _).
      rewrite Hcfg, Hstep in H. cbn [bind] in H.
      unfold Monitor.send_all_SIGCONTs_ in H.
      destruct (continue_loop _ _ _ H) as (_ & _ & Hss & _ & Hk & Hnew & _).
      split.
      + intros v Hv. apply Hnew. rewrite <- Hss. exact Hv.
      + intros m1' Hup'. rewrite Hup in Hup'. injection Hup' as <-.
        rewrite Hk, Heff. reflexivity. }
  destruct Hfirst as [Hflags Hkills].
  split; [exact Hflags |]. split; [exact Hkills |].
  intros w' m'' Hup.
  destruct (update_pids_anatomy w' m' m'' Hup)
    as (h1 & files & pid_nums & Hloop & _ & _ & _ & Hss & _).
  pose proof (refresh_updated _ _ _ _ _ Hloop) as Hupd.
  rewrite Hss. apply filter_none. intros v Hv.
  specialize (Hflags v Hv). specialize (Hupd v).
  unfold Monitor.holds in Hflags |- *.
  destruct (Monitor.lookup (Monitor.objects m') v) as [p |],
           (Monitor.lookup h1 v) as [p' |]; try contradiction; [| reflexivity].
  destruct Hupd as (_ & -> & _). rewrite Hflags. apply andb_false_r.
Qed.

Lemma continue_all_then_refresh_witness :
  (forall v,
      In v (Monitor.self_stopped_pids_
              (fixture.value fixture.s0
                 (Monitor.exec_SIGCONT_ (fixture.fourth_tick fixture.flipped_conf)
                    (fixture.value fixture.s0 fixture.all_stopped)))) ->
      Monitor.holds
        (Monitor.objects
           (fixture.value fixture.s0
              (Monitor.exec_SIGCONT_ (fixture.fourth_tick fixture.flipped_conf)
                 (fixture.value fixture.s0 fixture.all_stopped))))
        Pid.is_self_stopped v = false) /\
  (forall w' m'',
      Monitor.update_pids_ w'
        (fixture.value fixture.s0
           (Monitor.exec_SIGCONT_ (fixture.fourth_tick fixture.flipped_conf)
              (fixture.value fixture.s0 fixture.all_stopped))) = Ok m'' ->
      Monitor.self_stopped_pids_ m'' = []).
Proof.
  destruct (continue_all_then_refresh (fixture.fourth_tick fixture.flipped_conf)
              (fixture.value fixture.s0 fixture.all_stopped)
              (fixture.value fixture.s0
                 (Monitor.exec_SIGCONT_ (fixture.fourth_tick fixture.flipped_conf)
                    (fixture.value fixture.s0 fixture.all_stopped))))
    as (H1 & _ & H3); [vm_compute; reflexivity | vm_compute; reflexivity |].
  split; [exact H1 | exact H3].
Defined.


(** ** Throttling *)

Lemma any_above_spec (cur_speeds : list Z) :
  forall min_speeds,
    List.length cur_speeds = List.length min_speeds ->
    (Monitor.any_above cur_speeds min_speeds = true
     <-> above_min cur_speeds min_speeds).
Proof.
  unfold above_min.
  induction cur_speeds as [| c cur IH]; intros [| x mn] Hlen;
    simpl in Hlen; try discriminate.
  - simpl. split; [discriminate |].
    intros (i & c & x & H & _). destruct i; discriminate.
  - cbn [Monitor.any_above]. rewrite Z.gtb_ltb. destruct (x <? c) eqn:E.
    + split; [| reflexivity]. intros _.
      exists 0%nat, c, x. apply Z.ltb_lt in E. auto.
    + rewrite (IH mn) by lia. apply Z.ltb_ge in E. split.
      * intros (i & c' & x' & H1 & H2 & H3). exists (S i), c', x'. auto.
      * intros (i & c' & x' & H1 & H2 & H3). destruct i as [| i]; simpl in *.
        -- injection H1 as <-. injection H2 as <-. lia.
        -- exists i, c', x'. auto.
Qed.

(** The inner loop of the ladder step down, from any starting value. *)
Lemma next_lower_fold (speed : Z) (avail_speeds : list Z) :
  forall next,
    let r := fold_left
               (fun next v => if (v >? next) && (v <? speed) then v else next)
               avail_speeds next in
    next <= r /\
    (r = next \/ (In r avail_speeds /\ r < speed)) /\
    (forall u, In u avail_speeds -> u < speed -> u <= r).
Proof.
  induction avail_speeds as [| v l IH]; intros next; simpl.
  - split; [lia |]. split; [left; reflexivity |]. intros u [].
  - set (next' := if (v >? next) && (v <? speed) then v else next).
    destruct (IH next') as (H1 & H2 & H3).
    assert (Hn : next <= next' /\
                 (next' = next \/ (next' = v /\ v < speed)) /\
                 (v < speed -> v <= next')).
    { unfold next'. rewrite Z.gtb_ltb.
      destruct (next <? v) eqn:E1, (v <? speed) eqn:E2; simpl;
        try apply Z.ltb_lt in E1; try apply Z.ltb_ge in E1;
        try apply Z.ltb_lt in E2; try apply Z.ltb_ge in E2;
        (split; [lia |]); (split; [| lia]); auto. }
    destruct Hn as (Hn1 & Hn2 & Hn3).
    split; [lia |]. split.
    + destruct H2 as [H2 | [H2 H2']].
      * destruct Hn2 as [Hn2 | [Hn2 Hn2']].
        -- left. congruence.
        -- right. split; [left; congruence | lia].
      * right. split; [right; exact H2 | exact H2'].
    + intros u [<- | Hu] Hlt.
      * specialize (Hn3 Hlt). lia.
      * apply H3; assumption.
Qed.

Lemma next_lower_spec (avail_speeds : list Z) (speed x : Z) :
  In x avail_speeds -> x < speed -> 0 < x ->
  Monitor.next_lower avail_speeds speed <> 0 /\
  In (Monitor.next_lower avail_speeds speed) avail_speeds /\
  Monitor.next_lower avail_speeds speed < speed /\
  x <= Monitor.next_lower avail_speeds speed.
Proof.
  intros Hin Hlt Hpos.
  destruct (next_lower_fold speed avail_speeds 0) as (H1 & H2 & H3).
  fold (Monitor.next_lower avail_speeds speed) in H1, H2, H3.
  specialize (H3 x Hin Hlt).
  destruct H2 as [H2 | [H2 H2']]; [lia |].
  repeat split; try assumption; lia.
Qed.

(** X19.  One step down the ladder followed by one step up, and one step
    up followed by one step down, lead back to a ceiling that is on the
    ladder: [next_higher] and [next_lower] are inverse to each other
    wherever the first of the two finds a value. *)
Theorem ladder_steps_are_inverse (avail_speeds : list Z) (speed : Z) :
  In speed avail_speeds -> 0 < speed -> speed < ULONG_MAX ->
  (Monitor.next_lower avail_speeds speed <> 0 ->
   Monitor.next_higher avail_speeds (Monitor.next_lower avail_speeds speed)
   = speed) /\
  (Monitor.next_higher avail_speeds speed <> ULONG_MAX ->
   Monitor.next_lower avail_speeds (Monitor.next_higher avail_speeds speed)
   = speed).
Proof.
  intros Hin Hpos Hmax. split; intros Hne.
  - destruct (next_lower_fold speed avail_speeds 0) as (L1 & L2 & L3).
    fold (Monitor.next_lower avail_speeds speed) in L1, L2, L3.
    destruct L2 as [L2 | [L2 L2']]; [contradiction |].
    destruct (next_higher_spec avail_speeds
                (Monitor.next_lower avail_speeds speed) speed Hin L2' Hmax)
      as (_ & H2 & H3 & H4).
    destruct (Z.eq_dec
                (Monitor.next_higher avail_speeds
                   (Monitor.next_lower avail_speeds speed)) speed)
      as [E | E]; [exact E |].
    assert (Hlt : Monitor.next_higher avail_speeds
                    (Monitor.next_lower avail_speeds speed) < speed) by lia.
    specialize (L3 _ H2 Hlt). lia.
  - destruct (next_higher_fold speed avail_speeds ULONG_MAX) as (H1 & H2 & H3).
    fold (Monitor.next_higher avail_speeds speed) in H1, H2, H3.
    destruct H2 as [H2 | [H2 H2']]; [contradiction |].
    destruct (next_lower_spec avail_speeds
                (Monitor.next_higher avail_speeds speed) speed Hin H2' Hpos)
      as (_ & L2 & L3 & L4).
    destruct (Z.eq_dec
                (Monitor.next_lower avail_speeds
                   (Monitor.next_higher avail_speeds speed)) speed)
      as [E | E]; [exact E |].
    assert (Hlt : speed < Monitor.next_lower avail_speeds
                            (Monitor.next_higher avail_speeds speed)) by lia.
    specialize (H3 _ L2 Hlt). lia.
Qed.

Lemma ladder_steps_are_inverse_witness :
  Monitor.next_higher [800; 1200; 1800; 2400; 3000]
    (Monitor.next_lower [800; 1200; 1800; 2400; 3000] 1800) = 1800 /\
  Monitor.next_lower [800; 1200; 1800; 2400; 3000]
    (Monitor.next_higher [800; 1200; 1800; 2400; 3000] 1800) = 1800.
Proof.
  destruct (ladder_steps_are_inverse [800; 1200; 1800; 2400; 3000] 1800)
    as [H1 H2].
  - right. right. left. reflexivity.
  - reflexivity.
  - reflexivity.
  - split; [apply H1 | apply H2]; vm_compute; discriminate.
Defined.

Lemma min_value_In (v : list Z) (x : Z) :
  Monitor.min_value v = Ok x -> In x v.
Proof.
  destruct v as [| y v]; simpl; intros H; [discriminate |].
  injection H as <-.
  revert y. induction v as [| z v IH]; intros y; simpl; [auto |].
  destruct (IH (if z <? y then z else y)) as [H | H]; [| auto].
  destruct (z <? y); auto.
Qed.

Lemma lower_writes_In (scaling_avail : list (list Z)) (cur_speeds : list Z) :
  forall i j c,
    nth_error cur_speeds j = Some c ->
    Monitor.next_lower (nth (i + j) scaling_avail []) c <> 0 ->
    In ((i + j)%nat, Monitor.next_lower (nth (i + j) scaling_avail []) c)
       (lower_writes scaling_avail i cur_speeds).
Proof.
  induction cur_speeds as [| speed rest IH]; intros i j c Hj Hn.
  - destruct j; discriminate.
  - simpl. apply in_or_app. destruct j as [| j]; simpl in Hj.
    + injection Hj as ->. left.
      replace (i + 0)%nat with i in * by lia.
      destruct (Monitor.next_lower (nth i scaling_avail []) c =? 0) eqn:E.
      * apply Z.eqb_eq in E. contradiction.
      * left. reflexivity.
    + right. replace (i + S j)%nat with (S i + j)%nat in * by lia.
      apply IH; assumption.
Qed.

Lemma lowest_writes_In (cur_speeds : list Z) :
  forall min_freqs k i v,
    In (i, v) (lowest_writes k cur_speeds min_freqs) <->
    exists j c, i = (k + j)%nat /\ nth_error cur_speeds j = Some c /\
                nth_error min_freqs j = Some v /\ v < c.
Proof.
  induction cur_speeds as [| c cur IH]; intros [| mn mins] k i v.
  - simpl. split; [intros [] |]. intros (j & c & _ & H & _). destruct j; discriminate.
  - simpl. split; [intros [] |]. intros (j & c & _ & H & _). destruct j; discriminate.
  - simpl. split; [intros [] |].
    intros (j & c' & _ & _ & H & _). destruct j; discriminate.
  - cbn [lowest_writes]. rewrite in_app_iff, (IH mins (S k) i v). split.
    + intros [H | (j & c' & -> & H1 & H2 & H3)].
      * rewrite Z.gtb_ltb in H. destruct (mn <? c) eqn:E; [| contradiction].
        destruct H as [H | []]. injection H as <- <-.
        exists 0%nat, c. apply Z.ltb_lt in E.
        repeat split; [lia | exact E].
      * exists (S j), c'. repeat split; try assumption. lia.
    + intros (j & c' & -> & H1 & H2 & H3). destruct j as [| j]; simpl in H1, H2.
      * injection H1 as <-. injection H2 as <-. left.
        rewrite Z.gtb_ltb. apply Z.ltb_lt in H3. rewrite H3.
        left. f_equal. lia.
      * right. exists j, c'. repeat split; try assumption. lia.
Qed.

(** [throttle_lowest_] writes the hardware minimum where the ceiling is
    above it. *)
Lemma throttle_lowest_loop (fs : io.filesystem) (files_ : list string)
  (cur_speeds min_freqs : list Z) (n : nat) :
  io.FileCollection_read (tools.convert_int t_u_long) fs files_ = Ok cur_speeds ->
  forall k m,
    (k + n <= List.length files_)%nat ->
    (k + n <= List.length cur_speeds)%nat ->
    (k + n <= List.length min_freqs)%nat ->
    for_each
      (fun i m =>
         readings <- io.FileCollection_read (tools.convert_int t_u_long) fs
                                            files_ ;;
         cur_reading <- at_ readings i ;;
         min_freq <- at_ min_freqs i ;;
         if cur_reading >? min_freq
         then Monitor.overwrite files_ i min_freq m
         else Ok m)
      (seq k n) m
    = Ok (emit_all
            (List.map overwrite_event
               (lowest_writes k (firstn n (skipn k cur_speeds))
                              (firstn n (skipn k min_freqs)))) m).
Proof.
  intros Hread. induction n as [| n IH]; intros k m Hf Hc Hm.
  - simpl. rewrite emit_all_nil. reflexivity.
  - destruct (nth_error cur_speeds k) as [c |] eqn:Ec;
      [| apply nth_error_None in Ec; lia].
    destruct (nth_error min_freqs k) as [mn |] eqn:Em;
      [| apply nth_error_None in Em; lia].
    rewrite (skipn_nth_error cur_speeds k c Ec).
    rewrite (skipn_nth_error min_freqs k mn Em).
    change (seq k (S n)) with (k :: seq (S k) n).
    cbn [for_each firstn lowest_writes].
    rewrite Hread at 1. cbn [bind].
    unfold at_ at 1 2. rewrite Ec, Em. cbn [bind].
    destruct (c >? mn).
    + unfold Monitor.overwrite at 1.
      replace (k <? List.length files_)%nat with true
        by (symmetry; apply Nat.ltb_lt; lia).
      cbn [bind]. rewrite IH by lia.
      rewrite emit_all_emit. reflexivity.
    + cbn [bind app]. rewrite IH by lia. reflexivity.
Qed.

(** [throttle_next_lower_] writes the next lower ladder value where there
    is one. *)
Lemma throttle_next_lower_loop (files_ : list string)
  (scaling_avail : list (list Z)) (cur_speeds : list Z) :
  forall i m,
    Config.scaling_max_freq_files (Monitor.cfg_ m) = Ok files_ ->
    (i + List.length cur_speeds <= List.length files_)%nat ->
    (i + List.length cur_speeds <= List.length scaling_avail)%nat ->
    Monitor.throttle_next_lower_from scaling_avail i cur_speeds m
    = Ok (emit_all
            (List.map overwrite_event (lower_writes scaling_avail i cur_speeds))
            m).
Proof.
  induction cur_speeds as [| speed rest IH]; intros i m Hfiles Hf Ha.
  - simpl. rewrite emit_all_nil. reflexivity.
  - simpl in Hf, Ha.
    destruct (nth_error scaling_avail i) as [avail_speeds |] eqn:Ev;
      [| apply nth_error_None in Ev; lia].
    cbn [Monitor.throttle_next_lower_from lower_writes].
    unfold at_ at 1. rewrite Ev. cbn [bind].
    rewrite (nth_error_nth scaling_avail i [] Ev).
    destruct (Monitor.next_lower avail_speeds speed =? 0);
      cbn [negb bind app].
    + apply IH; [exact Hfiles | lia | lia].
    + rewrite Hfiles. cbn [bind]. unfold Monitor.overwrite.
      replace (i <? List.length files_)%nat with true
        by (symmetry; apply Nat.ltb_lt; lia).
      cbn [bind List.map app]. rewrite IH by (try exact Hfiles; lia).
      rewrite emit_all_emit. reflexivity.
Qed.

Lemma min_value_fold (v : list Z) :
  forall y0,
    let r := fold_left (fun smallest y => if y <? smallest then y else smallest)
                       v y0 in
    r <= y0 /\ forall y, In y v -> r <= y.
Proof.
  induction v as [| z v IH]; intros y0; simpl.
  - split; [lia | intros y []].
  - destruct (IH (if z <? y0 then z else y0)) as [H1 H2].
    assert (Hz : (if z <? y0 then z else y0) <= y0 /\
                 (if z <? y0 then z else y0) <= z).
    { destruct (z <? y0) eqn:E;
        [apply Z.ltb_lt in E | apply Z.ltb_ge in E]; lia. }
    split; [lia |]. intros y [<- | Hy]; [lia | apply H2; exact Hy].
Qed.

(** [min_element] finds the minimum of a ladder. *)
Lemma min_value_is_min (ladder : list Z) (x : Z) :
  is_min_of ladder x -> Monitor.min_value ladder = Ok x.
Proof.
  intros [Hin Hmin].
  destruct (Monitor.min_value ladder) as [r | k |] eqn:E;
    [| destruct ladder; [destruct Hin | discriminate]
     | destruct ladder; [destruct Hin | discriminate]].
  pose proof (min_value_In ladder r E) as Hr.
  destruct ladder as [| y v]; [destruct Hin |].
  cbn [Monitor.min_value] in E. injection E as E.
  destruct (min_value_fold v y) as [H1 H2]. cbv zeta in H1, H2.
  rewrite E in H1, H2.
  assert (r <= x) by (destruct Hin as [<- | Hin]; [exact H1 | apply H2; exact Hin]).
  pose proof (Hmin r Hr). f_equal. lia.
Qed.

(** The minima that [is_above_min_speed_] compares with. *)
Lemma minima_min_speeds (cfg : Config.t) (files_ : list string)
  (min_speeds : list Z) :
  Config.scaling_max_freq_files cfg = Ok files_ ->
  minima cfg min_speeds ->
  Monitor.min_speeds_ cfg = Ok min_speeds.
Proof.
  intros Hfiles Hmin.
  assert (Hmode : Config.assert_throttle_mode_ cfg = Ok tt).
  { unfold Config.scaling_max_freq_files in Hfiles.
    destruct (Config.assert_throttle_mode_ cfg) as [[] | k |];
      [reflexivity | discriminate | discriminate]. }
  unfold Monitor.min_speeds_, Config.use_scaling_available,
    Config.scaling_available_frequencies, Config.cpuinfo_min_freqs.
  rewrite Hmode. cbn [bind]. unfold minima in Hmin.
  destruct (Config.use_scaling_available_ cfg).
  - apply (map_outcome_Forall2 _ is_min_of min_value_is_min). exact Hmin.
  - rewrite Hmin. reflexivity.
Qed.

Lemma minima_ladder (cfg : Config.t) (avail : list (list Z))
  (min_speeds : list Z) :
  Config.use_scaling_available_ cfg = true ->
  Config.scaling_available_frequencies_ cfg = avail ->
  Forall2 is_min_of avail min_speeds ->
  minima cfg min_speeds.
Proof. intros Hu <- H. unfold minima. rewrite Hu. exact H. Qed.

Lemma minima_hardware (cfg : Config.t) (min_speeds : list Z) :
  Config.use_scaling_available_ cfg = false ->
  Config.cpuinfo_min_freqs_ cfg = min_speeds ->
  minima cfg min_speeds.
Proof. intros Hu H. unfold minima. rewrite Hu. exact H. Qed.

(** What the search of [throttle_next_lower_] returns when it returns a
    value to write. *)
Lemma next_lower_iff (ladder : list Z) (speed v : Z) :
  Monitor.next_lower ladder speed = v /\ v <> 0
  <-> is_next_lower ladder speed v.
Proof.
  destruct (next_lower_fold speed ladder 0) as (Hle & Hcase & Hmost).
  cbv zeta in Hle, Hcase, Hmost.
  change (fold_left
            (fun next v0 => if (v0 >? next) && (v0 <? speed) then v0 else next)
            ladder 0)
    with (Monitor.next_lower ladder speed) in Hle, Hcase, Hmost.
  unfold is_next_lower. split.
  - intros [<- Hne].
    destruct Hcase as [Hc | [Hin Hlt]]; [contradiction |].
    repeat split; [exact Hin | exact Hlt | lia | exact Hmost].
  - intros (Hin & Hlt & Hpos & Hmax).
    pose proof (Hmost v Hin Hlt) as Hvr.
    destruct Hcase as [Hc | [Hin' Hlt']]; [lia |].
    pose proof (Hmax _ Hin' Hlt'). split; lia.
Qed.

Lemma lower_writes_iff (scaling_avail : list (list Z)) (cur_speeds : list Z) :
  forall k i v,
    In (i, v) (lower_writes scaling_avail k cur_speeds) <->
    exists j c, i = (k + j)%nat /\ nth_error cur_speeds j = Some c /\
                v = Monitor.next_lower (nth i scaling_avail []) c /\
                v <> 0.
Proof.
  induction cur_speeds as [| speed rest IH]; intros k i v.
  - cbn [lower_writes]. split; [intros [] |].
    intros (j & c & _ & H & _). destruct j; discriminate H.
  - cbn [lower_writes]. cbv zeta. rewrite in_app_iff, IH. split.
    + intros [H | (j & c & -> & Hc & Hv & Hne)].
      * destruct (Monitor.next_lower (nth k scaling_avail []) speed =? 0)
          eqn:E; [destruct H |].
        apply Z.eqb_neq in E. destruct H as [H | []].
        injection H as <- <-. exists 0%nat, speed.
        rewrite Nat.add_0_r. repeat split. exact E.
      * exists (S j), c. rewrite Nat.add_succ_r. repeat split; assumption.
    + intros (j & c & -> & Hc & Hv & Hne). destruct j as [| j].
      * left. cbn [nth_error] in Hc. injection Hc as <-.
        rewrite Nat.add_0_r in *. rewrite <- Hv.
        apply Z.eqb_neq in Hne. rewrite Hne. left. reflexivity.
      * right. exists j, c. rewrite Nat.add_succ_r in *.
        repeat split; assumption.
Qed.

(** X20.  Let the [scaling_max_freq] files hold one ceiling each, and let
    [min_speeds] hold for each CPU its hardware minimum or, with the
    ladder in use, the minimum of its ladder.  When no ceiling is above
    its minimum, [exec_throttle_] returns the monitor as it was.  When one
    is, it logs "Throttling CPU." and then only writes ceilings: without
    the ladder, the hardware minimum to exactly the CPUs whose ceiling is
    above it; with the ladder, to each CPU, the greatest ladder value
    below its ceiling when there is one above 0, and nothing else, so
    every CPU above a positive ladder minimum is written. *)
Theorem exec_throttle_acts_iff_above_min
  (w : Monitor.world) (m : Monitor.t) (files_ : list string)
  (cur_speeds min_speeds : list Z) :
  Config.scaling_max_freq_files (Monitor.cfg_ m) = Ok files_ ->
  io.FileCollection_read (tools.convert_int t_u_long) (Monitor.fs w) files_
  = Ok cur_speeds ->
  minima (Monitor.cfg_ m) min_speeds ->
  List.length cur_speeds = List.length min_speeds ->
  List.length files_ = List.length cur_speeds ->
  (~ above_min cur_speeds min_speeds -> Monitor.exec_throttle_ w m = Ok m) /\
  (above_min cur_speeds min_speeds ->
   exists ws,
     Monitor.exec_throttle_ w m
     = Ok (emit_all (Monitor.Log "Throttling CPU."
                     :: List.map overwrite_event ws) m) /\
     (Config.use_scaling_available_ (Monitor.cfg_ m) = false ->
      forall i v,
        In (i, v) ws <->
        exists c, nth_error cur_speeds i = Some c /\
                  nth_error min_speeds i = Some v /\ v < c) /\
     (Config.use_scaling_available_ (Monitor.cfg_ m) = true ->
      (forall i v,
          In (i, v) ws <->
          exists c ladder,
            nth_error cur_speeds i = Some c /\
            nth_error (Config.scaling_available_frequencies_ (Monitor.cfg_ m)) i
            = Some ladder /\
            is_next_lower ladder c v) /\
      (forall i c x,
          nth_error cur_speeds i = Some c ->
          nth_error min_speeds i = Some x ->
          x < c -> 0 < x ->
          exists v, In (i, v) ws /\ x <= v < c))).
Proof.
  intros Hfiles Hread Hminima Hlen Hflen.
  pose proof (minima_min_speeds _ _ _ Hfiles Hminima) as Hmin.
  assert (Hguard : forall b,
             Monitor.any_above cur_speeds min_speeds = b ->
             Monitor.is_above_min_speed_ (Monitor.cfg_ m) cur_speeds = Ok b).
  { intros b <-. unfold Monitor.is_above_min_speed_. rewrite Hmin. simpl.
    rewrite Hlen, Nat.eqb_refl. reflexivity. }
  split.
  - intros Hnot. unfold Monitor.exec_throttle_.
    rewrite Hfiles. simpl. rewrite Hread. simpl.
    rewrite (Hguard false); [reflexivity |].
    destruct (Monitor.any_above cur_speeds min_speeds) eqn:E; [| reflexivity].
    exfalso. apply Hnot. apply any_above_spec; assumption.
  - intros Habove. apply (any_above_spec cur_speeds min_speeds Hlen) in Habove.
    unfold Monitor.exec_throttle_.
    rewrite Hfiles. simpl. rewrite Hread. simpl.
    rewrite (Hguard true Habove). simpl.
    unfold Monitor.min_speeds_ in Hmin.
    apply bind_Ok in Hmin. destruct Hmin as (use_scaling & Huse & Hmin).
    rewrite Huse. simpl.
    assert (Hflag : Config.use_scaling_available_ (Monitor.cfg_ m) = use_scaling).
    { unfold Config.use_scaling_available in Huse.
      apply bind_Ok in Huse. destruct Huse as (u & _ & Huse).
      injection Huse as <-. reflexivity. }
    destruct use_scaling.
    + (* the ladder *)
      apply bind_Ok in Hmin. destruct Hmin as (avail & Havail & Hmin).
      pose proof (map_outcome_length _ _ _ Hmin) as Hal.
      assert (Hav : Config.scaling_available_frequencies_ (Monitor.cfg_ m)
                    = avail).
      { unfold Config.scaling_available_frequencies in Havail.
        apply bind_Ok in Havail. destruct Havail as (u & _ & Havail).
        injection Havail as <-. reflexivity. }
      unfold Monitor.throttle_next_lower_. simpl.
      rewrite Havail. simpl.
      rewrite (throttle_next_lower_loop files_)
        by (try exact Hfiles; simpl; lia).
      rewrite emit_all_emit.
      exists (lower_writes avail 0 cur_speeds).
      split; [reflexivity |]. split; [intros H; congruence |].
      intros _. rewrite Hav. split.
      * intros i v. rewrite lower_writes_iff. cbn [Nat.add]. split.
        -- intros (j & c & -> & Hc & Hv & Hne).
           assert (Hi : (j < List.length avail)%nat).
           { assert (j < List.length cur_speeds)%nat
               by (apply nth_error_Some; congruence). lia. }
           destruct (nth_error avail j) as [ladder |] eqn:El;
             [| apply nth_error_None in El; lia].
           exists c, ladder. split; [exact Hc |]. split; [reflexivity |].
           apply next_lower_iff. split; [| exact Hne].
           rewrite Hv, (nth_error_nth avail j [] El). reflexivity.
        -- intros (c & ladder & Hc & El & Hnext).
           apply next_lower_iff in Hnext. destruct Hnext as [Hv Hne].
           exists i, c. split; [reflexivity |]. split; [exact Hc |].
           rewrite (nth_error_nth avail i [] El). split; [symmetry |]; assumption.
      * intros i c x Hc Hx Hlt Hpos.
        destruct (nth_error avail i) as [ladder |] eqn:El;
          [| apply nth_error_None in El;
             assert (i < List.length min_speeds)%nat
               by (apply nth_error_Some; congruence); lia].
        destruct (map_outcome_nth _ _ _ _ _ Hmin El) as (x' & Hx' & Hnx).
        assert (x' = x) by congruence. subst x'.
        apply min_value_In in Hx'.
        destruct (next_lower_spec ladder c x Hx' Hlt Hpos)
          as (Hne & _ & Hgt & Hle).
        exists (Monitor.next_lower ladder c). split; [| lia].
        pose proof (lower_writes_In avail cur_speeds 0 i c Hc) as Hin.
        simpl in Hin. rewrite (nth_error_nth avail i [] El) in Hin.
        apply Hin. exact Hne.
    + (* hardware minimum *)
      unfold Monitor.throttle_lowest_. simpl.
      rewrite Hmin. simpl. rewrite Hfiles. simpl.
      rewrite (throttle_lowest_loop (Monitor.fs w) files_ cur_speeds min_speeds
                 (List.length files_) Hread 0) by (simpl; lia).
      rewrite emit_all_emit. simpl skipn.
      replace (firstn (List.length files_) cur_speeds) with cur_speeds
        by (rewrite Hflen, firstn_all; reflexivity).
      replace (firstn (List.length files_) min_speeds) with min_speeds
        by (rewrite Hflen, Hlen, firstn_all; reflexivity).
      exists (lowest_writes 0 cur_speeds min_speeds).
      split; [reflexivity |]. split; [| intros H; congruence].
      intros _ i v. rewrite lowest_writes_In. split.
      * intros (j & c & -> & H). exists c. exact H.
      * intros (c & H). exists i, c. split; [reflexivity | exact H].
Qed.

(** The theorem on the two-CPU machine.  Without the ladder (hardware
    minimum 800): at 800 and 800 nothing happens; at 800 and 3000 the log
    line is followed by a write of 800 to the second CPU only.  With the
    ladder 800, 1200, 1800, 2400, 3000: at 800 and 800 nothing happens; at
    800 and 3000 the log line is followed by writes among which 2400 goes
    to the second CPU and nothing to the first. *)
Lemma exec_throttle_acts_iff_above_min_witness :
  (Monitor.exec_throttle_ (fixture.throttle_machine [] "800" "800")
                          (Monitor.new fixture.throttle_cfg)
   = Ok (Monitor.new fixture.throttle_cfg) /\
   exists ws,
     Monitor.exec_throttle_ (fixture.throttle_machine [] "800" "3000")
                            (Monitor.new fixture.throttle_cfg)
     = Ok (emit_all (Monitor.Log "Throttling CPU."
                     :: List.map overwrite_event ws)
                    (Monitor.new fixture.throttle_cfg)) /\
     In (1%nat, 800) ws /\ ~ In (0%nat, 800) ws) /\
  (Monitor.exec_throttle_ (fixture.throttle_machine [] "800" "800")
                          (Monitor.new fixture.ladder_cfg)
   = Ok (Monitor.new fixture.ladder_cfg) /\
   exists ws,
     Monitor.exec_throttle_ (fixture.throttle_machine [] "800" "3000")
                            (Monitor.new fixture.ladder_cfg)
     = Ok (emit_all (Monitor.Log "Throttling CPU."
                     :: List.map overwrite_event ws)
                    (Monitor.new fixture.ladder_cfg)) /\
     In (1%nat, 2400) ws /\ forall v, ~ In (0%nat, v) ws).
Proof.
  assert (Hhw : minima (Monitor.cfg_ (Monitor.new fixture.throttle_cfg))
                       [800; 800]).
  { apply minima_hardware; vm_compute; reflexivity. }
  assert (Hladder : minima (Monitor.cfg_ (Monitor.new fixture.ladder_cfg))
                           [800; 800]).
  { apply (minima_ladder _ [[800; 1200; 1800; 2400; 3000];
                            [800; 1200; 1800; 2400; 3000]]);
      [vm_compute; reflexivity | vm_compute; reflexivity |].
    repeat (constructor;
            [split; [cbn [In]; auto 10
                    | intros y Hy; cbn [In] in Hy; lia]
            |]).
    constructor. }
  assert (Hidle : ~ above_min [800; 800] [800; 800]).
  { intros (i & c & x & H1 & H2 & H3).
    destruct i as [| [| [| i]]]; simpl in H1, H2; try discriminate;
      injection H1 as <-; injection H2 as <-; lia. }
  split; split.
  - exact (proj1 (exec_throttle_acts_iff_above_min
                    (fixture.throttle_machine [] "800" "800")
                    (Monitor.new fixture.throttle_cfg)
                    (fixture.cpufreq "scaling_max_freq")
                    [800; 800] [800; 800] eq_refl eq_refl Hhw eq_refl eq_refl)
                 Hidle).
  - destruct (exec_throttle_acts_iff_above_min
                (fixture.throttle_machine [] "800" "3000")
                (Monitor.new fixture.throttle_cfg)
                (fixture.cpufreq "scaling_max_freq")
                [800; 3000] [800; 800] eq_refl eq_refl Hhw eq_refl eq_refl)
      as (_ & H).
    destruct H as (ws & H1 & H2 & _).
    + exists 1%nat, 3000, 800. repeat split.
    + exists ws. split; [exact H1 |].
      assert (Hflag : Config.use_scaling_available_
                        (Monitor.cfg_ (Monitor.new fixture.throttle_cfg))
                      = false) by (vm_compute; reflexivity).
      split.
      * apply (H2 Hflag). exists 3000. repeat split.
      * intros Hin. apply (H2 Hflag) in Hin.
        destruct Hin as (c & Hc & _ & Hlt). simpl in Hc.
        injection Hc as <-. lia.
  - exact (proj1 (exec_throttle_acts_iff_above_min
                    (fixture.throttle_machine [] "800" "800")
                    (Monitor.new fixture.ladder_cfg)
                    (fixture.cpufreq "scaling_max_freq")
                    [800; 800] [800; 800] eq_refl eq_refl Hladder
                    eq_refl eq_refl)
                 Hidle).
  - destruct (exec_throttle_acts_iff_above_min
                (fixture.throttle_machine [] "800" "3000")
                (Monitor.new fixture.ladder_cfg)
                (fixture.cpufreq "scaling_max_freq")
                [800; 3000] [800; 800] eq_refl eq_refl Hladder eq_refl eq_refl)
      as (_ & H).
    destruct H as (ws & H1 & _ & H2).
    + exists 1%nat, 3000, 800. repeat split.
    + destruct H2 as [Hiff _]; [vm_compute; reflexivity |].
      assert (E : forall i,
                 nth_error
                   (Config.scaling_available_frequencies_
                      (Monitor.cfg_ (Monitor.new fixture.ladder_cfg))) i
                 = nth_error [[800; 1200; 1800; 2400; 3000];
                              [800; 1200; 1800; 2400; 3000]] i)
        by (intros i; vm_compute; reflexivity).
      exists ws. split; [exact H1 |]. split.
      * apply Hiff. exists 3000, [800; 1200; 1800; 2400; 3000].
        split; [reflexivity |]. split; [rewrite E; reflexivity |].
        unfold is_next_lower. split; [cbn [In]; auto 10 |].
        split; [lia |]. split; [lia |].
        intros y Hy Hlt. cbn [In] in Hy. lia.
      * intros v Hin. apply Hiff in Hin.
        destruct Hin as (c & ladder & Hc & Hl & Hn).
        cbn [nth_error] in Hc. injection Hc as <-.
        rewrite E in Hl. cbn [nth_error] in Hl. injection Hl as <-.
        destruct Hn as (Hv & Hlt & _). cbn [In] in Hv. lia.
Defined.


(** ** The sensor reading and the loop of [run_] *)

(** X21.  [max_line] on the thermal files returns the largest of all
    lines read, a reading that is there; when the files hold no line at all
    it dereferences the end of an empty vector, which is undefined. *)
Theorem max_line_is_the_hottest (cfg : Config.t) (fs : io.filesystem)
  (files : list string) (readings : list Z) :
  Config.thermal_files_ cfg = Some files ->
  io.FileCollection_read (tools.convert_int t_u_long) fs files = Ok readings ->
  (readings = [] -> Monitor.max_line cfg fs = Undefined) /\
  (readings <> [] ->
   exists t, Monitor.max_line cfg fs = Ok t /\ In t readings /\
             forall r, In r readings -> r <= t).
Proof.
  intros Hfiles Hread. unfold Monitor.max_line.
  rewrite Hfiles. cbn [Config.deref bind]. rewrite Hread. cbn [bind].
  split; [intros ->; reflexivity |].
  intros Hne. destruct readings as [| x v]; [contradiction |].
  eexists. split; [reflexivity |]. split.
  - apply max_value_In. reflexivity.
  - destruct (max_value_fold v x) as [H1 H2].
    intros r [<- | Hr]; [exact H1 | apply H2; exact Hr].
Qed.

Lemma max_line_is_the_hottest_witness :
  Monitor.max_line fixture.throttle_cfg
    (Monitor.fs (fixture.heated [] "3000" "3000")) = Undefined /\
  exists t,
    Monitor.max_line fixture.throttle_cfg
      (Monitor.fs (fixture.heated ["61000"; "67000"] "3000" "3000")) = Ok t /\
    In t [61000; 67000] /\ forall r, In r [61000; 67000] -> r <= t.
Proof.
  split.
  - refine (proj1 (max_line_is_the_hottest fixture.throttle_cfg
                     (Monitor.fs (fixture.heated [] "3000" "3000"))
                     [fixture.thermal_file] [] _ _) eq_refl);
      vm_compute; reflexivity.
  - refine (proj2 (max_line_is_the_hottest fixture.throttle_cfg
                     (Monitor.fs (fixture.heated ["61000"; "67000"] "3000" "3000"))
                     [fixture.thermal_file] [61000; 67000] _ _) _);
      [vm_compute; reflexivity | vm_compute; reflexivity | discriminate].
Defined.

Lemma gtb_false (a b : Z) : a <= b -> (a >? b) = false.
Proof. intros H. rewrite Z.gtb_ltb. apply Z.ltb_ge. exact H. Qed.

Lemma gtb_true (a b : Z) : b < a -> (a >? b) = true.
Proof. intros H. rewrite Z.gtb_ltb. apply Z.ltb_lt. exact H. Qed.

(** X22.  One round of [run_] between the thresholds does nothing.  When
    the hottest reading is neither above the upper threshold nor below the
    lower threshold of any enabled mode, the round returns the monitor as
    it was.  With both modes enabled, a reading above one of the two upper
    thresholds only runs the operations of the thresholds it exceeds, and
    neither [exec_dethrottle_] nor [exec_SIGCONT_], whatever the lower
    thresholds are.  With no mode enabled [run_] throws
    [InternalError]. *)
Theorem run_iteration_hysteresis (w : Monitor.world) (m : Monitor.t)
  (max_temp : Z) :
  Monitor.max_line (Monitor.cfg_ m) (Monitor.fs w) = Ok max_temp ->
  ((Config.use_throttle (Monitor.cfg_ m) = true ->
    Config.temp_dethrottle_ (Monitor.cfg_ m) <= max_temp
    <= Config.temp_throttle_ (Monitor.cfg_ m)) ->
   (Config.use_SIGSTOP (Monitor.cfg_ m) = true ->
    Config.temp_SIGCONT_ (Monitor.cfg_ m) <= max_temp
    <= Config.temp_SIGSTOP_ (Monitor.cfg_ m)) ->
   Config.use_throttle (Monitor.cfg_ m) || Config.use_SIGSTOP (Monitor.cfg_ m)
   = true ->
   Monitor.run_iteration_ w m = Ok m) /\
  (Config.use_throttle (Monitor.cfg_ m) = true ->
   Config.use_SIGSTOP (Monitor.cfg_ m) = true ->
   Config.temp_throttle_ (Monitor.cfg_ m) < max_temp \/
   Config.temp_SIGSTOP_ (Monitor.cfg_ m) < max_temp ->
   Monitor.run_iteration_ w m
   = (m1 <- (if Config.temp_throttle_ (Monitor.cfg_ m) <? max_temp
             then Monitor.exec_throttle_ w m else Ok m) ;;
      if Config.temp_SIGSTOP_ (Monitor.cfg_ m) <? max_temp
      then Monitor.exec_SIGSTOP_ w m1 else Ok m1)) /\
  (Config.use_throttle (Monitor.cfg_ m) = false ->
   Config.use_SIGSTOP (Monitor.cfg_ m) = false ->
   Monitor.run_iteration_ w m = Raise InternalError).
Proof.
  intros Hmax. unfold Config.use_throttle, Config.use_SIGSTOP.
  unfold Monitor.run_iteration_, Monitor.when_, Monitor.above, Monitor.below,
    Pid.orelse, Config.temp_throttle, Config.temp_dethrottle,
    Config.temp_SIGSTOP, Config.temp_SIGCONT, Config.assert_throttle_mode_,
    Config.assert_SIGSTOP_mode_, Config.use_throttle, Config.use_SIGSTOP.
  cbv zeta. rewrite Hmax.
  split; [| split].
  - intros Ht Hs Hany.
    destruct (Config.use_throttle_ (Monitor.cfg_ m)),
             (Config.use_SIGSTOP_ (Monitor.cfg_ m));
      try discriminate Hany; cbn [andb negb bind];
      try specialize (Ht eq_refl); try specialize (Hs eq_refl);
      rewrite ?(gtb_false max_temp _ (proj2 Ht)),
              ?(gtb_false max_temp _ (proj2 Hs));
      cbn [bind];
      rewrite ?(proj2 (Z.ltb_ge max_temp _) (proj1 Ht)),
              ?(proj2 (Z.ltb_ge max_temp _) (proj1 Hs));
      reflexivity.
  - intros -> -> Habove. cbn [andb negb bind].
    rewrite !Z.gtb_ltb.
    destruct (Config.temp_throttle_ (Monitor.cfg_ m) <? max_temp) eqn:E1;
      cbn [bind].
    + destruct (Monitor.exec_throttle_ w m) as [m1 | k |]; cbn [bind];
        reflexivity.
    + destruct (Config.temp_SIGSTOP_ (Monitor.cfg_ m) <? max_temp) eqn:E2;
        cbn [bind]; [reflexivity |].
      apply Z.ltb_ge in E1. apply Z.ltb_ge in E2. lia.
  - intros -> ->. reflexivity.
Qed.

Lemma run_iteration_hysteresis_witness :
  Monitor.run_iteration_ (fixture.heated ["61000"; "65000"] "1200" "3000")
                         (Monitor.new fixture.throttle_cfg)
  = Ok (Monitor.new fixture.throttle_cfg).
Proof.
  refine (proj1 (run_iteration_hysteresis
                   (fixture.heated ["61000"; "65000"] "1200" "3000")
                   (Monitor.new fixture.throttle_cfg) 65000 _) _ _ _);
    try (vm_compute; reflexivity).
  - intros _. vm_compute. split; discriminate.
  - intros H. vm_compute in H. discriminate H.
Defined.


(** ** The aggregate CPU time *)

Lemma int_wrap_shift (a k : Z) : int_wrap (a + k * 2 ^ 32) = int_wrap a.
Proof.
  unfold int_wrap.
  replace (a + k * 2 ^ 32 + 2 ^ 31) with (a + 2 ^ 31 + k * 2 ^ 32) by ring.
  rewrite Z_mod_plus_full. reflexivity.
Qed.

Lemma accumulate_step (init v : Z) :
  int_wrap (u_long_wrap (u_long_wrap init + v)) = int_wrap (init + v).
Proof.
  unfold u_long_wrap.
  rewrite (Z.mod_eq (init mod 2 ^ 64 + v) (2 ^ 64)) by (compute; discriminate).
  rewrite (Z.mod_eq init (2 ^ 64)) by (compute; discriminate).
  generalize (init / 2 ^ 64). intros q1.
  generalize ((init - 2 ^ 64 * q1 + v) / 2 ^ 64). intros q2.
  replace (init - 2 ^ 64 * q1 + v - 2 ^ 64 * q2)
    with (init + v + (- (q1 + q2) * 2 ^ 32) * 2 ^ 32) by ring.
  apply int_wrap_shift.
Qed.

Lemma int_wrap_add (a v : Z) : int_wrap (int_wrap a + v) = int_wrap (a + v).
Proof.
  unfold int_wrap at 2.
  rewrite (Z.mod_eq (a + 2 ^ 31) (2 ^ 32)) by (compute; discriminate).
  generalize ((a + 2 ^ 31) / 2 ^ 32). intros q.
  replace (a + 2 ^ 31 - 2 ^ 32 * q - 2 ^ 31 + v)
    with (a + v + (- q) * 2 ^ 32) by ring.
  apply int_wrap_shift.
Qed.

Lemma accumulate_int_fold (l : list Z) :
  forall a,
    fold_left (fun init v => int_wrap (u_long_wrap (u_long_wrap init + v)))
              l (int_wrap a)
    = int_wrap (a + fold_right Z.add 0 l).
Proof.
  induction l as [| v l IH]; intros a; cbn [fold_left fold_right].
  - rewrite Z.add_0_r. reflexivity.
  - rewrite accumulate_step, int_wrap_add, IH. f_equal. ring.
Qed.

Lemma convert_int_u_long_range (s : string) (z : Z) :
  tools.convert_int t_u_long s = Ok z -> 0 <= z.
Proof.
  unfold tools.convert_int. intros H.
  destruct (NilZero.int_of_string s) as [d |]; [| discriminate].
  cbv zeta in H.
  destruct (in_range t_u_long (Z.of_int d)) eqn:E; [| discriminate].
  destruct (String.eqb (tools.to_string (Z.of_int d)) s); [| discriminate].
  injection H as <-. unfold in_range in E.
  apply andb_true_iff in E. destruct E as [E _]. apply Z.leb_le. exact E.
Qed.

(** X23.  The aggregate CPU time is the sum of the first four counters of
    the first line of /proc/stat, accumulated in an [int]: the sum is
    reduced to 32 bits, read as a signed number and converted back to
    [u_long].  It is the true sum up to [INT_MAX]; from there to
    [UINT_MAX] it is the sum plus 2^64 - 2^32. *)
Theorem aggregate_cpu_time_is_summed_in_int
  (cfg : Config.t) (fs : io.filesystem) (file line : string)
  (more : list string) (label a b c d : string) (rest : list string)
  (A B C D : Z) :
  Config.proc_stat_file cfg = Ok file ->
  io.File_read tools.convert_string fs file = Ok (line :: more) ->
  tools.split line " " = label :: a :: b :: c :: d :: rest ->
  tools.convert_int t_u_long a = Ok A ->
  tools.convert_int t_u_long b = Ok B ->
  tools.convert_int t_u_long c = Ok C ->
  tools.convert_int t_u_long d = Ok D ->
  Monitor.sum_cur_cpu_time_ cfg fs
  = Ok (u_long_wrap (int_wrap (A + B + C + D))) /\
  (A + B + C + D <= INT_MAX ->
   Monitor.sum_cur_cpu_time_ cfg fs = Ok (A + B + C + D)) /\
  (INT_MAX < A + B + C + D <= UINT_MAX ->
   Monitor.sum_cur_cpu_time_ cfg fs = Ok (A + B + C + D + (2 ^ 64 - 2 ^ 32))).
Proof.
  intros Hfile Hread Hsplit Ha Hb Hc Hd.
  assert (Hsum : Monitor.sum_cur_cpu_time_ cfg fs
                 = Ok (u_long_wrap (int_wrap (A + B + C + D)))).
  { unfold Monitor.sum_cur_cpu_time_. rewrite Hfile. cbn [bind].
    rewrite Hread. cbn [bind at_ nth_error]. rewrite Hsplit.
    rewrite subvect_in_range by (cbn [List.length]; lia).
    change (Z.to_nat 4) with 4%nat. change (Z.to_nat 1) with 1%nat.
    cbn [skipn firstn bind tools.convert_vector map_outcome].
    rewrite Ha, Hb, Hc, Hd. cbn [bind].
    unfold Monitor.accumulate_int.
    change 0 with (int_wrap 0) at 1.
    rewrite accumulate_int_fold. cbn [fold_right].
    replace (0 + (A + (B + (C + (D + 0))))) with (A + B + C + D) by ring.
    reflexivity. }
  pose proof (convert_int_u_long_range a A Ha).
  pose proof (convert_int_u_long_range b B Hb).
  pose proof (convert_int_u_long_range c C Hc).
  pose proof (convert_int_u_long_range d D Hd).
  split; [exact Hsum |]. split; intros Hrange; rewrite Hsum; f_equal.
  - unfold u_long_wrap, int_wrap, INT_MAX in *.
    rewrite (Z.mod_small (A + B + C + D + 2 ^ 31) (2 ^ 32)) by lia.
    replace (A + B + C + D + 2 ^ 31 - 2 ^ 31) with (A + B + C + D) by ring.
    apply Z.mod_small. lia.
  - unfold u_long_wrap, int_wrap, INT_MAX, UINT_MAX in *.
    replace (A + B + C + D + 2 ^ 31)
      with (A + B + C + D - 2 ^ 31 + 1 * 2 ^ 32) by ring.
    rewrite Z_mod_plus_full.
    rewrite (Z.mod_small (A + B + C + D - 2 ^ 31) (2 ^ 32)) by lia.
    replace (A + B + C + D - 2 ^ 31 - 2 ^ 31)
      with (A + B + C + D + (2 ^ 64 - 2 ^ 32) + (-1) * 2 ^ 64) by ring.
    rewrite Z_mod_plus_full. apply Z.mod_small. lia.
Qed.

Lemma aggregate_cpu_time_is_summed_in_int_witness :
  Monitor.sum_cur_cpu_time_ fixture.signal_cfg fixture.long_uptime
  = Ok (3000000000 + (2 ^ 64 - 2 ^ 32)).
Proof.
  refine (proj2 (proj2
    (aggregate_cpu_time_is_summed_in_int fixture.signal_cfg fixture.long_uptime
       "/proc/stat" "cpu  2000000000 0 1000000000 0 0 0 0 0 0 0" []
       "cpu" "2000000000" "0" "1000000000" "0" ["0"; "0"; "0"; "0"; "0"; "0"]
       2000000000 0 1000000000 0 _ _ _ _ _ _ _)) _);
    try (vm_compute; reflexivity).
  vm_compute. split; [reflexivity | discriminate].
Defined.

(** ** The command line *)

Lemma prefix_nil (s : string) : String.prefix "" s = true.
Proof. destruct s; reflexivity. Qed.

Lemma strncmp_eq_full (lit : string) :
  forall arg, cli.strncmp_eq arg lit (S (String.length lit)) = String.eqb arg lit.
Proof.
  induction lit as [| c lit IH]; intros [| x arg]; try reflexivity.
  change (String.length (String c lit)) with (S (String.length lit)).
  cbn [cli.strncmp_eq String.eqb]. rewrite IH. reflexivity.
Qed.

Lemma strncmp_eq_prefix (p : string) :
  forall arg rest,
    cli.strncmp_eq arg (p ++ rest) (String.length p) = String.prefix p arg.
Proof.
  induction p as [| c p IH]; intros arg rest.
  - rewrite prefix_nil. destruct arg; reflexivity.
  - change (String c p ++ rest)%string with (String c (p ++ rest)).
    destruct arg as [| x arg]; [reflexivity |].
    cbn [String.length cli.strncmp_eq String.prefix]. rewrite IH.
    destruct (Ascii.eqb_spec x c) as [-> | Hne].
    + destruct (ascii_dec c c); [reflexivity | contradiction].
    + destruct (ascii_dec c x) as [E | _]; [| reflexivity].
      exfalso. apply Hne. symmetry. exact E.
Qed.

(** X24.  What [main] makes of its arguments.  Only the first argument
    counts.  -h and --help print the help text, -v and --version the
    version; -w prints the configuration path, and so does every argument
    that begins with --which, because the comparison with --which-conf
    stops after seven characters; -d and --debug start the daemon in debug
    mode, and any other argument starts it as no argument does. *)
Theorem dispatch_reads_the_first_argument (arg : string) (rest : list string) :
  cli.dispatch [] = cli.Daemon false /\
  cli.dispatch (arg :: rest) = cli.dispatch [arg] /\
  cli.dispatch [arg]
  = if String.eqb arg "-h" || String.eqb arg "--help" then cli.Help
    else if String.eqb arg "-v" || String.eqb arg "--version" then cli.Version
    else if String.eqb arg "-w" || String.prefix "--which" arg
    then cli.WhichConf
    else cli.Daemon (String.eqb arg "-d" || String.eqb arg "--debug").
Proof.
  split; [reflexivity |]. split; [reflexivity |].
  unfold cli.dispatch.
  rewrite (strncmp_eq_full "-h" arg
           : cli.strncmp_eq arg "-h" 3 = String.eqb arg "-h").
  rewrite (strncmp_eq_full "--help" arg
           : cli.strncmp_eq arg "--help" 7 = String.eqb arg "--help").
  rewrite (strncmp_eq_full "-v" arg
           : cli.strncmp_eq arg "-v" 3 = String.eqb arg "-v").
  rewrite (strncmp_eq_full "--version" arg
           : cli.strncmp_eq arg "--version" 10 = String.eqb arg "--version").
  rewrite (strncmp_eq_full "-w" arg
           : cli.strncmp_eq arg "-w" 3 = String.eqb arg "-w").
  rewrite (strncmp_eq_full "-d" arg
           : cli.strncmp_eq arg "-d" 3 = String.eqb arg "-d").
  rewrite (strncmp_eq_full "--debug" arg
           : cli.strncmp_eq arg "--debug" 8 = String.eqb arg "--debug").
  rewrite (strncmp_eq_prefix "--which" arg "-conf"
           : cli.strncmp_eq arg "--which-conf" 7 = String.prefix "--which" arg).
  reflexivity.
Qed.

(** ** The record a stepwise operation picks *)

Lemma finite_lt_pos (m1 m2 : positive) (e1 e2 : Z) :
  SFltb (S754_finite false m1 e1) (S754_finite false m2 e2) = true <->
  e1 < e2 \/ (e1 = e2 /\ (m1 < m2)%positive).
Proof.
  unfold SFltb, SFcompare.
  change (PosDef.Pos.compare_cont Eq m1 m2) with (Pos.compare m1 m2).
  destruct (Z.compare_spec e1 e2) as [E | E | E].
  - rewrite <- Pos.compare_lt_iff.
    destruct (Pos.compare m1 m2); split; intros H;
      try discriminate; try reflexivity; try lia; auto.
    + destruct H as [H | [_ H]]; [lia | discriminate].
    + destruct H as [H | [_ H]]; [lia | discriminate].
  - split; [auto | reflexivity].
  - split; [discriminate | lia].
Qed.

Lemma finite_lt_neg (m1 m2 : positive) (e1 e2 : Z) :
  SFltb (S754_finite true m1 e1) (S754_finite true m2 e2) = true <->
  e2 < e1 \/ (e1 = e2 /\ (m2 < m1)%positive).
Proof.
  unfold SFltb, SFcompare.
  change (PosDef.Pos.compare_cont Eq m1 m2) with (Pos.compare m1 m2).
  destruct (Z.compare_spec e1 e2) as [E | E | E].
  - rewrite <- Pos.compare_gt_iff.
    destruct (Pos.compare m1 m2); cbn; split; intros H;
      try discriminate; try reflexivity; try lia; auto.
    + destruct H as [H | [_ H]]; [lia | discriminate].
    + destruct H as [H | [_ H]]; [lia | discriminate].
  - split; [discriminate | lia].
  - split; [auto | reflexivity].
Qed.

Lemma ltb_trans (x y z : float32.t) :
  float32.ltb x y = true -> float32.ltb y z = true -> float32.ltb x z = true.
Proof.
  unfold float32.ltb.
  destruct x as [sx | sx | | sx mx ex], y as [sy | sy | | sy my ey],
           z as [sz | sz | | sz mz ez];
    try (intros H; discriminate H); try (intros _ H; discriminate H);
    try (destruct sx, sy, sz; cbn; intros H1 H2;
         try reflexivity; try discriminate; fail).
  destruct sx, sy, sz; try (cbn; intros H1 H2;
                            try reflexivity; try discriminate; fail).
  - rewrite !finite_lt_neg. lia.
  - rewrite !finite_lt_pos. lia.
Qed.

Lemma ltb_irrefl (x : float32.t) : float32.ltb x x = false.
Proof.
  unfold float32.ltb, SFltb, SFcompare.
  destruct x as [s | s | | s m e]; try (destruct s; reflexivity);
    try reflexivity.
  rewrite Z.compare_refl.
  change (PosDef.Pos.compare_cont Eq m m) with (Pos.compare m m).
  rewrite Pos.compare_refl. destruct s; reflexivity.
Qed.


Lemma share_lt_trans (h : Monitor.store) (a b c : Monitor.ptr) :
  share_lt h a b -> share_lt h b c -> share_lt h a c.
Proof.
  intros (pa & pb & Ha & Hb & Hab) (pb' & pc & Hb' & Hc & Hbc).
  rewrite Hb in Hb'. injection Hb' as <-.
  exists pa, pc. repeat split; try assumption.
  exact (ltb_trans pa pb pc Hab Hbc).
Qed.

Lemma share_lt_irrefl (h : Monitor.store) (a : Monitor.ptr) : ~ share_lt h a a.
Proof.
  intros (pa & pb & Ha & Hb & Hab). rewrite Ha in Hb. injection Hb as <-.
  rewrite ltb_irrefl in Hab. discriminate.
Qed.

Lemma compare_shares (h : Monitor.store) (a b : Monitor.ptr) (c : bool) :
  (x <- Monitor.pct h a ;; y <- Monitor.pct h b ;; Ok (float32.ltb x y)) = Ok c ->
  if c then share_lt h a b else ~ share_lt h a b.
Proof.
  intros H. apply bind_Ok in H. destruct H as (pa & Ha & H).
  apply bind_Ok in H. destruct H as (pb & Hb & H). injection H as <-.
  destruct (float32.ltb pa pb) eqn:E.
  - exists pa, pb. auto.
  - intros (pa' & pb' & Ha' & Hb' & E').
    rewrite Ha in Ha'. rewrite Hb in Hb'.
    injection Ha' as <-. injection Hb' as <-. congruence.
Qed.

(** Both scans end on an element that no scanned element is strictly
    below: [min_element] with [<], and [max_element] with [>], which moves
    to an element when the current one is greater than it. *)
Lemma scan_minimal (h : Monitor.store) (x s y0 : Monitor.ptr)
  (rest : list Monitor.ptr) (c : bool) :
  (if c then share_lt h y0 s else ~ share_lt h y0 s) ->
  (share_lt h x (if c then y0 else s) \/ x = (if c then y0 else s)) ->
  (forall y, In y rest -> ~ share_lt h y x) ->
  (share_lt h x s \/ x = s) /\ forall y, In y (y0 :: rest) -> ~ share_lt h y x.
Proof.
  intros Hc Hx Hrest. destruct c.
  - split.
    + left. destruct Hx as [Hx | ->]; [| exact Hc].
      exact (share_lt_trans h x y0 s Hx Hc).
    + intros y [<- | Hy]; [| apply Hrest; exact Hy].
      destruct Hx as [Hx | ->]; [| apply share_lt_irrefl].
      intros H. exact (share_lt_irrefl h x (share_lt_trans h x y0 x Hx H)).
  - split; [exact Hx |].
    intros y [<- | Hy]; [| apply Hrest; exact Hy].
    destruct Hx as [Hx | ->]; [| exact Hc].
    intros H. apply Hc. exact (share_lt_trans h y0 x s H Hx).
Qed.

Lemma min_element_from_minimal (h : Monitor.store) (rest : list Monitor.ptr) :
  forall smallest x,
    Monitor.min_element_from
      (fun a b => x <- Monitor.pct h a ;; y <- Monitor.pct h b ;;
                  Ok (float32.ltb x y))
      smallest rest = Ok x ->
    (share_lt h x smallest \/ x = smallest) /\
    forall y, In y rest -> ~ share_lt h y x.
Proof.
  induction rest as [| y0 rest IH]; intros smallest x H.
  - injection H as <-. split; [right; reflexivity | intros y []].
  - cbn [Monitor.min_element_from] in H.
    apply bind_Ok in H. destruct H as (c & Hc & H).
    apply compare_shares in Hc. destruct (IH _ _ H) as [Hx Hrest].
    exact (scan_minimal h x smallest y0 rest c Hc Hx Hrest).
Qed.

Lemma max_element_from_minimal (h : Monitor.store) (rest : list Monitor.ptr) :
  forall largest x,
    Monitor.max_element_from
      (fun a b => x <- Monitor.pct h a ;; y <- Monitor.pct h b ;;
                  Ok (float32.gtb x y))
      largest rest = Ok x ->
    (share_lt h x largest \/ x = largest) /\
    forall y, In y rest -> ~ share_lt h y x.
Proof.
  induction rest as [| y0 rest IH]; intros largest x H.
  - injection H as <-. split; [right; reflexivity | intros y []].
  - cbn [Monitor.max_element_from] in H.
    apply bind_Ok in H. destruct H as (c & Hc & H).
    assert (Hc' : if c then share_lt h y0 largest else ~ share_lt h y0 largest).
    { apply compare_shares.
      apply bind_Ok in Hc. destruct Hc as (pl & Hl & Hc).
      apply bind_Ok in Hc. destruct Hc as (py & Hy & Hc). injection Hc as <-.
      rewrite Hy, Hl. reflexivity. }
    destruct (IH _ _ H) as [Hx Hrest].
    exact (scan_minimal h x largest y0 rest c Hc' Hx Hrest).
Qed.

Lemma scan_least (h : Monitor.store) (x s : Monitor.ptr)
  (rest : list Monitor.ptr) :
  (share_lt h x s \/ x = s) ->
  (forall y, In y rest -> ~ share_lt h y x) ->
  forall y, In y (s :: rest) -> ~ share_lt h y x.
Proof.
  intros Hx Hrest y [<- | Hy]; [| apply Hrest; exact Hy].
  destruct Hx as [Hx | ->]; [| apply share_lt_irrefl].
  intros H. exact (share_lt_irrefl h x (share_lt_trans h x s x Hx H)).
Qed.

(** X25.  Which record a stepwise operation picks.  [send_next_SIGSTOP_]
    signals one candidate and [send_next_SIGCONT_] one self-stopped record,
    and in both cases no record of the vector has a share strictly below
    the share of the record picked: the stepwise stop, which scans with
    [max_element] and the comparison [>], picks a least share as the
    stepwise continue does. *)
Theorem stepwise_picks_a_least_share (first : Monitor.ptr)
  (rest : list Monitor.ptr) (m m' : Monitor.t) :
  (Monitor.send_next_SIGSTOP_ (first :: rest) m = Ok m' ->
   exists x p,
     In x (first :: rest) /\
     Monitor.lookup (Monitor.objects m) x = Some p /\
     Monitor.self_stopped_pids_ m' = Monitor.self_stopped_pids_ m ++ [x] /\
     kills (Monitor.effects m') = kills (Monitor.effects m) ++ [(Pid.pid p, 19)] /\
     forall y, In y (first :: rest) -> ~ share_lt (Monitor.objects m) y x) /\
  (Monitor.self_stopped_pids_ m = first :: rest ->
   Monitor.send_next_SIGCONT_ m = Ok m' ->
   exists x p,
     In x (first :: rest) /\
     Monitor.lookup (Monitor.objects m) x = Some p /\
     Monitor.holds (Monitor.objects m') Pid.is_self_stopped x = false /\
     kills (Monitor.effects m') = kills (Monitor.effects m) ++ [(Pid.pid p, 18)] /\
     forall y, In y (first :: rest) -> ~ share_lt (Monitor.objects m) y x).
Proof.
  split.
  - intros H. unfold Monitor.send_next_SIGSTOP_ in H.
    apply bind_Ok in H. destruct H as (x & Hmax & H).
    apply bind_Ok in H. destruct H as (p & Hp & H).
    apply deref_Ok in Hp. injection H as <-. exists x, p.
    destruct (max_element_from_minimal _ _ _ _ Hmax) as [Hx Hrest].
    split; [exact (max_element_from_In _ _ _ _ Hmax) |].
    split; [exact Hp |]. split; [reflexivity |]. split.
    + unfold kills. cbn. rewrite !flat_map_app. cbn. rewrite app_nil_r.
      reflexivity.
    + exact (scan_least _ x first rest Hx Hrest).
  - intros Hss H. unfold Monitor.send_next_SIGCONT_ in H. rewrite Hss in H.
    apply bind_Ok in H. destruct H as (x & Hmin & H).
    apply bind_Ok in H. destruct H as (p & Hp & H).
    apply deref_Ok in Hp. injection H as <-. exists x, p.
    destruct (min_element_from_minimal _ _ _ _ Hmin) as [Hx Hrest].
    split; [exact (min_element_from_In _ _ _ _ Hmin) |].
    split; [exact Hp |]. split.
    + cbn. unfold Monitor.holds. rewrite lookup_assign, Nat.eqb_refl, Hp.
      reflexivity.
    + split.
      * unfold kills. cbn. rewrite !flat_map_app. cbn. rewrite app_nil_r.
        reflexivity.
      * exact (scan_least _ x first rest Hx Hrest).
Qed.

Lemma stepwise_picks_a_least_share_witness :
  exists x p,
    In x [0; 1; 2]%nat /\
    Monitor.lookup
      (Monitor.objects
         (fixture.value fixture.s0
            (m2 <- fixture.sampled_once fixture.signal_conf ;;
             Monitor.update_pids_ (fixture.third_tick fixture.signal_conf) m2)))
      x = Some p /\
    Pid.pid p = 100.
Proof.
  destruct (proj1 (stepwise_picks_a_least_share 0%nat [1; 2]%nat
              (fixture.value fixture.s0
                 (m2 <- fixture.sampled_once fixture.signal_conf ;;
                  Monitor.update_pids_ (fixture.third_tick fixture.signal_conf)
                                       m2))
              (fixture.value fixture.s0
                 (m2 <- fixture.sampled_once fixture.signal_conf ;;
                  Monitor.exec_SIGSTOP_ (fixture.third_tick fixture.signal_conf)
                                        m2))))
    as (x & p & Hx & Hp & _ & Hk & _); [vm_compute; reflexivity |].
  exists x, p. split; [exact Hx |]. split; [exact Hp |].
  assert (E : kills (Monitor.effects
                (fixture.value fixture.s0
                   (m2 <- fixture.sampled_once fixture.signal_conf ;;
                    Monitor.exec_SIGSTOP_
                      (fixture.third_tick fixture.signal_conf) m2)))
              = [(100, 19)]) by (vm_compute; reflexivity).
  rewrite E in Hk.
  assert (E0 : kills (Monitor.effects
                 (fixture.value fixture.s0
                    (m2 <- fixture.sampled_once fixture.signal_conf ;;
                     Monitor.update_pids_
                       (fixture.third_tick fixture.signal_conf) m2)))
               = []) by (vm_compute; reflexivity).
  rewrite E0 in Hk. injection Hk as Hk. symmetry. exact Hk.
Defined.


(** ** The parent directory of a file *)

Lemma subvect_prefix {A : Type} (l : list A) (n : nat) :
  (0 < n <= List.length l)%nat ->
  tools.subvect l 0 (Z.of_nat n) = Ok (firstn n l).
Proof.
  intros Hn. rewrite subvect_in_range by lia.
  rewrite Nat2Z.id. reflexivity.
Qed.

(** X26.  The parent directory of a file path.  For a path of plain
    components between runs of slashes, [ensure_deep_parent] tests the
    path made of all components but the last, joined by single slashes
    after one leading slash; for a path with one component only, a file
    directly under the root, it joins an empty vector, which is
    undefined. *)
Theorem parent_of_a_path (lead : nat) (toks : list (string * nat))
  (name : string) (k : nat) :
  forallb (fun tk => plain "/" (fst tk)) (toks ++ [(name, k)]) = true ->
  separated (toks ++ [(name, k)]) = true ->
  io.parent_path (run "/" lead ++ spaced "/" (toks ++ [(name, k)]))
  = match List.map fst toks with
    | [] => Undefined
    | dir :: dirs => Ok ("/" ++ tools.join_nonempty dir dirs "/")%string
    end.
Proof.
  intros Hplain Hsep. unfold io.parent_path.
  rewrite (split_layout "/" lead _ eq_refl Hplain Hsep).
  rewrite map_app. cbn [List.map fst]. cbv zeta.
  rewrite length_app. cbn [List.length].
  replace (Z.of_nat (List.length (List.map fst toks) + 1) - 1)
    with (Z.of_nat (List.length (List.map fst toks))) by lia.
  destruct (List.map fst toks) as [| dir dirs] eqn:E.
  - reflexivity.
  - rewrite subvect_prefix by (rewrite length_app; cbn; lia).
    rewrite firstn_app, firstn_all, Nat.sub_diag. cbn [firstn].
    rewrite app_nil_r. reflexivity.
Qed.

Lemma parent_of_a_path_witness :
  io.parent_path "/var/log//templimiter.log" = Ok "/var/log" /\
  io.parent_path "/templimiter.log" = Undefined.
Proof.
  split.
  - apply (parent_of_a_path 1 [("var", 1%nat); ("log", 2%nat)]
             "templimiter.log" 0); reflexivity.
  - apply (parent_of_a_path 1 [] "templimiter.log" 0); reflexivity.
Defined.

(** ** Making the directories of a path *)

Lemma join_nonempty_snoc (c : string) (ps : list string) :
  forall p,
    tools.join_nonempty p (ps ++ [c]) "/"
    = (tools.join_nonempty p ps "/" ++ "/" ++ c)%string.
Proof.
  induction ps as [| p' ps IH]; intros p; cbn [app tools.join_nonempty].
  - reflexivity.
  - rewrite IH, !string_app_assoc. reflexivity.
Qed.

Lemma dir_of_snoc (pre : list string) (c : string) :
  dir_of (pre ++ [c]) = (dir_of pre ++ "/" ++ c)%string.
Proof.
  destruct pre as [| p ps]; [reflexivity |].
  cbn [app dir_of]. rewrite join_nonempty_snoc, !string_app_assoc.
  reflexivity.
Qed.

Lemma join_dir_of (cs : list string) :
  cs <> [] ->
  (joined <- tools.join cs "/" ;; Ok ("/" ++ joined)%string) = Ok (dir_of cs).
Proof. destruct cs as [| c r]; [congruence | reflexivity]. Qed.

Lemma mkdir_deep_loop (fs : io.filesystem) (mkdir : string -> bool)
  (r : list string) :
  forall pre made,
    for_each
      (fun depth made =>
         sub <- tools.subvect (pre ++ r) 0 (Z.of_nat (depth + 1)) ;;
         joined <- tools.join sub "/" ;;
         let cur := ("/" ++ joined)%string in
         if negb (io.file_exists fs cur) then
           if mkdir cur then Ok (made ++ [cur]) else Raise IOError
         else Ok made)
      (seq (List.length pre) (List.length r)) made
    = if forallb mkdir (missing fs (ancestors_from (dir_of pre) r))
      then Ok (made ++ missing fs (ancestors_from (dir_of pre) r))
      else Raise IOError.
Proof.
  induction r as [| c r IH]; intros pre made.
  - cbn. rewrite app_nil_r. reflexivity.
  - cbn [List.length seq for_each ancestors_from].
    rewrite subvect_prefix by (rewrite length_app; cbn [List.length]; lia).
    replace (firstn (List.length pre + 1) (pre ++ c :: r)) with (pre ++ [c]).
    2:{ rewrite firstn_app, firstn_all2 by lia.
        replace (List.length pre + 1 - List.length pre)%nat with 1%nat by lia.
        reflexivity. }
    cbn [bind].
    assert (Hj : tools.join (pre ++ [c]) "/"
                 = Ok (tools.join_nonempty
                         (hd c (pre ++ [c])) (tl (pre ++ [c])) "/")).
    { destruct pre; reflexivity. }
    rewrite Hj. cbn [bind]. cbv zeta.
    assert (Hd : ("/" ++ tools.join_nonempty
                           (hd c (pre ++ [c])) (tl (pre ++ [c])) "/")%string
                 = (dir_of pre ++ "/" ++ c)%string).
    { rewrite <- dir_of_snoc. destruct pre; reflexivity. }
    rewrite Hd. clear Hj Hd.
    specialize (IH (pre ++ [c])).
    rewrite <- app_assoc in IH. cbn [app] in IH.
    rewrite length_app in IH. cbn [List.length] in IH.
    replace (List.length pre + 1)%nat with (S (List.length pre)) in IH by lia.
    rewrite dir_of_snoc in IH. cbv zeta in IH.
    unfold missing in *. cbn [filter].
    destruct (io.file_exists fs (dir_of pre ++ "/" ++ c)) eqn:Ex; cbn [negb].
    + cbn [bind]. rewrite IH. reflexivity.
    + cbn [forallb].
      destruct (mkdir (dir_of pre ++ "/" ++ c)%string) eqn:Em; cbn [andb bind].
      * rewrite IH. rewrite <- app_assoc. reflexivity.
      * reflexivity.
Qed.

Lemma mkdir_deep_components (fs : io.filesystem) (mkdir : string -> bool)
  (dir_path : string) (cs : list string) :
  tools.split dir_path "/" = cs ->
  io.mkdir_deep fs mkdir dir_path
  = if forallb mkdir (missing fs (ancestors cs))
    then Ok (missing fs (ancestors cs)) else Raise IOError.
Proof.
  intros E. unfold io.mkdir_deep. rewrite E. cbv zeta.
  apply (mkdir_deep_loop fs mkdir cs [] []).
Qed.

Lemma split_dir_of (cs : list string) :
  forallb (plain "/") cs = true -> tools.split (dir_of cs) "/" = cs.
Proof.
  intros Hplain. destruct cs as [| c r]; [reflexivity |].
  unfold tools.split. cbn [dir_of].
  change ("/" ++ tools.join_nonempty c r "/")%string
    with (run "/" 1 ++ tools.join_nonempty c r "/")%string.
  rewrite (split_loop_run_empty "/" 1 eq_refl).
  apply (split_loop_join "/" eq_refl r c [] false Hplain).
Qed.

(** X27.  [mkdir_deep] makes the missing directories from the top down.
    For a path of plain components between runs of slashes it tests every
    directory on the way from the root to the path, the top one first,
    and calls [mkdir] on exactly those that [stat] does not find: when all
    the calls succeed these directories are made in that order, and when
    one fails the function throws an [IOError]. *)
Theorem mkdir_deep_makes_the_missing (fs : io.filesystem)
  (mkdir : string -> bool) (lead : nat) (toks : list (string * nat)) :
  forallb (fun tk => plain "/" (fst tk)) toks = true ->
  separated toks = true ->
  io.mkdir_deep fs mkdir (run "/" lead ++ spaced "/" toks)
  = if forallb mkdir (missing fs (ancestors (List.map fst toks)))
    then Ok (missing fs (ancestors (List.map fst toks)))
    else Raise IOError.
Proof.
  intros Hplain Hsep. apply mkdir_deep_components.
  apply (split_layout "/" lead toks eq_refl Hplain Hsep).
Qed.

Lemma mkdir_deep_makes_the_missing_witness :
  io.mkdir_deep fixture.var_only (fun _ => true) "/var/log//templimiter/"
  = Ok ["/var/log"; "/var/log/templimiter"] /\
  io.mkdir_deep fixture.var_only (String.eqb "/var/log") "/var/log//templimiter/"
  = Raise IOError.
Proof.
  split.
  - apply (mkdir_deep_makes_the_missing fixture.var_only (fun _ => true) 1
             [("var", 1%nat); ("log", 2%nat); ("templimiter", 1%nat)]);
      reflexivity.
  - apply (mkdir_deep_makes_the_missing fixture.var_only
             (String.eqb "/var/log") 1
             [("var", 1%nat); ("log", 2%nat); ("templimiter", 1%nat)]);
      reflexivity.
Defined.

(** X28.  [ensure_deep_parent] makes what is missing above a file and
    nothing else.  For a file path of plain components between runs of
    slashes, with at least one directory above the file: when the parent
    directory exists nothing is made; otherwise the directories made are
    exactly the missing ones from the root down to the parent, the top
    one first, and an [IOError] is thrown when one of the calls of [mkdir]
    fails. *)
Theorem ensure_deep_parent_makes_the_missing (fs : io.filesystem)
  (mkdir : string -> bool) (lead : nat) (toks : list (string * nat))
  (name : string) (k : nat) :
  forallb (fun tk => plain "/" (fst tk)) (toks ++ [(name, k)]) = true ->
  separated (toks ++ [(name, k)]) = true ->
  toks <> [] ->
  io.ensure_deep_parent fs mkdir
    (run "/" lead ++ spaced "/" (toks ++ [(name, k)]))
  = if io.file_exists fs (dir_of (List.map fst toks)) then Ok []
    else if forallb mkdir (missing fs (ancestors (List.map fst toks)))
         then Ok (missing fs (ancestors (List.map fst toks)))
         else Raise IOError.
Proof.
  intros Hplain Hsep Hne. unfold io.ensure_deep_parent, io.parent_path.
  rewrite (split_layout "/" lead _ eq_refl Hplain Hsep).
  rewrite map_app. cbn [List.map fst]. cbv zeta.
  rewrite length_app. cbn [List.length].
  replace (Z.of_nat (List.length (List.map fst toks) + 1) - 1)
    with (Z.of_nat (List.length (List.map fst toks))) by lia.
  assert (Hdirs : forallb (plain "/") (List.map fst toks) = true).
  { rewrite forallb_app in Hplain. apply andb_true_iff in Hplain.
    destruct Hplain as [Hp _]. rewrite forallb_forall in Hp.
    apply forallb_forall. intros x Hx. apply in_map_iff in Hx.
    destruct Hx as (tk & <- & Htk). apply (Hp tk Htk). }
  destruct (List.map fst toks) as [| dir dirs] eqn:E.
  - destruct toks; [congruence | discriminate E].
  - rewrite subvect_prefix by (rewrite length_app; cbn; lia).
    rewrite firstn_app, firstn_all, Nat.sub_diag. cbn [firstn].
    rewrite app_nil_r. cbn [tools.join bind].
    change ("/" ++ tools.join_nonempty dir dirs "/")%string
      with (dir_of (dir :: dirs)).
    destruct (io.file_exists fs (dir_of (dir :: dirs))); cbn [negb];
      [reflexivity |].
    apply mkdir_deep_components. apply split_dir_of. exact Hdirs.
Qed.

Lemma ensure_deep_parent_makes_the_missing_witness :
  io.ensure_deep_parent fixture.var_only (fun _ => true)
    "/var/log/templimiter/run.log"
  = Ok ["/var/log"; "/var/log/templimiter"].
Proof.
  apply (ensure_deep_parent_makes_the_missing fixture.var_only (fun _ => true)
           1 [("var", 1%nat); ("log", 1%nat); ("templimiter", 1%nat)]
           "run.log" 0);
    [reflexivity | reflexivity | discriminate].
Defined.
